(** * Student training platform: the HTTP API of the three server variants
    and the page that calls it

    A shallow embedding of the Express servers of the repository and of the
    script of its front-end page:

    - the development server (the unnamed server file [part_000]):
      authentication, module catalog and progress routes over SQLite;
    - [backend/server-production.js]: the authentication routes only;
    - the Railway variant (last document of [frontend/js/app-with-learning.js],
      which does not parse as written): the text of its tables and of its
      authentication handlers, with session regeneration and cookie clearing;
    - the script of the page (the unnamed file [part_001]): the
      authentication forms, the status line and the loading of the module
      list ([Client]).

    What is modelled and what is not:

    - SQLite tables are lists of rows over a declared schema (columns, NOT
      NULL, defaults, UNIQUE constraints); [INSERT] and [INSERT OR REPLACE]
      follow SQLite's conflict handling.  Column type affinity and I/O
      failures of the database file are not modelled.
    - express-session is modelled with its in-memory store: a finite map from
      session identifiers to the stored data and expiry time.  Identifiers
      come from a counter, the model of uid-safe's random identifiers.
    - bcryptjs is an interface ([Bcrypt]); [sample_bcrypt] instantiates it
      to run the handlers on concrete requests.
    - a request body carries the fields the handlers destructure; the three
      authentication fields are strings or absent.  A string holds the UTF-8
      encoding of a JavaScript string; its length ([Js.length]) counts
      UTF-16 code units, as [s.length] does.
    - requests are GET or POST; console output, CORS headers and
      [express.static] are left out: the repository has no static file under
      [frontend/api], so a request to [/api/...] always reaches the routes.
      The origin check of server-production.js and the retry policy of the
      Redis client are modelled on their own ([Cors], [Redis]); [serve]
      takes a request that has passed the origin check.
    - callbacks run in the order of the source, one request at a time. *)

From Stdlib Require Import ZArith Ascii Bool.
From stdpp Require Import base decidable option list strings gmap fin_maps.

Local Open Scope Z_scope.
Set Warnings "-register-all".

(** ** JavaScript strings *)

Module Js.

(** The double-quote character, for the code samples of the catalog. *)
Definition dq : string := String (ascii_of_nat 34) EmptyString.

(** [needle] starts [hay]. *)
Fixpoint starts_with (needle hay : string) : bool :=
  match needle, hay with
  | EmptyString, _ => true
  | String a n, String b h => Ascii.eqb a b && starts_with n h
  | String _ _, EmptyString => false
  end.

(** [String.prototype.includes]. *)
Fixpoint includes (needle hay : string) : bool :=
  starts_with needle hay ||
  match hay with
  | EmptyString => false
  | String _ h => includes needle h
  end.

(** ASCII lower case, as the [i] flag of a route's regular expression. *)
Definition lower (a : ascii) : ascii :=
  let n := nat_of_ascii a in
  if (Nat.leb 65 n && Nat.leb n 90)%bool then ascii_of_nat (n + 32) else a.

Fixpoint has_slash (s : string) : bool :=
  match s with
  | EmptyString => false
  | String a s' => Ascii.eqb a "/"%char || has_slash s'
  end.

(** [s] without [prefix], compared without case. *)
Fixpoint strip_prefix (prefix s : string) : option string :=
  match prefix, s with
  | EmptyString, _ => Some s
  | String a p, String b s' =>
      if Ascii.eqb (lower a) (lower b) then strip_prefix p s' else None
  | String _ _, EmptyString => None
  end.

(** [s] without one trailing slash. *)
Fixpoint strip_trailing_slash (s : string) : string :=
  match s with
  | EmptyString => EmptyString
  | String a EmptyString => if Ascii.eqb a "/"%char then EmptyString else s
  | String a s' => String a (strip_trailing_slash s')
  end.

(** Truthiness of a string-or-undefined value: [!x] is [negb (truthy x)]. *)
Definition truthy (x : option string) : bool :=
  match x with
  | Some s => negb (String.eqb s EmptyString)
  | None => false
  end.

Definition str (x : option string) : string := default EmptyString x.

(** Truthiness of a number-or-undefined value. *)
Definition truthy_num (x : option Z) : bool :=
  match x with
  | Some n => negb (n =? 0)
  | None => false
  end.

Definition is_digit (a : ascii) : bool :=
  let n := nat_of_ascii a in (Nat.leb 48 n && Nat.leb n 57)%bool.

Fixpoint digits (acc : option Z) (s : string) : option Z :=
  match s with
  | EmptyString => acc
  | String a s' =>
      if is_digit a
      then digits (Some (10 * default 0 acc + Z.of_nat (nat_of_ascii a - 48))) s'
      else acc
  end.

(** [parseInt]: the leading decimal digits after an optional sign; [None] is
    [NaN].  Leading white space and the [0x] prefix are not modelled. *)
Definition parseInt (s : string) : option Z :=
  match s with
  | String "-"%char s' => Z.opp <$> digits None s'
  | String "+"%char s' => digits None s'
  | _ => digits None s
  end.

(** Scalar values of a JSON request body. *)
Inductive jsval :=
| Undefined
| Null
| Bool (b : bool)
| Num (n : Z)
| Str (s : string).


(** A string holds the UTF-8 encoding of a JavaScript string.  The UTF-16
    code units a byte stands for: one for the first byte of a character of
    one to three bytes, two for the first byte of a character of four bytes
    (a surrogate pair), none for a continuation byte. *)
Definition units (a : ascii) : nat :=
  let n := nat_of_ascii a in
  if Nat.ltb n 128 then 1%nat
  else if Nat.ltb n 192 then 0%nat
  else if Nat.ltb n 240 then 1%nat
  else 2%nat.

(** [s.length]: the number of UTF-16 code units. *)
Fixpoint length (s : string) : nat :=
  match s with
  | EmptyString => 0%nat
  | String a s' => (units a + length s')%nat
  end.

(** The UTF-8 encoding of a character of the basic multilingual plane. *)
Definition utf8 (c : N) : string :=
  if (c <? 128)%N then String (ascii_of_N c) EmptyString
  else if (c <? 2048)%N then
    String (ascii_of_N (192 + c / 64))
      (String (ascii_of_N (128 + c mod 64)) EmptyString)
  else
    String (ascii_of_N (224 + c / 4096))
      (String (ascii_of_N (128 + (c / 64) mod 64))
         (String (ascii_of_N (128 + c mod 64)) EmptyString)).

Definition is_continuation (a : ascii) : bool :=
  let n := nat_of_ascii a in (Nat.leb 128 n && Nat.ltb n 192)%bool.

(** The characters of a string: each first byte with the continuation bytes
    that follow it. *)
Fixpoint chars (s : string) : list string :=
  match s with
  | EmptyString => []
  | String a s' =>
      let cs := chars s' in
      match s' with
      | EmptyString => [String a EmptyString]
      | String b _ =>
          if is_continuation b then
            match cs with
            | c :: cs' => String a c :: cs'
            | [] => [String a EmptyString]
            end
          else String a EmptyString :: cs
      end
  end.

(** The code points that [String.prototype.trim] removes: the white space
    (TAB, VT, FF, ZWNBSP and the space separators of Unicode) and the line
    terminators (LF, CR, LS, PS) of ECMAScript. *)
Definition white_space : list N :=
  [9; 10; 11; 12; 13; 32; 160; 5760;
   8192; 8193; 8194; 8195; 8196; 8197; 8198; 8199; 8200; 8201; 8202;
   8232; 8233; 8239; 8287; 12288; 65279]%N.

Definition is_space (c : string) : bool :=
  existsb (λ w, String.eqb c (utf8 w)) white_space.

Fixpoint drop_spaces (cs : list string) : list string :=
  match cs with
  | [] => []
  | c :: cs' => if is_space c then drop_spaces cs' else cs
  end.

Definition join (cs : list string) : string :=
  foldr String.append EmptyString cs.

(** [String.prototype.trim]. *)
Definition trim (s : string) : string :=
  join (rev (drop_spaces (rev (drop_spaces (chars s))))).

End Js.

(** ** JSON responses *)

Inductive json :=
| JNull
| JBool (b : bool)
| JNum (n : Z)
| JStr (s : string)
| JArr (items : list json)
| JObj (fields : list (string * json)).

(** [JSON.stringify] drops a field whose value is [undefined]. *)
Definition field {A} (name : string) (to_json : A → json) (x : option A)
  : list (string * json) :=
  match x with
  | Some v => [(name, to_json v)]
  | None => []
  end.

Definition keys (j : json) : list string :=
  match j with
  | JObj fields => fst <$> fields
  | _ => []
  end.

Fixpoint get (name : string) (fields : list (string * json)) : option json :=
  match fields with
  | [] => None
  | (k, v) :: rest => if String.eqb k name then Some v else get name rest
  end.

Definition member (name : string) (j : json) : option json :=
  match j with
  | JObj fields => get name fields
  | _ => None
  end.

(** ** SQLite: tables, constraints and the statements the servers run *)

Module Sql.

Inductive value :=
| VNull
| VInt (n : Z)
| VText (s : string).

#[global] Instance value_eq_dec : EqDecision value.
Proof. solve_decision. Defined.

(** A column's [DEFAULT] clause; [DNow] is [DEFAULT CURRENT_TIMESTAMP]. *)
Inductive default_clause :=
| DNone
| DValue (v : value)
| DNow.

Record column := Column {
  col_name : string;
  col_notnull : bool;
  col_default : default_clause
}.

(** Every table of the servers has [id INTEGER PRIMARY KEY AUTOINCREMENT];
    [sch_columns] lists the other columns and [sch_unique] the UNIQUE
    constraints, in the order of the [CREATE TABLE] statement. *)
Record schema := Schema {
  sch_name : string;
  sch_columns : list column;
  sch_unique : list (list string)
}.

Definition row := list (string * value).

Record table := Table {
  tbl_schema : schema;
  tbl_rows : list row;
  tbl_seq : Z
}.

Definition create_table (s : schema) : table := Table s [] 0.

Fixpoint lookup_cell (c : string) (r : row) : option value :=
  match r with
  | [] => None
  | (k, v) :: r' => if String.eqb k c then Some v else lookup_cell c r'
  end.

Definition cell (c : string) (r : row) : value := default VNull (lookup_cell c r).

Inductive error :=
| NoSuchColumn (tbl col : string)
| NotNullFailed (tbl col : string)
| UniqueFailed (tbl : string) (cols : list string).

Fixpoint qualified (tbl : string) (cols : list string) : string :=
  match cols with
  | [] => EmptyString
  | [c] => tbl +:+ "." +:+ c
  | c :: cs => tbl +:+ "." +:+ c +:+ ", " +:+ qualified tbl cs
  end.

(** [err.message] of node-sqlite3. *)
Definition message (e : error) : string :=
  match e with
  | NoSuchColumn t c =>
      "SQLITE_ERROR: table " +:+ t +:+ " has no column named " +:+ c
  | NotNullFailed t c =>
      "SQLITE_CONSTRAINT: NOT NULL constraint failed: " +:+ t +:+ "." +:+ c
  | UniqueFailed t cs =>
      "SQLITE_CONSTRAINT: " +:+ "UNIQUE constraint failed: " +:+ qualified t cs
  end.

Inductive on_conflict := Abort | Replace.

Definition has_column (s : schema) (c : string) : bool :=
  existsb (λ col, String.eqb (col_name col) c) (sch_columns s).

Definition default_value (now : Z) (d : default_clause) : value :=
  match d with
  | DNone => VNull
  | DValue v => v
  | DNow => VInt now
  end.

(** The value stored in one column: the supplied one, or the default when
    the statement does not name the column.  A NULL in a NOT NULL column
    aborts the statement, except that OR REPLACE substitutes a non-NULL
    default. *)
Definition column_value (mode : on_conflict) (now : Z) (tbl : string)
    (given : row) (col : column) : error + value :=
  let v := match lookup_cell (col_name col) given with
           | Some v => v
           | None => default_value now (col_default col)
           end in
  match v with
  | VNull =>
      if col_notnull col then
        match mode, default_value now (col_default col) with
        | Abort, _ | Replace, VNull => inl (NotNullFailed tbl (col_name col))
        | Replace, d => inr d
        end
      else inr VNull
  | _ => inr v
  end.

Fixpoint column_values (mode : on_conflict) (now : Z) (tbl : string)
    (given : row) (cols : list column) : error + row :=
  match cols with
  | [] => inr []
  | col :: cols' =>
      match column_value mode now tbl given col with
      | inl e => inl e
      | inr v =>
          match column_values mode now tbl given cols' with
          | inl e => inl e
          | inr r => inr ((col_name col, v) :: r)
          end
      end
  end.

(** Two rows collide on a UNIQUE constraint when they agree on all its
    columns; NULL never collides. *)
Definition agree_on (cols : list string) (r r' : row) : bool :=
  forallb (λ c, match cell c r with
                | VNull => false
                | v => bool_decide (cell c r' = v)
                end) cols.

Definition collides (s : schema) (r r' : row) : bool :=
  existsb (λ cols, agree_on cols r r') (sch_unique s).

(** [INSERT [OR REPLACE] INTO t (columns of given) VALUES (values of given)]:
    the new table and [this.lastID], or the error passed to the callback.
    A failed statement leaves the table as it was. *)
Definition insert (mode : on_conflict) (now : Z) (t : table) (given : row)
  : error + table * Z :=
  let s := tbl_schema t in
  match find (λ kv, negb (has_column s kv.1)) given with
  | Some (c, _) => inl (NoSuchColumn (sch_name s) c)
  | None =>
      match column_values mode now (sch_name s) given (sch_columns s) with
      | inl e => inl e
      | inr vals =>
          let id := tbl_seq t + 1 in
          let r := ("id", VInt id) :: vals in
          match mode with
          | Abort =>
              match find (λ cols, existsb (agree_on cols r) (tbl_rows t))
                         (sch_unique s) with
              | Some cols => inl (UniqueFailed (sch_name s) cols)
              | None => inr (Table s (tbl_rows t ++ [r]) id, id)
              end
          | Replace =>
              inr (Table s (filter (λ r', ¬ collides s r r') (tbl_rows t) ++ [r])
                         id, id)
          end
      end
  end.

(** [SELECT * FROM t WHERE c = ?] through [db.get]: the first matching row. *)
Definition select_first (c : string) (v : value) (t : table) : option row :=
  find (λ r, bool_decide (cell c r = v)) (tbl_rows t).

(** The order of [ORDER BY] on the values the servers store: NULL first,
    then integers, then text (text is left in insertion order). *)
Definition value_le (a b : value) : bool :=
  match a, b with
  | VNull, _ => true
  | VInt _, VNull => false
  | VInt x, VInt y => x <=? y
  | VInt _, VText _ => true
  | VText _, VText _ => true
  | VText _, _ => false
  end.

Fixpoint insert_sorted (c : string) (r : row) (rs : list row) : list row :=
  match rs with
  | [] => [r]
  | r' :: rs' =>
      if value_le (cell c r') (cell c r) then r' :: insert_sorted c r rs'
      else r :: rs
  end.

(** [SELECT * FROM t ORDER BY c]. *)
Definition select_order_by (c : string) (t : table) : list row :=
  foldl (λ acc r, insert_sorted c r acc) [] (tbl_rows t).

(** [SELECT l.*, r.extra FROM l JOIN r ON l.lcol = r.rcol WHERE l.wcol = ?]. *)
Definition select_join (l r : table) (lcol rcol extra wcol : string)
    (v : value) : list row :=
  lr ← filter (λ lr, cell wcol lr = v) (tbl_rows l);
  rr ← filter (λ rr, cell lcol lr = cell rcol rr ∧ cell lcol lr ≠ VNull)
              (tbl_rows r);
  [lr ++ [(extra, cell extra rr)]].

(** Binding a JavaScript value to a [?] placeholder: booleans become 0 or 1,
    an [undefined] parameter stays unbound, which SQLite reads as NULL.  The
    value is stored as bound: the conversion that SQLite applies to a text
    stored in a column of integer or numeric affinity is not modelled, so
    the statements about [user_progress] take parameters that are no
    strings ([Js.is_str]). *)
Definition bind (v : Js.jsval) : value :=
  match v with
  | Js.Undefined | Js.Null => VNull
  | Js.Bool b => VInt (if b then 1 else 0)
  | Js.Num n => VInt n
  | Js.Str s => VText s
  end.

Definition value_json (v : value) : json :=
  match v with
  | VNull => JNull
  | VInt n => JNum n
  | VText s => JStr s
  end.

Definition row_json (r : row) : json :=
  JObj ((λ kv, (kv.1, value_json kv.2)) <$> r).

End Sql.

(** ** The database file [./database/students.db] *)

(** [users], as all three servers create it. *)
Definition users_schema : Sql.schema :=
  Sql.Schema "users"
    [Sql.Column "username" true Sql.DNone;
     Sql.Column "email" true Sql.DNone;
     Sql.Column "password_hash" true Sql.DNone;
     Sql.Column "created_at" false Sql.DNow]
    [["username"]; ["email"]].

(** [modules], as the development and Railway servers create it. *)
Definition modules_schema : Sql.schema :=
  Sql.Schema "modules"
    [Sql.Column "title" true Sql.DNone;
     Sql.Column "description" false Sql.DNone;
     Sql.Column "content" false Sql.DNone;
     Sql.Column "order_index" false Sql.DNone]
    [].

(** server-production.js creates and uses [users] only; in its database the
    other two tables are never read. *)
Record database := Database {
  users_table : Sql.table;
  user_progress_table : Sql.table;
  modules_table : Sql.table
}.

Definition set_users (t : Sql.table) (d : database) : database :=
  Database t (user_progress_table d) (modules_table d).

Definition set_user_progress (t : Sql.table) (d : database) : database :=
  Database (users_table d) t (modules_table d).

(** ** Sessions (express-session with its MemoryStore) *)

Module Session.

(** The properties the handlers set on [req.session]. *)
Record t := Make {
  userId : option Z;
  username : option string
}.

#[global] Instance eq_dec : EqDecision t.
Proof. solve_decision. Defined.

Definition empty : t := Make None None.

(** A stored session: its data and [cookie.expires] in milliseconds. *)
Record stored := Stored {
  data : t;
  expires : Z
}.

(** [cookie.maxAge]: 24 hours, in all three servers. *)
Definition maxAge : Z := 24 * 60 * 60 * 1000.

End Session.

(** The state of a running server: the database, the session store and the
    supply of session identifiers. *)
Record world := World {
  db : database;
  sessions : gmap nat Session.stored;
  next_sid : nat
}.

Definition set_db (d : database) (w : world) : world :=
  World d (sessions w) (next_sid w).

Definition set_sessions (s : gmap nat Session.stored) (w : world) : world :=
  World (db w) s (next_sid w).

(** [store.generate]: a fresh identifier. *)
Definition generate (w : world) : world * nat :=
  (World (db w) (sessions w) (S (next_sid w)), next_sid w).

(** ** Requests and responses *)

Inductive method := GET | POST.

#[global] Instance method_eq_dec : EqDecision method.
Proof. solve_decision. Defined.

Module Body.

(** The fields the handlers read from [req.body]. *)
Record t := Make {
  username : option string;
  email : option string;
  password : option string;
  moduleId : Js.jsval;
  completed : Js.jsval;
  score : Js.jsval;
  timeSpent : Js.jsval
}.

Definition empty : t :=
  Make None None None Js.Undefined Js.Undefined Js.Undefined Js.Undefined.

End Body.

(** A request: [rq_cookie] is the session identifier of a correctly signed
    [codetrain.sid] cookie, [rq_now] the time of arrival ([Date.now()]). *)
Record request := Request {
  rq_method : method;
  rq_path : string;
  rq_body : Body.t;
  rq_cookie : option nat;
  rq_now : Z
}.

Inductive payload :=
| Json (j : json)
| SendFile (path : string)
| ErrorPage        (* Express's default page for an unhandled error *)
| NotFoundPage.    (* Express's default page when no route answers *)

(** What a handler does to the response: it sends one, or throws. *)
Inductive reply :=
| Reply (status : Z) (p : payload)
| Thrown (exn : string).

Definition error_json (msg : string) : payload :=
  Json (JObj [("error", JStr msg)]).

(** The request-scoped state when a handler is done: [out_session] is
    [None] once [req.session.destroy] has run. *)
Record outcome := Outcome {
  out_world : world;
  out_sid : nat;
  out_session : option Session.t;
  out_clear_cookie : bool;
  out_reply : reply
}.

(** A handler gets the request, the server state, [req.sessionID] and
    [req.session]. *)
Definition handler := request → world → nat → Session.t → outcome.

(** A handler that only answers. *)
Definition answer (w : world) (sid : nat) (s : Session.t) (r : reply) : outcome :=
  Outcome w sid (Some s) false r.

(** ** Routing (Express: first registered route that matches) *)

Inductive pattern :=
| Path (p : string)          (* app.get('/api/health', ...) *)
| PathId (prefix : string)   (* app.get('/api/modules/:id', ...) *)
| Star.                      (* app.get('*', ...) *)

(** The value of [:id] in a path, after [prefix]. *)
Definition path_id (prefix path : string) : option string :=
  rest ← Js.strip_prefix prefix path;
  let id := Js.strip_trailing_slash rest in
  if String.eqb id EmptyString || Js.has_slash id then None else Some id.

(** Express matches paths without case and allows one trailing slash. *)
Definition path_matches (pat : pattern) (path : string) : bool :=
  match pat with
  | Path p =>
      match Js.strip_prefix p path with
      | Some rest => String.eqb rest EmptyString || String.eqb rest "/"
      | None => false
      end
  | PathId prefix => bool_decide (is_Some (path_id prefix path))
  | Star => true
  end.

(** [r_method = None] is [app.use]: any method. *)
Record route := Route {
  r_method : option method;
  r_pattern : pattern;
  r_handler : handler
}.

Definition route_matches (rq : request) (r : route) : bool :=
  match r_method r with
  | Some m => bool_decide (m = rq_method rq)
  | None => true
  end && path_matches (r_pattern r) (rq_path rq).

(** An application: its session options, its routes in registration order,
    and the response to an exception thrown by a handler. *)
Record app := App {
  saveUninitialized : bool;
  rolling : bool;
  routes : list route;
  on_error : Z * payload
}.

(** No route matches: Express answers 404. *)
Definition no_route : handler :=
  λ rq w sid s, answer w sid s (Reply 404 NotFoundPage).

Definition resolve (a : app) (rq : request) : handler :=
  match find (route_matches rq) (routes a) with
  | Some r => r_handler r
  | None => no_route
  end.

(** ** The session middleware around a handler *)

(** Start of a request: the stored session of the cookie when it is there
    and has not expired (an expired one is deleted), a new one otherwise.
    The boolean tells whether the session came from the store. *)
Definition load_session (w : world) (cookie : option nat) (now : Z)
  : world * nat * Session.t * bool :=
  match cookie with
  | Some c =>
      match sessions w !! c with
      | Some st =>
          if now <? Session.expires st then (w, c, Session.data st, true)
          else
            let '(w', sid) := generate (set_sessions (delete c (sessions w)) w) in
            (w', sid, Session.empty, false)
      | None => let '(w', sid) := generate w in (w', sid, Session.empty, false)
      end
  | None => let '(w', sid) := generate w in (w', sid, Session.empty, false)
  end.

Inductive cookie_effect :=
| CookieKeep            (* no Set-Cookie header for codetrain.sid *)
| CookieSet (sid : nat) (* Set-Cookie: codetrain.sid=<signed sid> *)
| CookieClear.          (* res.clearCookie('codetrain.sid') *)

(** End of a request.  A destroyed session is neither saved nor announced.
    Otherwise the session is touched (its expiry restarts) and saved when it
    came from the store, when it was modified, or when [saveUninitialized]
    is set; the cookie is set for a new session that is saved, and for a
    stored one when it was modified or [rolling] is set.  The [resave]
    option only chooses between saving an unmodified stored session again and
    touching it in the store: both leave the same stored session. *)
Definition finish (a : app) (now : Z) (sid0 : nat) (s0 : Session.t)
    (loaded : bool) (o : outcome) : world * cookie_effect :=
  let w := out_world o in
  match out_session o with
  | None => (w, if out_clear_cookie o then CookieClear else CookieKeep)
  | Some s =>
      let sid := out_sid o in
      let modified := bool_decide (sid ≠ sid0) || bool_decide (s ≠ s0) in
      let stored := loaded && bool_decide (sid = sid0) in
      let save := stored || saveUninitialized a || modified in
      let announce :=
        if stored then rolling a || modified
        else saveUninitialized a || modified in
      (if save
       then set_sessions (<[sid := Session.Stored s (now + Session.maxAge)]> (sessions w)) w
       else w,
       if out_clear_cookie o then CookieClear
       else if announce then CookieSet sid else CookieKeep)
  end.

(** What the client and the server see of one request. *)
Record served := Served {
  sv_world : world;
  sv_status : Z;
  sv_payload : payload;
  sv_cookie : cookie_effect;
  sv_sid_in : nat;           (* req.sessionID when the handler starts *)
  sv_sid_out : option nat    (* req.sessionID at the end, if a session is left *)
}.

Definition serve (a : app) (rq : request) (w : world) : served :=
  let '(w1, sid0, s0, loaded) := load_session w (rq_cookie rq) (rq_now rq) in
  let o := resolve a rq rq w1 sid0 s0 in
  let '(w2, ck) := finish a (rq_now rq) sid0 s0 loaded o in
  let '(status, p) := match out_reply o with
                      | Reply status p => (status, p)
                      | Thrown _ => on_error a
                      end in
  Served w2 status p ck sid0 (out_session o ≫= λ _, Some (out_sid o)).

(** A sequence of requests, in order of arrival. *)
Definition run (a : app) (rqs : list request) (w : world) : world :=
  foldl (λ w rq, sv_world (serve a rq w)) w rqs.

(** ** bcryptjs *)

Class Bcrypt := {
  hash : string → string;              (* bcrypt.hash(password, 10) *)
  compare : string → string → bool     (* bcrypt.compare(password, hash) *)
}.

(** ** The authentication handlers shared by the development server and
    server-production.js (the two files have the same text for them) *)

Module Auth.
Section Handlers.
Context `{Bcrypt}.

(** [POST /api/auth/register]. *)
Definition register : handler := λ rq w sid s,
  let username := Body.username (rq_body rq) in
  let email := Body.email (rq_body rq) in
  let password := Body.password (rq_body rq) in
  if negb (Js.truthy username) || negb (Js.truthy email)
     || negb (Js.truthy password) then
    answer w sid s (Reply 400 (error_json "All fields are required"))
  else if Z.of_nat (Js.length (Js.str password)) <? 6 then
    answer w sid s
      (Reply 400 (error_json "Password must be at least 6 characters"))
  else
    let passwordHash := hash (Js.str password) in
    match Sql.insert Sql.Abort (rq_now rq) (users_table (db w))
            [("username", Sql.VText (Js.str username));
             ("email", Sql.VText (Js.str email));
             ("password_hash", Sql.VText passwordHash)] with
    | inl err =>
        if Js.includes "UNIQUE constraint failed" (Sql.message err) then
          answer w sid s
            (Reply 400 (error_json "Username or email already exists"))
        else answer w sid s (Reply 500 (error_json "Database error"))
    | inr (t, lastID) =>
        answer (set_db (set_users t (db w)) w) sid
          (Session.Make (Some lastID) (Some (Js.str username)))
          (Reply 200 (Json (JObj
             [("message", JStr "Registration successful!");
              ("user", JObj [("id", JNum lastID);
                             ("username", JStr (Js.str username));
                             ("email", JStr (Js.str email))])])))
    end.

(** The session properties read from a row of [users]. *)
Definition row_id (user : Sql.row) : option Z :=
  match Sql.cell "id" user with
  | Sql.VInt n => Some n
  | _ => None
  end.

Definition row_text (c : string) (user : Sql.row) : option string :=
  match Sql.cell c user with
  | Sql.VText s => Some s
  | _ => None
  end.

Definition login_ok (user : Sql.row) : reply :=
  Reply 200 (Json (JObj
    [("message", JStr "Login successful!");
     ("user", JObj [("id", Sql.value_json (Sql.cell "id" user));
                    ("username", Sql.value_json (Sql.cell "username" user));
                    ("email", Sql.value_json (Sql.cell "email" user))])])).

(** [POST /api/auth/login].  [password_hash] is a NOT NULL column that the
    register handler fills with text. *)
Definition login : handler := λ rq w sid s,
  let username := Body.username (rq_body rq) in
  let password := Body.password (rq_body rq) in
  if negb (Js.truthy username) || negb (Js.truthy password) then
    answer w sid s
      (Reply 400 (error_json "Username and password are required"))
  else
    match Sql.select_first "username" (Sql.VText (Js.str username))
            (users_table (db w)) with
    | None =>
        answer w sid s (Reply 401 (error_json "Invalid username or password"))
    | Some user =>
        let isValidPassword :=
          compare (Js.str password) (Js.str (row_text "password_hash" user)) in
        if negb isValidPassword then
          answer w sid s
            (Reply 401 (error_json "Invalid username or password"))
        else
          answer w sid (Session.Make (row_id user) (row_text "username" user))
            (login_ok user)
    end.

(** [POST /api/auth/logout]: [req.session.destroy]. *)
Definition logout : handler := λ rq w sid s,
  Outcome (set_sessions (delete sid (sessions w)) w) sid None false
    (Reply 200 (Json (JObj [("message", JStr "Logout successful")]))).

(** [GET /api/auth/me]. *)
Definition me : handler := λ rq w sid s,
  if negb (Js.truthy_num (Session.userId s)) then
    answer w sid s (Reply 401 (error_json "Not authenticated"))
  else
    answer w sid s
      (Reply 200 (Json (JObj
         [("user", JObj (field "id" JNum (Session.userId s) ++
                         field "username" JStr (Session.username s)))]))).

(** [app.get('*', ...)]: the single-page front end. *)
Definition spa : handler := λ rq w sid s,
  answer w sid s (Reply 200 (SendFile "../frontend/index.html")).

End Handlers.
End Auth.

(** ** The development server (the unnamed server file) *)

Module Dev.

(** [user_progress] as this file creates it. *)
Definition user_progress_schema : Sql.schema :=
  Sql.Schema "user_progress"
    [Sql.Column "user_id" true Sql.DNone;
     Sql.Column "module_id" true Sql.DNone;
     Sql.Column "completed" false (Sql.DValue (Sql.VInt 0));
     Sql.Column "last_accessed" false Sql.DNow]
    [].

(** The database after [db.serialize] on a new database file. *)
Definition new_database : database :=
  Database (Sql.create_table users_schema)
           (Sql.create_table user_progress_schema)
           (Sql.create_table modules_schema).

Definition start : world := World new_database ∅ 0%nat.

(** The bindings of the file's top level, by name.  The array [modules] is
    not one of them: it is a [const] inside the second [/api/modules]
    handler. *)
Inductive binding :=
| Library
| Application
| Number (n : Z)
| Connection
| Array (items : list json).

Definition top_level : list (string * binding) :=
  [("express", Library); ("session", Library); ("cors", Library);
   ("path", Library); ("sqlite3", Library); ("bcrypt", Library);
   ("fs", Library); ("app", Application); ("PORT", Number 3000);
   ("db", Connection)].

Fixpoint binding_of (name : string) (scope : list (string * binding))
  : option binding :=
  match scope with
  | [] => None
  | (n, b) :: scope' =>
      if String.eqb n name then Some b else binding_of name scope'
  end.

(** [GET /api/modules], first registration: the rows of the [modules] table. *)
Definition list_modules_db : handler := λ rq w sid s,
  let rows := Sql.select_order_by "order_index" (modules_table (db w)) in
  answer w sid s
    (Reply 200 (Json (JObj [("modules", JArr (Sql.row_json <$> rows))]))).

(** [GET /api/progress]. *)
Definition get_progress : handler := λ rq w sid s,
  if negb (Js.truthy_num (Session.userId s)) then
    answer w sid s (Reply 401 (error_json "Not authenticated"))
  else
    let rows :=
      Sql.select_join (user_progress_table (db w)) (modules_table (db w))
        "module_id" "id" "title" "user_id"
        (Sql.VInt (default 0 (Session.userId s))) in
    answer w sid s
      (Reply 200 (Json (JObj [("progress", JArr (Sql.row_json <$> rows))]))).

(** [GET /api/health]; the timestamp is left as the number of milliseconds. *)
Definition health : handler := λ rq w sid s,
  answer w sid s
    (Reply 200 (Json (JObj
       [("status", JStr "OK");
        ("message", JStr "Student Training Platform is running");
        ("timestamp", JNum (rq_now rq))]))).

(** The array [modules] of the second [/api/modules] handler. *)
Definition modules : list json :=
  [JObj
     [("id", JNum 1);
      ("title", JStr "Hello Python - Talking to the Computer");
      ("description", JStr "Learn the basics of Python programming");
      ("difficulty", JStr "beginner");
      ("estimated_time", JStr "30 minutes");
      ("order_index", JNum 1);
      ("content", JObj
        [("story", JStr "🧭 Welcome to Python! Think of Python as teaching a robot to follow your instructions.
                
                When you type commands, your robot listens carefully and does exactly what you say.
                
                Let's start with the most important command - making your robot speak!");
         ("concepts", JArr
           [JObj
              [("title", JStr "Print Function - Making the Robot Speak");
               ("explanation", JStr "The print() function is how your Python robot speaks to you. Whatever you put inside the parentheses, your robot will say out loud!");
               ("example", JStr ("print(" +:+ Js.dq +:+ "Hello, world!" +:+ Js.dq +:+ ")  # Robot says: Hello, world!
print(" +:+ Js.dq +:+ "I'm learning Python!" +:+ Js.dq +:+ ")  # Robot says: I'm learning Python!"));
               ("analogy", JStr "Think of print() like telling your robot: 'Say this out loud!'")];
            JObj
              [("title", JStr "Variables - Naming Your Storage Boxes");
               ("explanation", JStr "Variables are like labeled boxes where you can store information. Once you put something in a box, you can use the label to get it back later.");
               ("example", JStr ("# Create variables (storage boxes)
name = " +:+ Js.dq +:+ "Alex" +:+ Js.dq +:+ "
age = 12
is_student = True

# Use the variables
print(" +:+ Js.dq +:+ "Hello, " +:+ Js.dq +:+ " + name)
print(" +:+ Js.dq +:+ "You are " +:+ Js.dq +:+ " + str(age) + " +:+ Js.dq +:+ " years old" +:+ Js.dq +:+ ")"));
               ("analogy", JStr "Variables are like name tags on your school supplies - you put a label so you can find it later!")];
            JObj
              [("title", JStr "Data Types - Different Kinds of Information");
               ("explanation", JStr "Python understands different types of information, just like you understand numbers, words, and true/false questions.");
               ("example", JStr ("# String - for text (words)
name = " +:+ Js.dq +:+ "Sarah" +:+ Js.dq +:+ "
message = " +:+ Js.dq +:+ "Hello there!" +:+ Js.dq +:+ "

# Integer - for whole numbers
age = 13
score = 95

# Float - for decimal numbers
height = 1.65
temperature = 23.5

# Boolean - for True/False
is_sunny = True
is_raining = False"));
               ("analogy", JStr "Data types are like different subjects in school - math uses numbers, English uses words, science uses true/false experiments!")]]);
         ("exercises", JArr
           [JObj
              [("title", JStr "Make Your Robot Greet You");
               ("description", JStr "Create a program that greets you by name and tells you your age");
               ("starter_code", JStr ("# TODO: Create variables for your name and age
name = " +:+ Js.dq +:+ "Your Name Here" +:+ Js.dq +:+ "
age = 12

# TODO: Make the robot greet you
print(" +:+ Js.dq +:+ Js.dq +:+ ")"));
               ("solution", JStr ("name = " +:+ Js.dq +:+ "Alex" +:+ Js.dq +:+ "
age = 12

print(" +:+ Js.dq +:+ "Hello, " +:+ Js.dq +:+ " + name + " +:+ Js.dq +:+ "!" +:+ Js.dq +:+ ")
print(" +:+ Js.dq +:+ "You are " +:+ Js.dq +:+ " + str(age) + " +:+ Js.dq +:+ " years old!" +:+ Js.dq +:+ ")
print(" +:+ Js.dq +:+ "Nice to meet you!" +:+ Js.dq +:+ ")"));
               ("hints", JArr
                 [JStr "Use the print() function to make the robot speak";
                  JStr "Combine text and variables using the + operator";
                  JStr "Don't forget to convert numbers to text using str()"])];
            JObj
              [("title", JStr "Dog Years Calculator");
               ("description", JStr "Calculate how old you would be in dog years (1 human year = 7 dog years)");
               ("starter_code", JStr ("# TODO: Calculate dog years
human_age = 12
dog_years = 

print(" +:+ Js.dq +:+ "If you're " +:+ Js.dq +:+ " + str(human_age) + " +:+ Js.dq +:+ " in human years..." +:+ Js.dq +:+ ")
print(" +:+ Js.dq +:+ "You're " +:+ Js.dq +:+ " + str(dog_years) + " +:+ Js.dq +:+ " in dog years!" +:+ Js.dq +:+ ")"));
               ("solution", JStr ("human_age = 12
dog_years = human_age * 7

print(" +:+ Js.dq +:+ "If you're " +:+ Js.dq +:+ " + str(human_age) + " +:+ Js.dq +:+ " in human years..." +:+ Js.dq +:+ ")
print(" +:+ Js.dq +:+ "You're " +:+ Js.dq +:+ " + str(dog_years) + " +:+ Js.dq +:+ " in dog years!" +:+ Js.dq +:+ ")"));
               ("hints", JArr
                 [JStr "Multiply human_age by 7 to get dog years";
                  JStr "Make sure to use the multiplication operator *";
                  JStr "Check your math - 12 human years should be 84 dog years!"])]]);
         ("quiz", JArr
           [JObj
              [("question", JStr "What does the print() function do?");
               ("options", JArr
                 [JStr "Makes the computer print on paper";
                  JStr "Displays text on the screen";
                  JStr "Creates a new variable";
                  JStr "Does math calculations"]);
               ("correct", JNum 1);
               ("explanation", JStr "print() displays text on the screen - it's how your Python robot 'speaks' to you!")];
            JObj
              [("question", JStr "Which of these is a valid variable name?");
               ("options", JArr
                 [JStr "my name";
                  JStr "123name";
                  JStr "my_name";
                  JStr "print"]);
               ("correct", JNum 2);
               ("explanation", JStr "Variable names can't have spaces, can't start with numbers, and can't be Python keywords like 'print'")]])])];
   JObj
     [("id", JNum 2);
      ("title", JStr "Functions - Teaching the Robot New Tricks");
      ("description", JStr "Learn to create reusable code with functions");
      ("difficulty", JStr "beginner");
      ("estimated_time", JStr "45 minutes");
      ("order_index", JNum 2);
      ("content", JObj
        [("story", JStr ("🎩 Welcome to Functions - where you teach your robot magic tricks!
                
                Functions are like recipes. Once you create a recipe (like " +:+ Js.dq +:+ "how to make a sandwich" +:+ Js.dq +:+ "), you can use it anytime without writing all the steps again.
                
                Let's teach your robot some cool tricks!"));
         ("concepts", JArr
           [JObj
              [("title", JStr "Creating Functions - Writing Your Recipes");
               ("explanation", JStr "Functions are blocks of code that you can define once and use many times. They make your code organized and reusable.");
               ("example", JStr ("# Define a function (create a recipe)
def greet():
    print(" +:+ Js.dq +:+ "Hello there!" +:+ Js.dq +:+ ")
    print(" +:+ Js.dq +:+ "Welcome to Python!" +:+ Js.dq +:+ ")

# Use the function (follow the recipe)
greet()
greet()  # You can use it multiple times!"));
               ("analogy", JStr "Functions are like dance routines - learn the steps once, then perform them anytime!")];
            JObj
              [("title", JStr "Function Parameters - Customizing Your Recipes");
               ("explanation", JStr "Parameters let you pass information to functions, making them flexible and customizable.");
               ("example", JStr ("# Function with parameters
def greet_person(name):
    print(" +:+ Js.dq +:+ "Hello, " +:+ Js.dq +:+ " + name + " +:+ Js.dq +:+ "!" +:+ Js.dq +:+ ")
    print(" +:+ Js.dq +:+ "Nice to meet you!" +:+ Js.dq +:+ ")

# Use with different names
greet_person(" +:+ Js.dq +:+ "Alice" +:+ Js.dq +:+ ")
greet_person(" +:+ Js.dq +:+ "Bob" +:+ Js.dq +:+ ")
greet_person(" +:+ Js.dq +:+ "Charlie" +:+ Js.dq +:+ ")"));
               ("analogy", JStr "Parameters are like blank spaces in a mad lib - you fill them in differently each time!")];
            JObj
              [("title", JStr "Return Values - Getting Answers Back");
               ("explanation", JStr "Functions can return values back to you, like a calculator giving you the answer to a math problem.");
               ("example", JStr ("# Function that returns a value
def add_numbers(a, b):
    result = a + b
    return result

# Use the returned value
sum = add_numbers(5, 3)
print(" +:+ Js.dq +:+ "The sum is: " +:+ Js.dq +:+ " + str(sum))

# You can use it directly in print
print(" +:+ Js.dq +:+ "10 + 15 = " +:+ Js.dq +:+ " + str(add_numbers(10, 15)))"));
               ("analogy", JStr "Return values are like asking a question and getting an answer - the function does the work and gives you back the result!")]]);
         ("exercises", JArr
           [JObj
              [("title", JStr "Math Helper Functions");
               ("description", JStr "Create a set of math helper functions for common calculations");
               ("starter_code", JStr ("# TODO: Create math functions
def add(a, b):
    # Return the sum of a and b
    return

def multiply(a, b):
    # Return a multiplied by b
    return

def square(x):
    # Return x squared (x * x)
    return

# Test your functions
print(" +:+ Js.dq +:+ "5 + 3 = " +:+ Js.dq +:+ " + str(add(5, 3)))
print(" +:+ Js.dq +:+ "4 * 6 = " +:+ Js.dq +:+ " + str(multiply(4, 6)))
print(" +:+ Js.dq +:+ "7 squared = " +:+ Js.dq +:+ " + str(square(7)))"));
               ("solution", JStr ("def add(a, b):
    return a + b

def multiply(a, b):
    return a * b

def square(x):
    return x * x

print(" +:+ Js.dq +:+ "5 + 3 = " +:+ Js.dq +:+ " + str(add(5, 3)))
print(" +:+ Js.dq +:+ "4 * 6 = " +:+ Js.dq +:+ " + str(multiply(4, 6))) 
print(" +:+ Js.dq +:+ "7 squared = " +:+ Js.dq +:+ " + str(square(7)))"));
               ("hints", JArr
                 [JStr "Use the + operator for addition";
                  JStr "Use the * operator for multiplication";
                  JStr "To square a number, multiply it by itself"])]])])]].

(** [GET /api/modules], second registration: the array above. *)
Definition list_modules : handler := λ rq w sid s,
  answer w sid s (Reply 200 (Json (JObj [("modules", JArr modules)]))).

Definition module_id (m : json) : option Z :=
  match member "id" m with
  | Some (JNum n) => Some n
  | _ => None
  end.

(** [GET /api/modules/:id].  The body names [modules], which is looked up in
    the enclosing scopes of the handler: the file's top level. *)
Definition get_module : handler := λ rq w sid s,
  let moduleId :=
    Js.parseInt (default EmptyString (path_id "/api/modules/" (rq_path rq))) in
  match binding_of "modules" top_level with
  | Some (Array modules) =>
      let found :=
        find (λ m, bool_decide (is_Some moduleId ∧ module_id m = moduleId))
             modules in
      answer w sid s (Reply 200 (Json (JObj (field "module" id found))))
  | Some _ => answer w sid s (Thrown "TypeError: modules.find is not a function")
  | None => answer w sid s (Thrown "ReferenceError: modules is not defined")
  end.

(** [POST /api/progress]. *)
Definition save_progress : handler := λ rq w sid s,
  if negb (Js.truthy_num (Session.userId s)) then
    answer w sid s (Reply 401 (error_json "Not authenticated"))
  else
    let b := rq_body rq in
    match Sql.insert Sql.Replace (rq_now rq) (user_progress_table (db w))
            [("user_id", Sql.VInt (default 0 (Session.userId s)));
             ("module_id", Sql.bind (Body.moduleId b));
             ("completed", Sql.bind (Body.completed b));
             ("score", Sql.bind (Body.score b));
             ("time_spent", Sql.bind (Body.timeSpent b))] with
    | inl err => answer w sid s (Reply 500 (error_json "Database error"))
    | inr (t, _) =>
        answer (set_db (set_user_progress t (db w)) w) sid s
          (Reply 200 (Json (JObj
             [("message", JStr "Progress saved successfully")])))
    end.

Section App.
Context `{Bcrypt}.

(** The routes, in the order the file registers them. *)
Definition routes : list route :=
  [Route (Some POST) (Path "/api/auth/register") Auth.register;
   Route (Some POST) (Path "/api/auth/login") Auth.login;
   Route (Some POST) (Path "/api/auth/logout") Auth.logout;
   Route (Some GET) (Path "/api/auth/me") Auth.me;
   Route (Some GET) (Path "/api/modules") list_modules_db;
   Route (Some GET) (Path "/api/progress") get_progress;
   Route (Some GET) (Path "/api/health") health;
   Route (Some GET) Star Auth.spa;
   Route (Some GET) (Path "/api/modules") list_modules;
   Route (Some GET) (PathId "/api/modules/") get_module;
   Route (Some POST) (Path "/api/progress") save_progress].

(** [resave: true, saveUninitialized: true].  The error-handling middleware
    is registered before the routes, where Express never reaches it for an
    error of a route: such an error gets Express's default response, 500. *)
Definition server : app := App true false routes (500, ErrorPage).

End App.
End Dev.

(** ** backend/server-production.js *)

Module Production.

(** The database after [db.serialize] on a new database file: only [users]
    is created; the other two components are never used by this server. *)
Definition new_database : database :=
  Database (Sql.create_table users_schema)
           (Sql.create_table (Sql.Schema "user_progress" [] []))
           (Sql.create_table (Sql.Schema "modules" [] [])).

Definition start : world := World new_database ∅ 0%nat.

(** [GET /api/health], with no environment variable set. *)
Definition health : handler := λ rq w sid s,
  answer w sid s
    (Reply 200 (Json (JObj
       [("status", JStr "OK");
        ("message", JStr "Student Training Platform is running");
        ("environment", JStr "development");
        ("frontendUrl", JStr "http://localhost:3000");
        ("timestamp", JNum (rq_now rq))]))).

Section App.
Context `{Bcrypt}.

Definition routes : list route :=
  [Route (Some GET) (Path "/api/health") health;
   Route (Some POST) (Path "/api/auth/register") Auth.register;
   Route (Some POST) (Path "/api/auth/login") Auth.login;
   Route (Some POST) (Path "/api/auth/logout") Auth.logout;
   Route (Some GET) (Path "/api/auth/me") Auth.me;
   Route (Some GET) Star Auth.spa].

(** [resave: false, saveUninitialized: false]; the error-handling
    middleware comes after the routes. *)
Definition server : app :=
  App false false routes (500, error_json "Internal server error").

End App.
End Production.

(** ** The Railway document (frontend/js/app-with-learning.js, last document)

    As it is written the document does not parse: a comma is missing in
    [sessionConfig], after the [domain] entry of the cookie options, so
    node starts no server from it.  What is embedded here is the text of
    its tables and of its four authentication handlers, read with that
    comma supplied; it serves to compare these handlers with those of the
    other two servers, and nothing here is a statement about a running
    server.  The two diagnostic routes ([/api/session-test], [/api/health]),
    the 404 middleware and the front-end fallback are left out, so [routes]
    says nothing about a request to any other path; the file ends its
    routes with the comment that the module and progress routes remain the
    same as in the development server. *)

Module Railway.

(** [user_progress] as this file creates it. *)
Definition user_progress_schema : Sql.schema :=
  Sql.Schema "user_progress"
    [Sql.Column "user_id" true Sql.DNone;
     Sql.Column "module_id" true Sql.DNone;
     Sql.Column "completed" false (Sql.DValue (Sql.VInt 0));
     Sql.Column "score" false (Sql.DValue (Sql.VInt 0));
     Sql.Column "time_spent" false (Sql.DValue (Sql.VInt 0));
     Sql.Column "last_accessed" false Sql.DNow]
    [["user_id"; "module_id"]].

Definition new_database : database :=
  Database (Sql.create_table users_schema)
           (Sql.create_table user_progress_schema)
           (Sql.create_table modules_schema).

Definition start : world := World new_database ∅ 0%nat.

(** [req.session.save]: the session is written to the store at once. *)
Definition save (now : Z) (sid : nat) (s : Session.t) (w : world) : world :=
  set_sessions (<[sid := Session.Stored s (now + Session.maxAge)]> (sessions w)) w.

(** [req.session.regenerate]: the stored session is destroyed and a new,
    empty one is generated under a fresh identifier. *)
Definition regenerate (sid : nat) (w : world) : world * nat :=
  generate (set_sessions (delete sid (sessions w)) w).

Section App.
Context `{Bcrypt}.

(** [POST /api/auth/register]: as the shared handler, then
    [req.session.save]. *)
Definition register : handler := λ rq w sid s,
  let o := Auth.register rq w sid s in
  match out_reply o, out_session o with
  | Reply 200 _, Some s' =>
      Outcome (save (rq_now rq) sid s' (out_world o)) sid (Some s') false
              (out_reply o)
  | _, _ => o
  end.

(** [POST /api/auth/login]. *)
Definition login : handler := λ rq w sid s,
  let username := Body.username (rq_body rq) in
  let password := Body.password (rq_body rq) in
  if negb (Js.truthy username) || negb (Js.truthy password) then
    answer w sid s
      (Reply 400 (error_json "Username and password are required"))
  else
    match Sql.select_first "username" (Sql.VText (Js.str username))
            (users_table (db w)) with
    | None =>
        answer w sid s (Reply 401 (error_json "Invalid username or password"))
    | Some user =>
        let isValidPassword :=
          compare (Js.str password)
                  (Js.str (Auth.row_text "password_hash" user)) in
        if negb isValidPassword then
          answer w sid s
            (Reply 401 (error_json "Invalid username or password"))
        else
          let '(w1, sid') := regenerate sid w in
          let s' := Session.Make (Auth.row_id user)
                                 (Auth.row_text "username" user) in
          Outcome (save (rq_now rq) sid' s' w1) sid' (Some s') false
                  (Auth.login_ok user)
    end.

(** [POST /api/auth/logout]: [req.session.destroy], then [res.clearCookie]. *)
Definition logout : handler := λ rq w sid s,
  Outcome (set_sessions (delete sid (sessions w)) w) sid None true
    (Reply 200 (Json (JObj [("message", JStr "Logout successful")]))).

(** [GET /api/auth/me]; [req.session.touch] restarts the expiry, which the
    end of every request does as well. *)
Definition me : handler := Auth.me.

(** The authentication routes. *)
Definition routes : list route :=
  [Route (Some POST) (Path "/api/auth/register") register;
   Route (Some POST) (Path "/api/auth/login") login;
   Route (Some POST) (Path "/api/auth/logout") logout;
   Route (Some GET) (Path "/api/auth/me") me].

(** [resave: false, saveUninitialized: false, rolling: true]. *)
Definition server : app :=
  App false true routes (500, error_json "Internal server error").

End App.
End Railway.

(** ** The operations of the API as requests *)

Definition Register (username email password : option string)
    (cookie : option nat) (now : Z) : request :=
  Request POST "/api/auth/register"
    (Body.Make username email password
       Js.Undefined Js.Undefined Js.Undefined Js.Undefined)
    cookie now.

Definition Login (username password : option string)
    (cookie : option nat) (now : Z) : request :=
  Request POST "/api/auth/login"
    (Body.Make username None password
       Js.Undefined Js.Undefined Js.Undefined Js.Undefined)
    cookie now.

Definition Logout (cookie : option nat) (now : Z) : request :=
  Request POST "/api/auth/logout" Body.empty cookie now.

Definition CurrentUser (cookie : option nat) (now : Z) : request :=
  Request GET "/api/auth/me" Body.empty cookie now.

Definition ListModules (cookie : option nat) (now : Z) : request :=
  Request GET "/api/modules" Body.empty cookie now.

Definition GetModule (id : string) (cookie : option nat) (now : Z) : request :=
  Request GET ("/api/modules/" +:+ id) Body.empty cookie now.

Definition GetProgress (cookie : option nat) (now : Z) : request :=
  Request GET "/api/progress" Body.empty cookie now.

Definition SaveProgress (moduleId completed score timeSpent : Js.jsval)
    (cookie : option nat) (now : Z) : request :=
  Request POST "/api/progress"
    (Body.Make None None None moduleId completed score timeSpent)
    cookie now.

(** A request carries an authenticated session when its cookie names a
    stored session that has not expired and holds a user id. *)
Definition authenticated (w : world) (cookie : option nat) (now : Z) : bool :=
  match cookie ≫= λ c, sessions w !! c with
  | Some st =>
      (now <? Session.expires st) && Js.truthy_num (Session.userId (Session.data st))
  | None => false
  end.


(** ** A stand-in for bcryptjs, to run the servers on concrete requests *)

Definition sample_bcrypt : Bcrypt :=
  {| hash := λ p, "$2a$10$" +:+ p;
     compare := λ p h, String.eqb ("$2a$10$" +:+ p) h |}.

(** * Properties *)

(** ** The session middleware *)

Section Middleware.

Lemma generate_db w : db (generate w).1 = db w.
Proof. reflexivity. Qed.

(** What [load_session] hands to the handler. *)
Inductive loaded_as (w : world) (cookie : option nat) (now : Z)
  : world → nat → Session.t → bool → Prop :=
| loaded_stored c st :
    cookie = Some c → sessions w !! c = Some st → now < Session.expires st →
    loaded_as w cookie now w c (Session.data st) true
| loaded_fresh w' :
    db w' = db w →
    authenticated w cookie now = false →
    (∀ c, cookie ≠ Some c → sessions w' !! c = sessions w !! c) →
    (sessions w' = sessions w ∨ ∃ c, cookie = Some c ∧ sessions w' = delete c (sessions w)) →
    next_sid w' = S (next_sid w) →
    loaded_as w cookie now w' (next_sid w) Session.empty false.

Lemma load_session_spec w cookie now :
  ∃ w1 sid0 s0 loaded,
    load_session w cookie now = (w1, sid0, s0, loaded) ∧
    loaded_as w cookie now w1 sid0 s0 loaded.
Proof.
  unfold load_session, generate.
  destruct cookie as [c|] eqn:Ec; simpl.
  - destruct (sessions w !! c) as [st|] eqn:Est.
    + destruct (now <? Session.expires st) eqn:Et.
      * eexists _, _, _, _. split; [reflexivity|].
        eapply loaded_stored; eauto. by apply Z.ltb_lt.
      * eexists _, _, _, _. split; [reflexivity|].
        apply (loaded_fresh w (Some c) now
                 (World (db w) (delete c (sessions w)) (S (next_sid w))));
          simpl; auto.
        -- unfold authenticated. simpl. by rewrite Est, Et.
        -- intros c' Hc'. apply lookup_delete_ne. congruence.
        -- right. eauto.
    + eexists _, _, _, _. split; [reflexivity|].
      apply loaded_fresh; simpl; auto.
      unfold authenticated. simpl. by rewrite Est.
  - eexists _, _, _, _. split; [reflexivity|].
    apply loaded_fresh; simpl; auto.
Qed.

Lemma loaded_as_db w cookie now w1 sid0 s0 loaded :
  loaded_as w cookie now w1 sid0 s0 loaded → db w1 = db w.
Proof. by destruct 1. Qed.

(** A request without an authenticated session reaches its handler with a
    session that holds no user id. *)
Lemma loaded_as_unauthenticated w cookie now w1 sid0 s0 loaded :
  authenticated w cookie now = false →
  loaded_as w cookie now w1 sid0 s0 loaded →
  Js.truthy_num (Session.userId s0) = false.
Proof.
  intros Hauth [c st -> Hst Hlive|]; [|done].
  unfold authenticated in Hauth. simpl in Hauth. rewrite Hst in Hauth.
  apply Z.ltb_lt in Hlive. by rewrite Hlive in Hauth.
Qed.

(** A request with an authenticated session reaches its handler with that
    session. *)
Lemma loaded_as_authenticated w cookie now w1 sid0 s0 loaded :
  authenticated w cookie now = true →
  loaded_as w cookie now w1 sid0 s0 loaded →
  w1 = w ∧ cookie = Some sid0 ∧ loaded = true ∧
  Js.truthy_num (Session.userId s0) = true ∧
  ∃ st, sessions w !! sid0 = Some st ∧ Session.data st = s0.
Proof.
  intros Hauth [c st -> Hst Hlive|? ? Hno]; [|congruence].
  unfold authenticated in Hauth. simpl in Hauth. rewrite Hst in Hauth.
  apply andb_true_iff in Hauth as [_ Hu]. eauto 10.
Qed.

Lemma finish_db a now sid0 s0 loaded o :
  db (finish a now sid0 s0 loaded o).1 = db (out_world o).
Proof.
  unfold finish. destruct (out_session o); [|done].
  by destruct (_ || _ || _).
Qed.

(** [serve], with the session middleware taken apart. *)
Lemma serve_spec a rq w :
  ∃ w1 sid0 s0 loaded,
    loaded_as w (rq_cookie rq) (rq_now rq) w1 sid0 s0 loaded ∧
    let o := resolve a rq rq w1 sid0 s0 in
    serve a rq w =
      Served (finish a (rq_now rq) sid0 s0 loaded o).1
             (match out_reply o with Reply st _ => st | Thrown _ => (on_error a).1 end)
             (match out_reply o with Reply _ p => p | Thrown _ => (on_error a).2 end)
             (finish a (rq_now rq) sid0 s0 loaded o).2
             sid0 (out_session o ≫= λ _, Some (out_sid o)).
Proof.
  destruct (load_session_spec w (rq_cookie rq) (rq_now rq))
    as (w1 & sid0 & s0 & loaded & Hload & Has).
  exists w1, sid0, s0, loaded. split; [done|].
  unfold serve. rewrite Hload. simpl.
  destruct (finish _ _ _ _ _ _) as [w2 ck]. simpl.
  destruct (out_reply _); [done|]. by destruct (on_error a).
Qed.

(** A property of every route's handler holds of the handler that answers. *)
Lemma resolve_ind (P : handler → Prop) a rq :
  Forall (λ r, P (r_handler r)) (routes a) → P no_route → P (resolve a rq).
Proof.
  intros Hall Hno. unfold resolve.
  destruct (find _ _) as [r|] eqn:Hfind; [|done].
  apply find_some in Hfind as [Hin _].
  rewrite Forall_forall in Hall. apply Hall. by apply list_elem_of_In.
Qed.

End Middleware.

(** ** The development server: which handler answers *)

Section DevRoutes.
Context `{Bcrypt}.

Lemma dev_resolve_me cookie now :
  resolve Dev.server (CurrentUser cookie now) = Auth.me.
Proof. reflexivity. Qed.

Lemma dev_resolve_get_progress cookie now :
  resolve Dev.server (GetProgress cookie now) = Dev.get_progress.
Proof. reflexivity. Qed.

Lemma dev_resolve_save_progress m c sc t cookie now :
  resolve Dev.server (SaveProgress m c sc t cookie now) = Dev.save_progress.
Proof. reflexivity. Qed.

(** [GET /api/modules] is answered by the first registration, the query on
    the [modules] table; the array of the second registration is never
    served. *)
Lemma dev_resolve_list_modules cookie now :
  resolve Dev.server (ListModules cookie now) = Dev.list_modules_db.
Proof. reflexivity. Qed.

(** [GET /api/modules/:id] is answered by [app.get('*')], registered before
    the module route. *)
Lemma dev_resolve_get_module id cookie now :
  id ≠ EmptyString →
  resolve Dev.server (GetModule id cookie now) = Auth.spa.
Proof. destruct id; [done|]. reflexivity. Qed.

End DevRoutes.

(** ** Requests without an authenticated session *)

Section Unauthenticated.
Context `{Bcrypt}.

(** The request is answered 401 "Not authenticated" and the database is as
    before. *)
Definition refused (rq : request) (w : world) : Prop :=
  sv_status (serve Dev.server rq w) = 401 ∧
  sv_payload (serve Dev.server rq w) = error_json "Not authenticated" ∧
  db (sv_world (serve Dev.server rq w)) = db w.

Lemma refused_intro rq w (h : handler) :
  resolve Dev.server rq = h →
  (∀ w1 sid s, Js.truthy_num (Session.userId s) = false →
     h rq w1 sid s = answer w1 sid s (Reply 401 (error_json "Not authenticated"))) →
  authenticated w (rq_cookie rq) (rq_now rq) = false →
  refused rq w.
Proof.
  intros Hres Hh Hauth.
  destruct (serve_spec Dev.server rq w) as (w1 & sid0 & s0 & l & Hl & Hs).
  simpl in Hs. unfold refused. rewrite Hs. simpl.
  rewrite finish_db, Hres.
  rewrite Hh by eauto using loaded_as_unauthenticated. simpl.
  eauto using loaded_as_db.
Qed.

(** C5. For every request without a valid authenticated session,
    GetProgress, SaveProgress and CurrentUser each answer 401 with the
    error "Not authenticated" and nothing else, and the database (the
    progress table included) is left as it was. *)
Theorem unauthenticated_calls_refused w cookie now moduleId completed score timeSpent :
  authenticated w cookie now = false →
  refused (GetProgress cookie now) w ∧
  refused (SaveProgress moduleId completed score timeSpent cookie now) w ∧
  refused (CurrentUser cookie now) w.
Proof.
  intros Hauth. split_and!.
  - apply (refused_intro _ _ Dev.get_progress); [done| |done].
    intros w1 sid s Hs. unfold Dev.get_progress. by rewrite Hs.
  - apply (refused_intro _ _ Dev.save_progress); [done| |done].
    intros w1 sid s Hs. unfold Dev.save_progress. by rewrite Hs.
  - apply (refused_intro _ _ Auth.me); [done| |done].
    intros w1 sid s Hs. unfold Auth.me. by rewrite Hs.
Qed.

End Unauthenticated.

Lemma unauthenticated_calls_refused_witness :
  authenticated Dev.start None 0 = false ∧
  @refused sample_bcrypt (GetProgress None 0) Dev.start ∧
  @refused sample_bcrypt
    (SaveProgress (Js.Num 1) (Js.Bool true) (Js.Num 100) (Js.Num 30) None 0)
    Dev.start ∧
  @refused sample_bcrypt (CurrentUser None 0) Dev.start.
Proof.
  split; [reflexivity|].
  apply (@unauthenticated_calls_refused sample_bcrypt). reflexivity.
Defined.

(** ** Requests of an authenticated session *)

Section AuthenticatedRequests.

Lemma serve_authenticated a rq w :
  authenticated w (rq_cookie rq) (rq_now rq) = true →
  ∃ sid st,
    rq_cookie rq = Some sid ∧ sessions w !! sid = Some st ∧
    Js.truthy_num (Session.userId (Session.data st)) = true ∧
    let o := resolve a rq rq w sid (Session.data st) in
    serve a rq w =
      Served (finish a (rq_now rq) sid (Session.data st) true o).1
             (match out_reply o with Reply s _ => s | Thrown _ => (on_error a).1 end)
             (match out_reply o with Reply _ p => p | Thrown _ => (on_error a).2 end)
             (finish a (rq_now rq) sid (Session.data st) true o).2
             sid (out_session o ≫= λ _, Some (out_sid o)).
Proof.
  intros Hauth.
  destruct (serve_spec a rq w) as (w1 & sid0 & s0 & l & Hl & Hs).
  destruct (loaded_as_authenticated _ _ _ _ _ _ _ Hauth Hl)
    as (-> & Hc & -> & Hu & st & Hst & <-).
  exists sid0, st. done.
Qed.

(** The end of a request whose handler left the stored session alone: the
    session is saved again with a new expiry. *)
Lemma finish_untouched a now sid s w r :
  finish a now sid s true (answer w sid s r) =
    (set_sessions (<[sid := Session.Stored s (now + Session.maxAge)]> (sessions w)) w,
     if rolling a then CookieSet sid else CookieKeep).
Proof.
  unfold finish, answer. simpl.
  rewrite (bool_decide_eq_false_2 (sid ≠ sid)), (bool_decide_eq_false_2 (s ≠ s))
    by (intros Hne; by apply Hne).
  rewrite bool_decide_eq_true_2 by done. simpl.
  by rewrite orb_false_r.
Qed.

(** The session stays authenticated for [maxAge] after such a request. *)
Lemma authenticated_after_touch w sid s now now' :
  Js.truthy_num (Session.userId s) = true →
  now' < now + Session.maxAge →
  authenticated
    (set_sessions (<[sid := Session.Stored s (now + Session.maxAge)]> (sessions w)) w)
    (Some sid) now' = true.
Proof.
  intros Hu Hlt. unfold authenticated. simpl.
  rewrite lookup_insert_eq. simpl. rewrite Hu.
  by apply Z.ltb_lt in Hlt as ->.
Qed.

End AuthenticatedRequests.

(** ** SaveProgress on the development server's own table *)

Section DevSaveProgress.
Context `{Bcrypt}.

(** The statement names the columns [score] and [time_spent], which the
    [user_progress] table of this file does not have: SQLite rejects it. *)
Lemma dev_insert_rejected now t given_user m c sc ts :
  Sql.tbl_schema t = Dev.user_progress_schema →
  Sql.insert Sql.Replace now t
    [("user_id", given_user); ("module_id", m); ("completed", c);
     ("score", sc); ("time_spent", ts)]
  = inl (Sql.NoSuchColumn "user_progress" "score").
Proof. intros Hs. unfold Sql.insert. rewrite Hs. reflexivity. Qed.

Lemma dev_save_progress_rejected rq w sid s :
  Sql.tbl_schema (user_progress_table (db w)) = Dev.user_progress_schema →
  Js.truthy_num (Session.userId s) = true →
  Dev.save_progress rq w sid s =
    answer w sid s (Reply 500 (error_json "Database error")).
Proof.
  intros Hs Hu. unfold Dev.save_progress. rewrite Hu. simpl.
  by rewrite dev_insert_rejected.
Qed.

(** One SaveProgress of an authenticated session: 500, nothing stored, and
    the session stays authenticated. *)
Lemma dev_save_progress_once w cookie now m c sc ts :
  Sql.tbl_schema (user_progress_table (db w)) = Dev.user_progress_schema →
  authenticated w cookie now = true →
  let r := serve Dev.server (SaveProgress m c sc ts cookie now) w in
  sv_status r = 500 ∧ sv_payload r = error_json "Database error" ∧
  db (sv_world r) = db w ∧
  ∀ now', now' < now + Session.maxAge →
    authenticated (sv_world r) cookie now' = true.
Proof.
  intros Hs Hauth.
  destruct (serve_authenticated Dev.server (SaveProgress m c sc ts cookie now) w Hauth)
    as (sid & st & Hc & Hst & Hu & Hserve).
  simpl in Hc, Hserve. subst cookie. intros r. subst r.
  rewrite Hserve, dev_resolve_save_progress.
  rewrite dev_save_progress_rejected by done.
  rewrite finish_untouched. simpl. split_and!; try done.
  intros now' Hlt. by apply authenticated_after_touch.
Qed.

(** C1 (the code departs from the claim). On a database created by this
    server, two SaveProgress calls of an authenticated user for the same
    module are both answered 500 "Database error" and leave the
    [user_progress] table exactly as it was: no row is written for the pair,
    so none holds the values of the second call. *)
Theorem dev_save_progress_twice_stores_nothing
    w cookie now1 now2 m c1 sc1 ts1 c2 sc2 ts2 :
  Sql.tbl_schema (user_progress_table (db w)) = Dev.user_progress_schema →
  authenticated w cookie now1 = true →
  now2 < now1 + Session.maxAge →
  let r1 := serve Dev.server (SaveProgress m c1 sc1 ts1 cookie now1) w in
  let r2 := serve Dev.server (SaveProgress m c2 sc2 ts2 cookie now2) (sv_world r1) in
  sv_status r1 = 500 ∧ sv_status r2 = 500 ∧
  sv_payload r2 = error_json "Database error" ∧
  user_progress_table (db (sv_world r2)) = user_progress_table (db w).
Proof.
  intros Hs Hauth Hlt r1 r2.
  destruct (dev_save_progress_once w cookie now1 m c1 sc1 ts1 Hs Hauth)
    as (Hst1 & _ & Hdb1 & Hauth1).
  fold r1 in Hst1, Hdb1, Hauth1.
  destruct (dev_save_progress_once (sv_world r1) cookie now2 m c2 sc2 ts2)
    as (Hst2 & Hp2 & Hdb2 & _); [by rewrite Hdb1|by apply Hauth1|].
  fold r2 in Hst2, Hp2, Hdb2.
  by rewrite Hdb2, Hdb1.
Qed.

End DevSaveProgress.

(** The world after "alice" has registered on a new development server;
    her session has identifier 0. *)
Definition dev_alice : world :=
  sv_world (serve (@Dev.server sample_bcrypt)
              (Register (Some "alice") (Some "a@example.com") (Some "secret1") None 0)
              Dev.start).

Lemma dev_save_progress_twice_stores_nothing_witness :
  let r1 := serve (@Dev.server sample_bcrypt)
              (SaveProgress (Js.Num 1) (Js.Bool true) (Js.Num 100) (Js.Num 30) (Some 0%nat) 10)
              dev_alice in
  let r2 := serve (@Dev.server sample_bcrypt)
              (SaveProgress (Js.Num 1) (Js.Bool true) (Js.Num 80) (Js.Num 45) (Some 0%nat) 20)
              (sv_world r1) in
  sv_status r1 = 500 ∧ sv_status r2 = 500 ∧
  sv_payload r2 = error_json "Database error" ∧
  user_progress_table (db (sv_world r2)) = user_progress_table (db dev_alice).
Proof.
  apply (@dev_save_progress_twice_stores_nothing sample_bcrypt);
    [reflexivity | vm_compute; reflexivity | reflexivity].
Defined.

(** ** SaveProgress on the Railway server's table

    The same handler, run on the [user_progress] table as the Railway file
    creates it (with [score], [time_spent] and UNIQUE(user_id, module_id)),
    replaces the row of the pair. *)

Section Upsert.

Definition progress_given (u : Z) (m c sc ts : Sql.value) : Sql.row :=
  [("user_id", Sql.VInt u); ("module_id", m); ("completed", c);
   ("score", sc); ("time_spent", ts)].

Definition progress_row (id u : Z) (m c sc ts : Sql.value) (now : Z) : Sql.row :=
  [("id", Sql.VInt id); ("user_id", Sql.VInt u); ("module_id", m);
   ("completed", c); ("score", sc); ("time_spent", ts);
   ("last_accessed", Sql.VInt now)].

(** The rows of a user for a module. *)
Definition of_pair (u : Z) (m : Sql.value) (r : Sql.row) : Prop :=
  Sql.cell "user_id" r = Sql.VInt u ∧ Sql.cell "module_id" r = m.

#[local] Instance of_pair_dec u m r : Decision (of_pair u m r).
Proof. unfold of_pair. apply _. Defined.




Context `{Bcrypt}.



End Upsert.

(** ** The [modules] table of the development server *)

Section DevModulesTable.
Context `{Bcrypt}.

(** A handler that leaves the [modules] table as it is. *)
Definition keeps_modules (h : handler) : Prop :=
  ∀ rq w sid s, modules_table (db (out_world (h rq w sid s))) = modules_table (db w).

Lemma register_keeps_modules : keeps_modules Auth.register.
Proof.
  intros rq w sid s. unfold Auth.register.
  repeat (case_match; simpl; try done).
Qed.

Lemma login_keeps_modules : keeps_modules Auth.login.
Proof.
  intros rq w sid s. unfold Auth.login.
  repeat (case_match; simpl; try done).
Qed.

Lemma save_progress_keeps_modules : keeps_modules Dev.save_progress.
Proof.
  intros rq w sid s. unfold Dev.save_progress.
  repeat (case_match; simpl; try done).
Qed.

Lemma get_module_throws rq w sid s :
  Dev.get_module rq w sid s =
    answer w sid s (Thrown "ReferenceError: modules is not defined").
Proof. reflexivity. Qed.

(** No route of the server writes the [modules] table. *)
Lemma dev_routes_keep_modules :
  Forall (λ r, keeps_modules (r_handler r)) (routes Dev.server).
Proof.
  repeat first [apply List.Forall_nil | apply List.Forall_cons]; simpl;
    auto using register_keeps_modules, login_keeps_modules,
               save_progress_keeps_modules;
    try (intros rq w sid s; reflexivity).
  all: intros rq w sid s; unfold Auth.me, Dev.get_progress; by case_match.
Qed.

Lemma dev_resolve_keeps_modules rq : keeps_modules (resolve Dev.server rq).
Proof.
  apply resolve_ind; [apply dev_routes_keep_modules|].
  intros ? ? ? ?. reflexivity.
Qed.

Lemma dev_serve_keeps_modules rq w :
  modules_table (db (sv_world (serve Dev.server rq w))) = modules_table (db w).
Proof.
  destruct (serve_spec Dev.server rq w) as (w1 & sid0 & s0 & l & Hl & Hs).
  simpl in Hs. rewrite Hs. simpl.
  rewrite finish_db, dev_resolve_keeps_modules.
  by rewrite (loaded_as_db _ _ _ _ _ _ _ Hl).
Qed.

Lemma dev_run_keeps_modules rqs w :
  modules_table (db (run Dev.server rqs w)) = modules_table (db w).
Proof.
  revert w. induction rqs as [|rq rqs IH]; intros w; [done|].
  change (run Dev.server (rq :: rqs) w)
    with (run Dev.server rqs (sv_world (serve Dev.server rq w))).
  rewrite IH. apply dev_serve_keeps_modules.
Qed.

(** A join with an empty table selects nothing. *)
Lemma select_join_empty l r lcol rcol extra wcol v :
  Sql.tbl_rows r = [] → Sql.select_join l r lcol rcol extra wcol v = [].
Proof.
  intros Hr. unfold Sql.select_join.
  induction (filter _ (Sql.tbl_rows l)) as [|x xs IH]; [done|].
  rewrite bind_cons, IH, Hr. done.
Qed.

(** C10. On the development server, whatever requests came before (a
    successful SaveProgress included), GetProgress of an authenticated user
    answers 200 with an empty progress list: the query joins
    [user_progress] with the [modules] table, which no route fills. *)
Theorem get_progress_always_empty w0 rqs cookie now :
  Sql.tbl_rows (modules_table (db w0)) = [] →
  let w := run Dev.server rqs w0 in
  authenticated w cookie now = true →
  sv_status (serve Dev.server (GetProgress cookie now) w) = 200 ∧
  sv_payload (serve Dev.server (GetProgress cookie now) w) =
    Json (JObj [("progress", JArr [])]).
Proof.
  intros Hempty w Hauth.
  destruct (serve_authenticated Dev.server (GetProgress cookie now) w Hauth)
    as (sid & st & Hc & Hst & Hu & Hserve).
  simpl in Hserve. rewrite Hserve, dev_resolve_get_progress. simpl.
  unfold Dev.get_progress. rewrite Hu. simpl.
  rewrite select_join_empty; [done|].
  unfold w. by rewrite dev_run_keeps_modules.
Qed.

End DevModulesTable.

(** A database file created by the Railway server, where SaveProgress
    succeeds, served by the development server. *)
Definition railway_file_alice_saved : list request :=
  [Register (Some "alice") (Some "a@example.com") (Some "secret1") None 0;
   SaveProgress (Js.Num 1) (Js.Bool true) (Js.Num 100) (Js.Num 30) (Some 0%nat) 10].

Lemma get_progress_always_empty_witness :
  let w := run (@Dev.server sample_bcrypt) railway_file_alice_saved Railway.start in
  Sql.tbl_rows (user_progress_table (db w)) =
    [progress_row 1 1 (Sql.VInt 1) (Sql.VInt 1) (Sql.VInt 100) (Sql.VInt 30) 10] ∧
  sv_status (serve (@Dev.server sample_bcrypt) (GetProgress (Some 0%nat) 20) w) = 200 ∧
  sv_payload (serve (@Dev.server sample_bcrypt) (GetProgress (Some 0%nat) 20) w) =
    Json (JObj [("progress", JArr [])]).
Proof.
  split; [vm_compute; reflexivity|].
  apply (@get_progress_always_empty sample_bcrypt Railway.start
           railway_file_alice_saved (Some 0%nat) 20);
    [reflexivity | vm_compute; reflexivity].
Defined.

(** ** The module catalog *)

Section Catalog.
Context `{Bcrypt}.

(** C4 (the code departs from the claim). On the development server a
    GetModule request never gets a not-found answer: for every id the
    request is answered by the catch-all route with the front-end page and
    status 200, because [app.get('*')] is registered before the module
    route; and the module handler itself, for every request, throws a
    ReferenceError ([modules] is not in its scope), which this server
    answers with status 500. *)
Theorem get_module_never_not_found id w cookie now :
  id ≠ EmptyString →
  sv_status (serve Dev.server (GetModule id cookie now) w) = 200 ∧
  sv_payload (serve Dev.server (GetModule id cookie now) w) =
    SendFile "../frontend/index.html" ∧
  (∀ rq w1 sid s,
     out_reply (Dev.get_module rq w1 sid s) =
       Thrown "ReferenceError: modules is not defined") ∧
  on_error Dev.server = (500, ErrorPage).
Proof.
  intros Hid.
  destruct (serve_spec Dev.server (GetModule id cookie now) w)
    as (w1 & sid0 & s0 & l & Hl & Hs).
  simpl in Hs. rewrite Hs, dev_resolve_get_module by done. done.
Qed.

(** C7 (the code departs from the claim). On the development server, in
    every state reached from a new database and for every caller, GET
    /api/modules is answered 200 with an empty module list, not with the
    collection fixed in the source: the route registered first for that
    path reads the [modules] table, which no route fills, and it is the one
    that answers.  The handler with the fixed collection, registered second
    for the same path (and after [app.get('*')]), would answer every request
    with the modules 1 and 2 in that order; it is never reached. *)
Theorem list_modules_never_serves_catalog history cookie now :
  let w := run Dev.server history Dev.start in
  let r := serve Dev.server (ListModules cookie now) w in
  sv_status r = 200 ∧
  sv_payload r = Json (JObj [("modules", JArr [])]) ∧
  sv_payload r ≠ Json (JObj [("modules", JArr Dev.modules)]) ∧
  routes Dev.server !! 4%nat =
    Some (Route (Some GET) (Path "/api/modules") Dev.list_modules_db) ∧
  routes Dev.server !! 8%nat =
    Some (Route (Some GET) (Path "/api/modules") Dev.list_modules) ∧
  (∀ rq w1 sid s,
     out_reply (Dev.list_modules rq w1 sid s) =
       Reply 200 (Json (JObj [("modules", JArr Dev.modules)]))) ∧
  Dev.module_id <$> Dev.modules = [Some 1; Some 2].
Proof.
  intros w r.
  destruct (serve_spec Dev.server (ListModules cookie now) w)
    as (w1 & sid0 & s0 & l & Hl & Hs).
  cbv zeta in Hs. rewrite dev_resolve_list_modules in Hs. fold r in Hs.
  assert (Hrows : Sql.select_order_by "order_index" (modules_table (db w1)) = []).
  { rewrite (loaded_as_db _ _ _ _ _ _ _ Hl). unfold w.
    by rewrite dev_run_keeps_modules. }
  unfold Dev.list_modules_db in Hs. rewrite Hrows in Hs.
  assert (Hpay : sv_payload r = Json (JObj [("modules", JArr [])]))
    by (rewrite Hs; reflexivity).
  split_and!; try reflexivity.
  - rewrite Hs. reflexivity.
  - exact Hpay.
  - rewrite Hpay. discriminate.
Qed.

End Catalog.

Lemma get_module_never_not_found_witness :
  "99" ≠ EmptyString ∧
  sv_status (serve (@Dev.server sample_bcrypt) (GetModule "99" None 0) Dev.start) = 200 ∧
  sv_payload (serve (@Dev.server sample_bcrypt) (GetModule "99" None 0) Dev.start) =
    SendFile "../frontend/index.html".
Proof.
  split; [discriminate|].
  destruct (@get_module_never_not_found sample_bcrypt "99" Dev.start None 0)
    as (Hs & Hp & _); [discriminate|].
  split; [exact Hs | exact Hp].
Defined.

(** ** The [users] table *)

Section UsersTable.
Context `{Bcrypt}.

Definition user_row (id : Z) (u e h : string) (now : Z) : Sql.row :=
  [("id", Sql.VInt id); ("username", Sql.VText u); ("email", Sql.VText e);
   ("password_hash", Sql.VText h); ("created_at", Sql.VInt now)].

(** The [INSERT] of the register handler. *)
Lemma users_insert now rows seq u e h :
  Sql.insert Sql.Abort now (Sql.Table users_schema rows seq)
    [("username", Sql.VText u); ("email", Sql.VText e);
     ("password_hash", Sql.VText h)]
  = let r := user_row (seq + 1) u e h now in
    if existsb (Sql.agree_on ["username"] r) rows
    then inl (Sql.UniqueFailed "users" ["username"])
    else if existsb (Sql.agree_on ["email"] r) rows
    then inl (Sql.UniqueFailed "users" ["email"])
    else inr (Sql.Table users_schema (rows ++ [r]) (seq + 1), seq + 1).
Proof.
  unfold Sql.insert. simpl.
  destruct (existsb _ rows); [done|].
  by destruct (existsb _ rows).
Qed.

(** A row with the username is in the table. *)
Definition username_taken (u : string) (t : Sql.table) : Prop :=
  is_Some (Sql.select_first "username" (Sql.VText u) t).

Lemma username_taken_collides u t id e h now :
  username_taken u t →
  existsb (Sql.agree_on ["username"] (user_row id u e h now)) (Sql.tbl_rows t) = true.
Proof.
  intros [r Hr]. unfold Sql.select_first in Hr.
  apply find_some in Hr as [Hin Hr].
  apply existsb_exists. exists r. split; [exact Hin|].
  simpl. by rewrite Hr.
Qed.

(** A row of [users] as the register handler writes it: a non-empty
    username and a positive id. *)
Definition user_ok (r : Sql.row) : Prop :=
  (∃ u, Sql.cell "username" r = Sql.VText u ∧ u ≠ EmptyString) ∧
  (∃ n, Sql.cell "id" r = Sql.VInt n ∧ 0 < n).

(** The table has the schema of the servers and rows of that kind. *)
Definition users_ok (d : database) : Prop :=
  Sql.tbl_schema (users_table d) = users_schema ∧
  0 ≤ Sql.tbl_seq (users_table d) ∧
  Forall user_ok (Sql.tbl_rows (users_table d)).

Lemma truthy_nonempty x : Js.truthy x = true → Js.str x ≠ EmptyString.
Proof.
  destruct x as [s|]; [|done]. simpl. intros Hs ->. done.
Qed.

Lemma register_keeps_users_ok rq w sid s :
  users_ok (db w) → users_ok (db (out_world (Auth.register rq w sid s))).
Proof.
  intros Hok. pose proof Hok as (Hs & Hseq & Hrows). unfold Auth.register.
  destruct (negb (Js.truthy (Body.username (rq_body rq)))) eqn:Hu; [done|].
  simpl. destruct (_ || _); [done|]. destruct (_ <? 6); [done|].
  destruct (Sql.insert _ _ _ _) as [err|[t lastID]] eqn:Hins.
  { by destruct (Js.includes _ _). }
  simpl. unfold users_ok. simpl.
  destruct (users_table (db w)) as [sch rows seq] eqn:Et.
  simpl in Hs, Hseq, Hrows. subst sch.
  rewrite users_insert in Hins. simpl in Hins.
  destruct (existsb _ rows); [done|]. destruct (existsb _ rows); [done|].
  injection Hins as <- <-. simpl.
  split_and!; [done|lia|]. apply Forall_app. split; [done|].
  apply Forall_singleton. split.
  - eexists. split; [reflexivity|].
    apply truthy_nonempty. by apply negb_false_iff in Hu.
  - exists (seq + 1). split; [reflexivity|lia].
Qed.

End UsersTable.

(** ** server-production.js: registration *)

Section ProductionRegister.
Context `{Bcrypt}.

Lemma production_resolve_register u e p cookie now :
  resolve Production.server (Register u e p cookie now) = Auth.register.
Proof. reflexivity. Qed.

Lemma production_resolve_login u p cookie now :
  resolve Production.server (Login u p cookie now) = Auth.login.
Proof. reflexivity. Qed.

Lemma production_resolve_logout cookie now :
  resolve Production.server (Logout cookie now) = Auth.logout.
Proof. reflexivity. Qed.

Lemma production_resolve_me cookie now :
  resolve Production.server (CurrentUser cookie now) = Auth.me.
Proof. reflexivity. Qed.

(** A handler that keeps the invariant of the [users] table. *)
Definition keeps_users_ok (h : handler) : Prop :=
  ∀ rq w sid s, users_ok (db w) → users_ok (db (out_world (h rq w sid s))).

Lemma production_routes_keep_users_ok :
  Forall (λ r, keeps_users_ok (r_handler r)) (routes Production.server).
Proof.
  repeat first [apply List.Forall_nil | apply List.Forall_cons]; simpl;
    try (intros rq w sid s Hok; exact Hok).
  - intros rq w sid s. apply register_keeps_users_ok.
  - intros rq w sid s Hok. unfold Auth.login.
    repeat (case_match; simpl; try done).
  - intros rq w sid s Hok. unfold Auth.me. by case_match.
Qed.

Lemma production_serve_keeps_users_ok rq w :
  users_ok (db w) → users_ok (db (sv_world (serve Production.server rq w))).
Proof.
  intros Hok.
  destruct (serve_spec Production.server rq w) as (w1 & sid0 & s0 & l & Hl & Hs).
  simpl in Hs. rewrite Hs. simpl. rewrite finish_db.
  apply (resolve_ind keeps_users_ok Production.server rq
           production_routes_keep_users_ok).
  - intros ? ? ? ? Hok'. exact Hok'.
  - by rewrite (loaded_as_db _ _ _ _ _ _ _ Hl).
Qed.

(** Every state the server reaches from a new database keeps it. *)
Lemma production_reachable_users_ok rqs :
  users_ok (db (run Production.server rqs Production.start)).
Proof.
  assert (Hstart : users_ok (db Production.start))
    by (split_and!; [done|done|constructor]).
  revert Hstart. generalize Production.start as w.
  induction rqs as [|rq rqs IH]; intros w Hok; [done|].
  change (run Production.server (rq :: rqs) w)
    with (run Production.server rqs (sv_world (serve Production.server rq w))).
  by apply IH, production_serve_keeps_users_ok.
Qed.

(** The register handler on a username that is taken. *)
Lemma register_duplicate rq w sid s u e p :
  users_ok (db w) →
  username_taken u (users_table (db w)) →
  Body.username (rq_body rq) = Some u →
  Body.email (rq_body rq) = Some e →
  Body.password (rq_body rq) = Some p →
  e ≠ EmptyString →
  (6 ≤ Js.length p)%nat →
  Auth.register rq w sid s =
    answer w sid s (Reply 400 (error_json "Username or email already exists")).
Proof.
  intros (Hs & _ & Hrows) Htaken Hu He Hp Hne Hlen. unfold Auth.register.
  rewrite Hu, He, Hp.
  assert (Hune : u ≠ EmptyString).
  { destruct Htaken as [r Hr]. unfold Sql.select_first in Hr.
    apply find_some in Hr as [Hin Hr]. apply bool_decide_eq_true in Hr.
    rewrite Forall_forall in Hrows.
    apply list_elem_of_In, Hrows in Hin as [(u' & Hu' & Hne') _].
    congruence. }
  assert (Ht : ∀ x, x ≠ EmptyString → Js.truthy (Some x) = true).
  { intros [|a x] Hx; [done|reflexivity]. }
  assert (Hpne : p ≠ EmptyString).
  { intros ->. simpl in Hlen. lia. }
  rewrite (Ht u), (Ht e), (Ht p) by done. simpl.
  assert ((Z.of_nat (Js.length p) <? 6) = false) as -> by lia.
  destruct (users_table (db w)) as [sch rows seq] eqn:Et.
  simpl in Hs. subst sch. rewrite users_insert. simpl.
  pose proof (username_taken_collides u _ (seq + 1) e (hash p) (rq_now rq) Htaken)
    as Hc.
  simpl in Hc. rewrite Hc. reflexivity.
Qed.

(** C3. In every state server-production.js reaches from a new database,
    a Register call with a username that is already in the users table,
    with an email and a password of length six or more ([password.length],
    in UTF-16 code units), is answered 400
    with the error "Username or email already exists" (validation failures
    have other messages, other database failures get 500), and the database
    is left as it was. *)
Theorem register_taken_username_conflict rqs u e p cookie now :
  let w := run Production.server rqs Production.start in
  username_taken u (users_table (db w)) →
  e ≠ EmptyString →
  (6 ≤ Js.length p)%nat →
  let r := serve Production.server (Register (Some u) (Some e) (Some p) cookie now) w in
  sv_status r = 400 ∧
  sv_payload r = error_json "Username or email already exists" ∧
  db (sv_world r) = db w.
Proof.
  intros w Htaken He Hp r. subst r.
  pose proof (production_reachable_users_ok rqs) as Hok. fold w in Hok.
  destruct (serve_spec Production.server
              (Register (Some u) (Some e) (Some p) cookie now) w)
    as (w1 & sid0 & s0 & l & Hl & Hs).
  simpl in Hs. rewrite Hs. simpl.
  rewrite finish_db, production_resolve_register.
  pose proof (loaded_as_db _ _ _ _ _ _ _ Hl) as Hdb.
  rewrite (register_duplicate _ w1 sid0 s0 u e p) by (rewrite ?Hdb; done).
  done.
Qed.

End ProductionRegister.

(** "alice" registers on a new server-production.js; her session has
    identifier 0. *)
Definition register_alice : request :=
  Register (Some "alice") (Some "a@example.com") (Some "secret1") None 0.

Lemma register_taken_username_conflict_witness :
  let w := run (@Production.server sample_bcrypt) [register_alice] Production.start in
  let r := serve (@Production.server sample_bcrypt)
             (Register (Some "alice") (Some "alice2@example.com") (Some "secret2") None 5) w in
  sv_status (serve (@Production.server sample_bcrypt) register_alice Production.start) = 200 ∧
  sv_status r = 400 ∧
  sv_payload r = error_json "Username or email already exists" ∧
  db (sv_world r) = db w.
Proof.
  split; [reflexivity|].
  apply (@register_taken_username_conflict sample_bcrypt [register_alice]
           "alice" "alice2@example.com" "secret2" None 5).
  - by eexists.
  - discriminate.
  - simpl. lia.
Defined.

(** ** Login failures *)

Section LoginFailures.
Context `{Bcrypt}.

(** Two requests of the same client at the same time that get the same
    treatment by their handlers are served alike. *)
Lemma serve_ext a rq rq' w :
  rq_cookie rq = rq_cookie rq' →
  rq_now rq = rq_now rq' →
  (∀ w1 sid s, db w1 = db w →
     resolve a rq rq w1 sid s = resolve a rq' rq' w1 sid s) →
  serve a rq w = serve a rq' w.
Proof.
  intros Hc Hn Hh. unfold serve. rewrite Hc, Hn.
  destruct (load_session_spec w (rq_cookie rq') (rq_now rq'))
    as (w1 & sid0 & s0 & l & -> & Hl).
  by rewrite Hh by eauto using loaded_as_db.
Qed.

Definition invalid_credentials : reply :=
  Reply 401 (error_json "Invalid username or password").

Lemma truthy_some x : x ≠ EmptyString → Js.truthy (Some x) = true.
Proof. intros Hx. destruct x; [done|reflexivity]. Qed.

(** Wrong password for a registered user. *)
Lemma login_wrong_password rq w sid s u p user :
  Body.username (rq_body rq) = Some u →
  Body.password (rq_body rq) = Some p →
  u ≠ EmptyString → p ≠ EmptyString →
  Sql.select_first "username" (Sql.VText u) (users_table (db w)) = Some user →
  compare p (Js.str (Auth.row_text "password_hash" user)) = false →
  Auth.login rq w sid s = answer w sid s invalid_credentials.
Proof.
  intros Hu Hp Hune Hpne Huser Hcmp. unfold Auth.login.
  rewrite Hu, Hp, !truthy_some by done. simpl.
  by rewrite Huser, Hcmp.
Qed.

(** No user of that name. *)
Lemma login_unknown_user rq w sid s v p :
  Body.username (rq_body rq) = Some v →
  Body.password (rq_body rq) = Some p →
  v ≠ EmptyString → p ≠ EmptyString →
  Sql.select_first "username" (Sql.VText v) (users_table (db w)) = None →
  Auth.login rq w sid s = answer w sid s invalid_credentials.
Proof.
  intros Hu Hp Hune Hpne Huser. unfold Auth.login.
  rewrite Hu, Hp, !truthy_some by done. simpl.
  by rewrite Huser.
Qed.

Lemma login_failures_alike a w cookie now u p v p' user :
  (∀ x y, resolve a (Login x y cookie now) = Auth.login) →
  u ≠ EmptyString → p ≠ EmptyString → v ≠ EmptyString → p' ≠ EmptyString →
  Sql.select_first "username" (Sql.VText u) (users_table (db w)) = Some user →
  compare p (Js.str (Auth.row_text "password_hash" user)) = false →
  Sql.select_first "username" (Sql.VText v) (users_table (db w)) = None →
  let r1 := serve a (Login (Some u) (Some p) cookie now) w in
  let r2 := serve a (Login (Some v) (Some p') cookie now) w in
  sv_status r1 = 401 ∧
  sv_payload r1 = error_json "Invalid username or password" ∧
  db (sv_world r1) = db w ∧
  r1 = r2.
Proof.
  intros Hres Hu Hp Hv Hp' Huser Hcmp Hnone r1 r2. subst r1 r2.
  destruct (serve_spec a (Login (Some u) (Some p) cookie now) w)
    as (w1 & sid0 & s0 & l & Hl & Hs).
  pose proof (loaded_as_db _ _ _ _ _ _ _ Hl) as Hdb.
  split_and!.
  - simpl in Hs. rewrite Hs, Hres. simpl.
    by rewrite (login_wrong_password _ w1 sid0 s0 u p user) by (rewrite ?Hdb; done).
  - simpl in Hs. rewrite Hs, Hres. simpl.
    by rewrite (login_wrong_password _ w1 sid0 s0 u p user) by (rewrite ?Hdb; done).
  - simpl in Hs. rewrite Hs, Hres. simpl. rewrite finish_db.
    by rewrite (login_wrong_password _ w1 sid0 s0 u p user) by (rewrite ?Hdb; done).
  - apply serve_ext; [done..|]. intros w2 sid s Hdb2. rewrite !Hres.
    rewrite (login_wrong_password _ w2 sid s u p user) by (rewrite ?Hdb2; done).
    by rewrite (login_unknown_user _ w2 sid s v p') by (rewrite ?Hdb2; done).
Qed.

(** A Login without a username or without a password. *)
Lemma login_incomplete rq w sid s :
  Js.truthy (Body.username (rq_body rq)) && Js.truthy (Body.password (rq_body rq))
    = false →
  Auth.login rq w sid s =
    answer w sid s (Reply 400 (error_json "Username and password are required")).
Proof.
  intros Hf. unfold Auth.login.
  by destruct (Js.truthy (Body.username _)), (Js.truthy (Body.password _)).
Qed.

Lemma login_fields_required a w cookie now x y :
  (∀ x y, resolve a (Login x y cookie now) = Auth.login) →
  Js.truthy x && Js.truthy y = false →
  let r := serve a (Login x y cookie now) w in
  sv_status r = 400 ∧
  sv_payload r = error_json "Username and password are required" ∧
  db (sv_world r) = db w.
Proof.
  intros Hres Hf r. subst r.
  destruct (serve_spec a (Login x y cookie now) w)
    as (w1 & sid0 & s0 & l & Hl & Hs).
  cbv zeta in Hs. rewrite Hres, (login_incomplete _ w1 sid0 s0) in Hs by done.
  rewrite Hs. cbn [sv_status sv_payload sv_world].
  rewrite finish_db. simpl. eauto using loaded_as_db.
Qed.

(** C2, as amended. On the development server and on server-production.js,
    for every registered user u and every non-empty password p that does not
    match u's stored hash, and for every non-empty username v that is not
    registered and every non-empty password p', Login(u, p) and Login(v, p')
    are answered 401 with the same error, "Invalid username or password";
    sent by the same client at the same time, the two requests have the same
    effect in full (response, cookie and server state).  And a Login whose
    username or password is empty or missing is answered 400 "Username and
    password are required", in every state of the server, whether or not
    the user exists; the database is left as it was. *)
Theorem login_failures_indistinguishable w cookie now u p v p' user :
  u ≠ EmptyString → p ≠ EmptyString → v ≠ EmptyString → p' ≠ EmptyString →
  Sql.select_first "username" (Sql.VText u) (users_table (db w)) = Some user →
  compare p (Js.str (Auth.row_text "password_hash" user)) = false →
  Sql.select_first "username" (Sql.VText v) (users_table (db w)) = None →
  (let r1 := serve Production.server (Login (Some u) (Some p) cookie now) w in
   let r2 := serve Production.server (Login (Some v) (Some p') cookie now) w in
   sv_status r1 = 401 ∧
   sv_payload r1 = error_json "Invalid username or password" ∧
   db (sv_world r1) = db w ∧ r1 = r2) ∧
  (let r1 := serve Dev.server (Login (Some u) (Some p) cookie now) w in
   let r2 := serve Dev.server (Login (Some v) (Some p') cookie now) w in
   sv_status r1 = 401 ∧
   sv_payload r1 = error_json "Invalid username or password" ∧
   db (sv_world r1) = db w ∧ r1 = r2) ∧
  (∀ x y w' cookie' now',
     Js.truthy x && Js.truthy y = false →
     (let r := serve Production.server (Login x y cookie' now') w' in
      sv_status r = 400 ∧
      sv_payload r = error_json "Username and password are required" ∧
      db (sv_world r) = db w') ∧
     (let r := serve Dev.server (Login x y cookie' now') w' in
      sv_status r = 400 ∧
      sv_payload r = error_json "Username and password are required" ∧
      db (sv_world r) = db w')).
Proof.
  intros Hu Hp Hv Hp' Huser Hcmp Hnone.
  split_and!.
  - eapply login_failures_alike; eauto; reflexivity.
  - eapply login_failures_alike; eauto; reflexivity.
  - intros x y w' cookie' now' Hf.
    split; apply login_fields_required; done.
Qed.

End LoginFailures.

(** The world after "alice" has registered on a new server-production.js. *)
Definition production_alice : world :=
  run (@Production.server sample_bcrypt) [register_alice] Production.start.

Definition alice_row : Sql.row :=
  user_row 1 "alice" "a@example.com" "$2a$10$secret1" 0.

Lemma login_failures_indistinguishable_witness :
  let r1 := serve (@Production.server sample_bcrypt)
              (Login (Some "alice") (Some "wrong") None 5) production_alice in
  let r2 := serve (@Production.server sample_bcrypt)
              (Login (Some "bob") (Some "guess") None 5) production_alice in
  let r3 := serve (@Production.server sample_bcrypt)
              (Login (Some "alice") (Some EmptyString) None 5) production_alice in
  let r4 := serve (@Production.server sample_bcrypt)
              (Login None (Some "guess") None 5) production_alice in
  (sv_status r1 = 401 ∧
   sv_payload r1 = error_json "Invalid username or password" ∧
   db (sv_world r1) = db production_alice ∧ r1 = r2) ∧
  (sv_status r3 = 400 ∧
   sv_payload r3 = error_json "Username and password are required") ∧
  (sv_status r4 = 400 ∧
   sv_payload r4 = error_json "Username and password are required").
Proof.
  destruct (@login_failures_indistinguishable sample_bcrypt production_alice None 5
              "alice" "wrong" "bob" "guess" alice_row)
    as (Hprod & _ & Hreq);
    [discriminate | discriminate | discriminate | discriminate
    | reflexivity | reflexivity | reflexivity |].
  split; [exact Hprod|].
  destruct (Hreq (Some "alice") (Some EmptyString) production_alice None 5 eq_refl)
    as [(Hs3 & Hp3 & _) _].
  destruct (Hreq None (Some "guess") production_alice None 5 eq_refl)
    as [(Hs4 & Hp4 & _) _].
  split; split; assumption.
Defined.

(** C2 as stated fails for the empty password: it does not match the hash
    of the registered user "alice", and Login("alice", "") is answered 400
    "Username and password are required", not the 401 that Login("bob",
    "guess") gets for an unregistered name. *)
Lemma login_empty_password_not_401 :
  username_taken "alice" (users_table (db production_alice)) ∧
  @compare sample_bcrypt EmptyString "$2a$10$secret1" = false ∧
  Sql.select_first "username" (Sql.VText "bob") (users_table (db production_alice)) = None ∧
  sv_status (serve (@Production.server sample_bcrypt)
               (Login (Some "alice") (Some EmptyString) None 5) production_alice) = 400 ∧
  sv_payload (serve (@Production.server sample_bcrypt)
                (Login (Some "alice") (Some EmptyString) None 5) production_alice) =
    error_json "Username and password are required" ∧
  sv_status (serve (@Production.server sample_bcrypt)
               (Login (Some "bob") (Some "guess") None 5) production_alice) = 401.
Proof. split_and!; first [by eexists | reflexivity]. Qed.

(** ** Sessions across login and logout *)

Section SessionIdentifiers.
Context `{Bcrypt}.

Lemma load_session_live w c st now :
  sessions w !! c = Some st → now < Session.expires st →
  load_session w (Some c) now = (w, c, Session.data st, true).
Proof.
  intros Hst Hlive. unfold load_session. rewrite Hst.
  by apply Z.ltb_lt in Hlive as ->.
Qed.

(** A request that carries a live session is handled with that session. *)
Lemma serve_live a rq w c st :
  rq_cookie rq = Some c →
  sessions w !! c = Some st →
  rq_now rq < Session.expires st →
  let o := resolve a rq rq w c (Session.data st) in
  serve a rq w =
    Served (finish a (rq_now rq) c (Session.data st) true o).1
           (match out_reply o with Reply s _ => s | Thrown _ => (on_error a).1 end)
           (match out_reply o with Reply _ p => p | Thrown _ => (on_error a).2 end)
           (finish a (rq_now rq) c (Session.data st) true o).2
           c (out_session o ≫= λ _, Some (out_sid o)).
Proof.
  intros Hc Hst Hlive. unfold serve.
  rewrite Hc, (load_session_live _ _ _ _ Hst Hlive). cbv zeta.
  destruct (finish _ _ _ _ _ _) as [w2 ck]. simpl.
  destruct (out_reply _); [done|]. by destruct (on_error a).
Qed.

(** A login that succeeds: the user's row and the session it establishes. *)
Definition identity (user : Sql.row) : Session.t :=
  Session.Make (Auth.row_id user) (Auth.row_text "username" user).

Lemma login_success rq w sid s st p :
  out_reply (Auth.login rq w sid s) = Reply st p →
  st = 200 →
  ∃ user,
    Sql.select_first "username"
      (Sql.VText (Js.str (Body.username (rq_body rq)))) (users_table (db w))
    = Some user ∧
    Auth.login rq w sid s = answer w sid (identity user) (Auth.login_ok user).
Proof.
  unfold Auth.login. intros Hr ->.
  destruct (_ || _); [done|].
  destruct (Sql.select_first _ _ _) as [user|]; [|done].
  destruct (negb _); [done|]. eauto.
Qed.

(** C6 (the code departs from the claim). On server-production.js a
    successful Login on a request that arrives with a live session keeps the
    identifier of that session: the user's identity is stored under the
    identifier the request came with, and no other identifier is issued. *)
Theorem production_login_keeps_session_id w c st now u p :
  sessions w !! c = Some st →
  now < Session.expires st →
  let r := serve Production.server (Login u p (Some c) now) w in
  sv_status r = 200 →
  sv_sid_in r = c ∧ sv_sid_out r = Some c ∧
  ∃ user,
    sessions (sv_world r) !! c =
      Some (Session.Stored (identity user) (now + Session.maxAge)) ∧
    (sv_cookie r = CookieKeep ∨ sv_cookie r = CookieSet c).
Proof.
  intros Hst Hlive r. subst r.
  rewrite (serve_live Production.server (Login u p (Some c) now) w c st)
    by done.
  rewrite production_resolve_login. cbn [sv_status sv_sid_in sv_sid_out sv_world sv_cookie].
  destruct (out_reply (Auth.login (Login u p (Some c) now) w c (Session.data st)))
    as [status pl|exn] eqn:Hr; [|done].
  intros ->.
  destruct (login_success _ _ _ _ _ _ Hr eq_refl) as (user & _ & Hlogin).
  rewrite Hlogin. unfold finish, answer. simpl.
  rewrite (bool_decide_eq_true_2 (c = c)) by done. simpl.
  split_and!; [done..|]. exists user. rewrite lookup_insert_eq.
  split; [done|]. destruct (_ || _); auto.
Qed.

(** The identifiers in the store were issued by the supply. *)
Definition issued (w : world) : Prop :=
  ∀ c, is_Some (sessions w !! c) → (c < next_sid w)%nat.

Lemma railway_resolve_login u p cookie now :
  resolve Railway.server (Login u p cookie now) = Railway.login.
Proof. reflexivity. Qed.

Lemma railway_resolve_logout cookie now :
  resolve Railway.server (Logout cookie now) = Railway.logout.
Proof. reflexivity. Qed.

(** The login handler of the Railway document, read with the missing comma
    supplied, does what C6 says: a successful Login ends on an
    identifier other than the one the request came with. *)
Lemma railway_login_regenerates w u p cookie now :
  issued w →
  let r := serve Railway.server (Login u p cookie now) w in
  sv_status r = 200 →
  ∃ sid, sv_sid_out r = Some sid ∧ sid ≠ sv_sid_in r ∧
         sv_cookie r = CookieSet sid ∧
         sessions (sv_world r) !! sv_sid_in r = None.
Proof.
  intros Hissued r. subst r.
  destruct (serve_spec Railway.server (Login u p cookie now) w)
    as (w1 & sid0 & s0 & l & Hl & Hs).
  simpl in Hs. rewrite Hs, railway_resolve_login. clear Hs. simpl.
  assert (Hsid0 : (sid0 < next_sid w1)%nat).
  { simpl in Hl. destruct Hl as [c st' Hc Hst' _|w' _ _ _ _ Hnext]; [|lia].
    apply Hissued. eauto. }
  unfold Railway.login.
  destruct (_ || _); [done|].
  destruct (Sql.select_first _ _ _) as [user|]; [|done].
  destruct (negb _); [done|].
  simpl. intros _. exists (next_sid w1).
  assert (Hne : next_sid w1 ≠ sid0) by lia.
  rewrite (bool_decide_eq_true_2 (next_sid w1 ≠ sid0)) by done.
  rewrite (bool_decide_eq_false_2 (next_sid w1 = sid0)) by done.
  rewrite andb_false_r. simpl.
  split_and!; try done.
  rewrite insert_insert_eq, lookup_insert_ne by done.
  apply lookup_delete_eq.
Qed.

(** C8 (the code departs from the claim). On server-production.js a Logout
    on a live session destroys the stored session, and a later CurrentUser
    with the old cookie is answered 401; but the response does not clear the
    cookie: it carries no Set-Cookie header for it at all. *)
Theorem production_logout_keeps_cookie w c st now :
  sessions w !! c = Some st →
  now < Session.expires st →
  let r := serve Production.server (Logout (Some c) now) w in
  sv_status r = 200 ∧
  sessions (sv_world r) !! c = None ∧
  sv_cookie r = CookieKeep ∧
  ∀ now', sv_status (serve Production.server (CurrentUser (Some c) now') (sv_world r)) = 401.
Proof.
  intros Hst Hlive r. subst r.
  rewrite (serve_live Production.server (Logout (Some c) now) w c st) by done.
  rewrite production_resolve_logout. simpl.
  split_and!; try done.
  - apply lookup_delete_eq.
  - intros now'. unfold serve, load_session. simpl.
    rewrite lookup_delete_eq. reflexivity.
Qed.

(** The logout handler of the Railway document, read with the missing
    comma supplied, does what C8 says: the session is destroyed and the
    cookie cleared. *)
Lemma railway_logout_clears_cookie w c st now :
  sessions w !! c = Some st →
  now < Session.expires st →
  let r := serve Railway.server (Logout (Some c) now) w in
  sv_status r = 200 ∧
  sessions (sv_world r) !! c = None ∧
  sv_cookie r = CookieClear.
Proof.
  intros Hst Hlive r. subst r.
  rewrite (serve_live Railway.server (Logout (Some c) now) w c st) by done.
  rewrite railway_resolve_logout. simpl.
  split_and!; try done. apply lookup_delete_eq.
Qed.

End SessionIdentifiers.

(** "alice" has an account; "mallory" registers and so gets a session of her
    own, with identifier 1. *)
Definition production_mallory : world :=
  run (@Production.server sample_bcrypt)
    [register_alice;
     Register (Some "mallory") (Some "m@example.com") (Some "secret9") None 1]
    Production.start.

Definition mallory_session : Session.stored :=
  Session.Stored (Session.Make (Some 2) (Some "mallory")) 86400001.

(** The login of "alice" on a request that carries the session 1 leaves her
    identity in the session 1. *)
Lemma production_login_keeps_session_id_witness :
  let r := serve (@Production.server sample_bcrypt)
             (Login (Some "alice") (Some "secret1") (Some 1%nat) 10)
             production_mallory in
  sv_sid_in r = 1%nat ∧ sv_sid_out r = Some 1%nat ∧
  ∃ user,
    sessions (sv_world r) !! 1%nat =
      Some (Session.Stored (identity user) (10 + Session.maxAge)) ∧
    (sv_cookie r = CookieKeep ∨ sv_cookie r = CookieSet 1%nat).
Proof.
  apply (@production_login_keeps_session_id sample_bcrypt production_mallory
           1%nat mallory_session 10 (Some "alice") (Some "secret1"));
    [vm_compute; reflexivity | reflexivity | vm_compute; reflexivity].
Defined.

Definition alice_session : Session.stored :=
  Session.Stored (Session.Make (Some 1) (Some "alice")) 86400000.

Lemma production_logout_keeps_cookie_witness :
  let r := serve (@Production.server sample_bcrypt) (Logout (Some 0%nat) 5)
             production_alice in
  sv_status r = 200 ∧
  sessions (sv_world r) !! 0%nat = None ∧
  sv_cookie r = CookieKeep ∧
  ∀ now', sv_status (serve (@Production.server sample_bcrypt)
                       (CurrentUser (Some 0%nat) now') (sv_world r)) = 401.
Proof.
  apply (@production_logout_keeps_cookie sample_bcrypt production_alice
           0%nat alice_session 5);
    [vm_compute; reflexivity | reflexivity].
Defined.

(** ** The identity of a session over time (development server) *)

Section SessionOverTime.
Context `{Bcrypt}.

(** The requests that set or drop the identity of their session: POST to
    the register, login and logout routes. *)
Definition changes_identity (rq : request) : bool :=
  bool_decide (rq_method rq = POST) &&
  (path_matches (Path "/api/auth/register") (rq_path rq)
   || path_matches (Path "/api/auth/login") (rq_path rq)
   || path_matches (Path "/api/auth/logout") (rq_path rq)).

(** A handler that touches no session but its own, which it may destroy. *)
Definition session_local (h : handler) : Prop :=
  ∀ rq w sid s,
    out_sid (h rq w sid s) = sid ∧
    next_sid (out_world (h rq w sid s)) = next_sid w ∧
    ((sessions (out_world (h rq w sid s)) = sessions w ∧
      is_Some (out_session (h rq w sid s))) ∨
     (sessions (out_world (h rq w sid s)) = delete sid (sessions w) ∧
      out_session (h rq w sid s) = None)).

(** A handler that leaves its session as it found it. *)
Definition keeps_session (h : handler) : Prop :=
  ∀ rq w sid s,
    out_sid (h rq w sid s) = sid ∧
    next_sid (out_world (h rq w sid s)) = next_sid w ∧
    sessions (out_world (h rq w sid s)) = sessions w ∧
    out_session (h rq w sid s) = Some s.

Lemma keeps_session_local h : keeps_session h → session_local h.
Proof.
  intros Hk rq w sid s. destruct (Hk rq w sid s) as (? & ? & ? & Hs).
  split_and!; [done..|]. left. rewrite Hs. eauto.
Qed.

Ltac handler_cases :=
  repeat (case_match; simpl; try (split_and!; by eauto)).

Lemma me_keeps_session : keeps_session Auth.me.
Proof. intros rq w sid s. unfold Auth.me. handler_cases. Qed.

Lemma get_progress_keeps_session : keeps_session Dev.get_progress.
Proof. intros rq w sid s. unfold Dev.get_progress. handler_cases. Qed.

Lemma save_progress_keeps_session : keeps_session Dev.save_progress.
Proof. intros rq w sid s. unfold Dev.save_progress. handler_cases. Qed.

Lemma register_session_local : session_local Auth.register.
Proof. intros rq w sid s. unfold Auth.register. handler_cases. Qed.

Lemma login_session_local : session_local Auth.login.
Proof. intros rq w sid s. unfold Auth.login. handler_cases. Qed.

Lemma logout_session_local : session_local Auth.logout.
Proof. intros rq w sid s. unfold Auth.logout. simpl. eauto. Qed.

Lemma no_route_keeps_session : keeps_session no_route.
Proof. intros rq w sid s. by simpl. Qed.

(** As [resolve_ind], with the fact that the route matches the request. *)
Lemma resolve_matching (P : handler → Prop) a rq :
  Forall (λ r, route_matches rq r = true → P (r_handler r)) (routes a) →
  P no_route → P (resolve a rq).
Proof.
  intros Hall Hno. unfold resolve.
  destruct (find _ _) as [r|] eqn:Hfind; [|done].
  apply find_some in Hfind as [Hin Hm].
  rewrite Forall_forall in Hall. apply Hall; [by apply list_elem_of_In|done].
Qed.

Lemma dev_resolve_session_local rq : session_local (resolve Dev.server rq).
Proof.
  apply resolve_ind; [|apply keeps_session_local, no_route_keeps_session].
  repeat first [apply List.Forall_nil | apply List.Forall_cons]; simpl;
    auto using register_session_local, login_session_local,
      logout_session_local, keeps_session_local, me_keeps_session,
      get_progress_keeps_session, save_progress_keeps_session;
    apply keeps_session_local; intros rq' w sid s; by simpl.
Qed.

(** Apart from the three routes of [changes_identity], the handler that
    answers keeps the session. *)
Lemma dev_resolve_keeps_session rq :
  changes_identity rq = false → keeps_session (resolve Dev.server rq).
Proof.
  intros Hch. apply resolve_matching; [|apply no_route_keeps_session].
  assert (Hauth : ∀ p h,
            p = "/api/auth/register" ∨ p = "/api/auth/login"
            ∨ p = "/api/auth/logout" →
            route_matches rq (Route (Some POST) (Path p) h) = true →
            keeps_session h).
  { intros p h Hp Hm. exfalso. unfold route_matches in Hm. simpl in Hm.
    apply andb_true_iff in Hm as [Hmeth Hpath].
    apply bool_decide_eq_true in Hmeth.
    unfold changes_identity in Hch.
    rewrite <- Hmeth, bool_decide_eq_true_2 in Hch by done. simpl in Hch.
    destruct Hp as [->| [->| ->]]; simpl in Hpath; rewrite Hpath in Hch;
      simpl in Hch; rewrite ?orb_true_r in Hch; done. }
  repeat first [apply List.Forall_nil | apply List.Forall_cons];
    try (apply Hauth; tauto); intros _; simpl;
    auto using me_keeps_session, get_progress_keeps_session,
      save_progress_keeps_session;
    intros rq' w sid s; by simpl.
Qed.

(** The end of a request whose handler kept to its own session: the other
    sessions are as they were when the handler started. *)
Lemma finish_other a now sid0 s0 l o w1 sid :
  out_sid o = sid0 →
  sessions (out_world o) = sessions w1 ∨
  sessions (out_world o) = delete sid0 (sessions w1) →
  sid ≠ sid0 →
  sessions (finish a now sid0 s0 l o).1 !! sid = sessions w1 !! sid.
Proof.
  intros Hsid Hsess Hne. unfold finish.
  assert (Ho : sessions (out_world o) !! sid = sessions w1 !! sid).
  { destruct Hsess as [-> | ->]; [done|]. by apply lookup_delete_ne. }
  destruct (out_session o); [|done].
  destruct (_ || _ || _); [|done]. simpl.
  rewrite Hsid, lookup_insert_ne by done. done.
Qed.

Lemma finish_next_sid a now sid0 s0 l o :
  next_sid (finish a now sid0 s0 l o).1 = next_sid (out_world o).
Proof.
  unfold finish. destruct (out_session o); [|done].
  by destruct (_ || _ || _).
Qed.

(** A request of another client leaves a stored session as it is. *)
Lemma dev_serve_other rq w sid :
  issued w →
  is_Some (sessions w !! sid) →
  rq_cookie rq ≠ Some sid →
  sessions (sv_world (serve Dev.server rq w)) !! sid = sessions w !! sid.
Proof.
  intros Hissued Hsid Hc.
  destruct (serve_spec Dev.server rq w) as (w1 & sid0 & s0 & l & Hl & Hs).
  simpl in Hs. rewrite Hs. simpl. clear Hs.
  destruct (dev_resolve_session_local rq rq w1 sid0 s0) as (Ho & _ & Hsess).
  assert (Hne : sid ≠ sid0 ∧ sessions w1 !! sid = sessions w !! sid).
  { destruct Hl as [c st Hcookie Hst _|w' _ _ Hothers _ _].
    - split; [congruence|done].
    - split; [apply Hissued in Hsid; lia|]. by apply Hothers. }
  destruct Hne as [Hne <-].
  apply finish_other; [done| |done]. tauto.
Qed.

(** The supply of identifiers stays ahead of the store. *)
Lemma dev_serve_issued rq w :
  issued w → issued (sv_world (serve Dev.server rq w)).
Proof.
  intros Hissued.
  destruct (serve_spec Dev.server rq w) as (w1 & sid0 & s0 & l & Hl & Hs).
  simpl in Hs. rewrite Hs. simpl. clear Hs.
  destruct (dev_resolve_session_local rq rq w1 sid0 s0) as (Ho & Hnext & Hsess).
  assert (Hw1 : issued w1 ∧ (sid0 < next_sid w1)%nat).
  { destruct Hl as [c st Hcookie Hst _|w' _ _ _ Hor Hnext'].
    - split; [done|]. apply Hissued. eauto.
    - split; [|lia]. intros c Hc. rewrite Hnext'.
      assert (is_Some (sessions w !! c)); [|apply Hissued in H0; lia].
      destruct Hor as [<- | (c' & _ & Hdel)]; [done|].
      rewrite Hdel in Hc. apply lookup_delete_is_Some in Hc. tauto. }
  destruct Hw1 as [Hw1 Hlt].
  intros c Hc. rewrite finish_next_sid, Hnext.
  destruct (decide (c = sid0)) as [->|Hne]; [done|].
  rewrite (finish_other _ _ _ _ _ _ w1) in Hc by (done || tauto).
  by apply Hw1.
Qed.

(** A request of the session itself, before its expiry and apart from
    register, login and logout, keeps the data of the session and restarts
    its expiry. *)
Lemma dev_serve_same rq w sid st :
  rq_cookie rq = Some sid →
  sessions w !! sid = Some st →
  rq_now rq < Session.expires st →
  changes_identity rq = false →
  sessions (sv_world (serve Dev.server rq w)) !! sid =
    Some (Session.Stored (Session.data st) (rq_now rq + Session.maxAge)).
Proof.
  intros Hc Hst Hlive Hch.
  rewrite (serve_live Dev.server rq w sid st) by done. simpl.
  destruct (dev_resolve_keeps_session rq Hch rq w sid (Session.data st))
    as (Ho & _ & Hsess & Hs).
  unfold finish. rewrite Hs, Ho.
  rewrite (bool_decide_eq_true_2 (sid = sid)) by done. simpl.
  apply lookup_insert_eq.
Qed.

End SessionOverTime.

(** ** The states the development server reaches *)

Section DevReachable.
Context `{Bcrypt}.

Lemma dev_routes_keep_users_ok :
  Forall (λ r, keeps_users_ok (r_handler r)) (routes Dev.server).
Proof.
  repeat first [apply List.Forall_nil | apply List.Forall_cons]; simpl;
    try (intros rq w sid s Hok; exact Hok).
  - intros rq w sid s. apply register_keeps_users_ok.
  - intros rq w sid s Hok. unfold Auth.login.
    repeat (case_match; simpl; try done).
  - intros rq w sid s Hok. unfold Auth.me. by case_match.
  - intros rq w sid s Hok. unfold Dev.get_progress. by case_match.
  - intros rq w sid s Hok. unfold Dev.save_progress.
    repeat (case_match; simpl; try done).
Qed.

Lemma dev_serve_keeps_users_ok rq w :
  users_ok (db w) → users_ok (db (sv_world (serve Dev.server rq w))).
Proof.
  intros Hok.
  destruct (serve_spec Dev.server rq w) as (w1 & sid0 & s0 & l & Hl & Hs).
  simpl in Hs. rewrite Hs. simpl. rewrite finish_db.
  apply (resolve_ind keeps_users_ok Dev.server rq dev_routes_keep_users_ok).
  - intros ? ? ? ? Hok'. exact Hok'.
  - by rewrite (loaded_as_db _ _ _ _ _ _ _ Hl).
Qed.

Lemma dev_reachable rqs :
  users_ok (db (run Dev.server rqs Dev.start)) ∧
  issued (run Dev.server rqs Dev.start).
Proof.
  assert (Hstart : users_ok (db Dev.start) ∧ issued Dev.start).
  { split; [split_and!; [done|done|constructor]|].
    intros c [st Hc]. simpl in Hc. by rewrite lookup_empty in Hc. }
  revert Hstart. generalize Dev.start as w.
  induction rqs as [|rq rqs IH]; intros w [Hok Hissued]; [done|].
  change (run Dev.server (rq :: rqs) w)
    with (run Dev.server rqs (sv_world (serve Dev.server rq w))).
  apply IH. split; [by apply dev_serve_keeps_users_ok|by apply dev_serve_issued].
Qed.

Definition login_response (id : Z) (name : string) (email : json) : payload :=
  Json (JObj [("message", JStr "Login successful!");
              ("user", JObj [("id", JNum id); ("username", JStr name);
                             ("email", email)])]).

Definition me_response (id : Z) (name : string) : payload :=
  Json (JObj [("user", JObj [("id", JNum id); ("username", JStr name)])]).

End DevReachable.

(** C9 as stated fails: with no logout and no expiry in between, a Register
    request on the session of the login changes what CurrentUser answers. *)
Lemma current_user_changed_by_register :
  let w := run (@Dev.server sample_bcrypt) [register_alice] Dev.start in
  let r := serve (@Dev.server sample_bcrypt)
             (Login (Some "alice") (Some "secret1") None 10) w in
  let w' := run (@Dev.server sample_bcrypt)
              [Register (Some "bob") (Some "b@example.com") (Some "secret2")
                 (Some 1%nat) 20]
              (sv_world r) in
  sv_status r = 200 ∧
  sv_sid_out r = Some 1%nat ∧
  sv_payload r = login_response 1 "alice" (JStr "a@example.com") ∧
  sv_status (serve (@Dev.server sample_bcrypt) (CurrentUser (Some 1%nat) 30) w') = 200 ∧
  sv_payload (serve (@Dev.server sample_bcrypt) (CurrentUser (Some 1%nat) 30) w') =
    me_response 2 "bob".
Proof. split_and!; vm_compute; reflexivity. Qed.

(** * Further properties of the servers *)

(** ** Registration: validation *)

Section RegisterValidation.
Context `{Bcrypt}.

Definition all_present (username email password : option string) : bool :=
  Js.truthy username && Js.truthy email && Js.truthy password.

(** The end of a request that came without a stored session and whose
    handler only answered, when [saveUninitialized] is off: nothing is
    stored and no cookie is set. *)
Lemma finish_new_untouched a now sid s w r :
  saveUninitialized a = false →
  finish a now sid s false (answer w sid s r) = (w, CookieKeep).
Proof.
  intros Hsave. unfold finish, answer.
  cbn [out_world out_session out_sid out_clear_cookie].
  rewrite (bool_decide_eq_false_2 (sid ≠ sid)), (bool_decide_eq_false_2 (s ≠ s))
    by (intros Hne; by apply Hne).
  by rewrite Hsave.
Qed.

Lemma production_no_session rq w r :
  rq_cookie rq = None →
  (∀ w1 sid s, resolve Production.server rq rq w1 sid s = answer w1 sid s r) →
  sessions (sv_world (serve Production.server rq w)) = sessions w ∧
  sv_cookie (serve Production.server rq w) = CookieKeep.
Proof.
  intros Hc Hh. unfold serve, load_session. rewrite Hc.
  cbn [generate]. rewrite Hh, finish_new_untouched by done.
  by destruct r as [st p|exn]; [|destruct (on_error _)].
Qed.

Lemma register_incomplete rq w sid s :
  all_present (Body.username (rq_body rq)) (Body.email (rq_body rq))
              (Body.password (rq_body rq)) = false →
  Auth.register rq w sid s =
    answer w sid s (Reply 400 (error_json "All fields are required")).
Proof.
  unfold all_present, Auth.register. intros Hp.
  destruct (Js.truthy (Body.username _)), (Js.truthy (Body.email _)),
           (Js.truthy (Body.password _)); done.
Qed.

Lemma register_short_password rq w sid s p :
  Js.truthy (Body.username (rq_body rq)) = true →
  Js.truthy (Body.email (rq_body rq)) = true →
  Body.password (rq_body rq) = Some p →
  (0 < Js.length p < 6)%nat →
  Auth.register rq w sid s =
    answer w sid s
      (Reply 400 (error_json "Password must be at least 6 characters")).
Proof.
  intros Hu He Hp Hlen. unfold Auth.register. rewrite Hu, He, Hp.
  assert (Js.truthy (Some p) = true) as ->.
  { destruct p; [simpl in Hlen; lia|done]. }
  simpl. by assert ((Z.of_nat (Js.length p) <? 6) = true) as -> by lia.
Qed.

(** On server-production.js a Register request with a field missing or
    empty is answered 400 "All fields are required", whatever the state of
    the server and whatever cookie the request carries, and the database is
    left as it was; for a request without a cookie the server neither
    stores a session nor sets a cookie. *)
Theorem register_incomplete_refused w u e p cookie now :
  all_present u e p = false →
  let r := serve Production.server (Register u e p cookie now) w in
  sv_status r = 400 ∧
  sv_payload r = error_json "All fields are required" ∧
  db (sv_world r) = db w ∧
  (cookie = None →
   sessions (sv_world r) = sessions w ∧ sv_cookie r = CookieKeep).
Proof.
  intros Hp r. subst r.
  assert (Hh : ∀ w1 sid s,
            resolve Production.server (Register u e p cookie now)
              (Register u e p cookie now) w1 sid s =
            answer w1 sid s (Reply 400 (error_json "All fields are required"))).
  { intros. rewrite production_resolve_register. by apply register_incomplete. }
  destruct (serve_spec Production.server (Register u e p cookie now) w)
    as (w1 & sid0 & s0 & l & Hl & Hspec).
  cbv zeta in Hspec. rewrite Hh in Hspec.
  split_and!.
  - by rewrite Hspec.
  - by rewrite Hspec.
  - rewrite Hspec. cbn [sv_world]. rewrite finish_db. simpl.
    eauto using loaded_as_db.
  - intros ->.
    exact (production_no_session (Register u e p None now) w _ eq_refl Hh).
Qed.

(** On server-production.js a Register request with a username, an email
    and a password that is not empty and whose length ([password.length],
    in UTF-16 code units) is less than six is answered 400 "Password must be
    at least 6 characters" before the users table is looked at: the answer
    is the same whether or not the username or the email is taken, and the
    database is left as it was. *)
Theorem register_short_password_refused w u e p cookie now :
  u ≠ EmptyString → e ≠ EmptyString →
  (0 < Js.length p < 6)%nat →
  let r := serve Production.server (Register (Some u) (Some e) (Some p) cookie now) w in
  sv_status r = 400 ∧
  sv_payload r = error_json "Password must be at least 6 characters" ∧
  db (sv_world r) = db w.
Proof.
  intros Hu He Hlen r. subst r.
  destruct (serve_spec Production.server
              (Register (Some u) (Some e) (Some p) cookie now) w)
    as (w1 & sid0 & s0 & l & Hl & Hs).
  simpl in Hs. rewrite Hs. simpl.
  rewrite finish_db, production_resolve_register.
  rewrite (register_short_password _ w1 sid0 s0 p);
    [|simpl; by apply truthy_some..|done|done].
  simpl. eauto using loaded_as_db.
Qed.

End RegisterValidation.

Lemma register_incomplete_refused_witness :
  let r := serve (@Production.server sample_bcrypt)
             (Register (Some "alice") None (Some "secret1") (Some 0%nat) 5)
             production_alice in
  let r' := serve (@Production.server sample_bcrypt)
              (Register (Some "bob") (Some "b@example.com") (Some EmptyString)
                 None 5)
              production_alice in
  (sv_status r = 400 ∧
   sv_payload r = error_json "All fields are required" ∧
   db (sv_world r) = db production_alice) ∧
  (sv_status r' = 400 ∧
   sessions (sv_world r') = sessions production_alice ∧
   sv_cookie r' = CookieKeep).
Proof.
  destruct (@register_incomplete_refused sample_bcrypt production_alice
              (Some "alice") None (Some "secret1") (Some 0%nat) 5)
    as (Hst & Hpay & Hdb & _); [reflexivity|].
  destruct (@register_incomplete_refused sample_bcrypt production_alice
              (Some "bob") (Some "b@example.com") (Some EmptyString) None 5)
    as (Hst' & _ & _ & Hnone); [reflexivity|].
  destruct (Hnone eq_refl) as [Hs Hck].
  split; [split_and!; [exact Hst|exact Hpay|exact Hdb]|].
  split_and!; [exact Hst'|exact Hs|exact Hck].
Defined.

Lemma register_short_password_refused_witness :
  let r := serve (@Production.server sample_bcrypt)
             (Register (Some "alice") (Some "a@example.com") (Some "pässé") None 5)
             production_alice in
  sv_status r = 400 ∧
  sv_payload r = error_json "Password must be at least 6 characters" ∧
  db (sv_world r) = db production_alice.
Proof.
  apply (@register_short_password_refused sample_bcrypt production_alice
           "alice" "a@example.com" "pässé" None 5);
    [discriminate | discriminate | vm_compute; lia].
Defined.

(** ** Registration: what the handler does to the [users] table *)

Section RegisterOutcome.
Context `{Bcrypt}.

Definition email_taken (e : string) (t : Sql.table) : Prop :=
  is_Some (Sql.select_first "email" (Sql.VText e) t).

Definition registered (id : Z) (u e : string) : reply :=
  Reply 200 (Json (JObj
    [("message", JStr "Registration successful!");
     ("user", JObj [("id", JNum id); ("username", JStr u);
                    ("email", JStr e)])])).

(** The two ways the register handler ends on a table with the schema of
    the servers: it refuses and changes nothing, or it appends one row and
    binds the session to the new user. *)
Inductive register_result (rq : request) (w : world) (sid : nat) (s : Session.t)
  : outcome → Prop :=
| register_refused st msg :
    st ≠ 200 →
    register_result rq w sid s (answer w sid s (Reply st (error_json msg)))
| register_accepted u e p rows seq :
    Body.username (rq_body rq) = Some u →
    Body.email (rq_body rq) = Some e →
    Body.password (rq_body rq) = Some p →
    u ≠ EmptyString → e ≠ EmptyString → (6 ≤ Js.length p)%nat →
    users_table (db w) = Sql.Table users_schema rows seq →
    (∀ r, r ∈ rows → Sql.cell "username" r ≠ Sql.VText u) →
    (∀ r, r ∈ rows → Sql.cell "email" r ≠ Sql.VText e) →
    register_result rq w sid s
      (answer
         (set_db (set_users
                    (Sql.Table users_schema
                       (rows ++ [user_row (seq + 1) u e (hash p) (rq_now rq)])
                       (seq + 1))
                    (db w)) w)
         sid (Session.Make (Some (seq + 1)) (Some u))
         (registered (seq + 1) u e)).

Lemma no_collision c r rows :
  (match Sql.cell c r with Sql.VNull => False | _ => True end) →
  existsb (Sql.agree_on [c] r) rows = false →
  ∀ r', r' ∈ rows → Sql.cell c r' ≠ Sql.cell c r.
Proof.
  intros Hnn Hex r' Hin Heq.
  assert (existsb (Sql.agree_on [c] r) rows = true); [|congruence].
  apply existsb_exists. exists r'. split; [by apply list_elem_of_In|].
  unfold Sql.agree_on. simpl. rewrite Heq.
  destruct (Sql.cell c r); [done|..]; by rewrite bool_decide_eq_true_2.
Qed.

Lemma truthy_inv x : Js.truthy x = true → ∃ s, x = Some s ∧ s ≠ EmptyString.
Proof.
  destruct x as [s|]; [|done]. intros Hs. exists s. split; [done|].
  by intros ->.
Qed.

Lemma register_spec rq w sid s :
  Sql.tbl_schema (users_table (db w)) = users_schema →
  register_result rq w sid s (Auth.register rq w sid s).
Proof.
  intros Hs. unfold Auth.register.
  destruct (Js.truthy (Body.username (rq_body rq))) eqn:Hu;
    [|by apply register_refused].
  destruct (Js.truthy (Body.email (rq_body rq))) eqn:He;
    [|by apply register_refused].
  destruct (Js.truthy (Body.password (rq_body rq))) eqn:Hp;
    [|by apply register_refused].
  simpl.
  destruct (_ <? 6) eqn:Hlen; [by apply register_refused|].
  apply truthy_inv in Hu as (u & Hu & Hune).
  apply truthy_inv in He as (e & He & Hene).
  apply truthy_inv in Hp as (p & Hp & _).
  rewrite Hu, He, Hp in *. simpl in *.
  destruct (users_table (db w)) as [sch rows seq] eqn:Et.
  simpl in Hs. subst sch. rewrite users_insert. cbv zeta.
  destruct (existsb _ rows) eqn:Hcu; [by apply register_refused|].
  destruct (existsb (Sql.agree_on ["email"] _) rows) eqn:Hce;
    [by apply register_refused|].
  simpl. eapply register_accepted; eauto.
  - lia.
  - by apply (no_collision "username" (user_row (seq + 1) u e (hash p) (rq_now rq))).
  - by apply (no_collision "email" (user_row (seq + 1) u e (hash p) (rq_now rq))).
Qed.

End RegisterOutcome.

(** ** The [users] table over the life of a server *)

Section UsersInvariant.
Context `{Bcrypt}.

(** The values of one column, in the order of the rows. *)
Definition column_of (c : string) (t : Sql.table) : list Sql.value :=
  Sql.cell c <$> Sql.tbl_rows t.

(** Usernames and emails are pairwise different, and the ids are 1, 2, ...
    in the order of registration. *)
Record users_inv (t : Sql.table) : Prop := {
  inv_schema : Sql.tbl_schema t = users_schema;
  inv_seq : Sql.tbl_seq t = Z.of_nat (length (Sql.tbl_rows t));
  inv_ids : column_of "id" t =
            Sql.VInt <$> seqZ 1 (Z.of_nat (length (Sql.tbl_rows t)));
  inv_usernames : NoDup (column_of "username" t);
  inv_emails : NoDup (column_of "email" t)
}.

(** A handler that leaves the [users] table alone. *)
Definition keeps_users (h : handler) : Prop :=
  ∀ rq w sid s, users_table (db (out_world (h rq w sid s))) = users_table (db w).

(** A server whose only route that writes [users] is the register handler. *)
Definition register_only (a : app) : Prop :=
  Forall (λ r, keeps_users (r_handler r) ∨ r_handler r = Auth.register) (routes a).

Lemma login_keeps_users : keeps_users Auth.login.
Proof.
  intros rq w sid s. unfold Auth.login. repeat (case_match; simpl; try done).
Qed.

Lemma production_register_only : register_only Production.server.
Proof.
  repeat first [apply List.Forall_nil | apply List.Forall_cons]; simpl;
    first [by right | left].
  all: try apply login_keeps_users.
  all: intros rq w sid s; unfold Auth.me; simpl; try done; by case_match.
Qed.

Lemma dev_register_only : register_only Dev.server.
Proof.
  repeat first [apply List.Forall_nil | apply List.Forall_cons]; simpl;
    first [by right | left].
  all: try apply login_keeps_users.
  all: intros rq w sid s;
    unfold Auth.me, Dev.get_progress, Dev.save_progress; simpl; try done;
    repeat (case_match; simpl; try done).
Qed.

Lemma users_inv_register rq w sid s :
  users_inv (users_table (db w)) →
  users_inv (users_table (db (out_world (Auth.register rq w sid s)))).
Proof.
  intros Hinv.
  destruct (register_spec rq w sid s (inv_schema _ Hinv))
    as [st msg _|u e p rows seq _ _ _ _ _ _ Et Hfu Hfe]; [done|].
  simpl. destruct Hinv as [_ Hseq Hids Hus Hes].
  rewrite Et in Hseq, Hids, Hus, Hes.
  unfold column_of in *. simpl in *. subst seq.
  split; unfold column_of; simpl.
  - done.
  - rewrite length_app. simpl. lia.
  - rewrite fmap_app, Hids, length_app. simpl.
    rewrite Nat.add_1_r, seqZ_S, fmap_app. simpl.
    by rewrite (Z.add_comm 1).
  - rewrite fmap_app. apply NoDup_app. split_and!; [done| |apply NoDup_singleton].
    intros v Hv Hv'. apply list_elem_of_singleton in Hv'. subst v.
    apply list_elem_of_fmap in Hv as (r & Hr & Hin). by apply (Hfu r).
  - rewrite fmap_app. apply NoDup_app. split_and!; [done| |apply NoDup_singleton].
    intros v Hv Hv'. apply list_elem_of_singleton in Hv'. subst v.
    apply list_elem_of_fmap in Hv as (r & Hr & Hin). by apply (Hfe r).
Qed.

(** A property of the [users] table that the register handler keeps is kept
    by every request. *)
Lemma serve_users_invariant (I : Sql.table → Prop) a rq w :
  register_only a →
  (∀ rq w sid s, I (users_table (db w)) →
     I (users_table (db (out_world (Auth.register rq w sid s))))) →
  I (users_table (db w)) →
  I (users_table (db (sv_world (serve a rq w)))).
Proof.
  intros Honly Hreg HI.
  destruct (serve_spec a rq w) as (w1 & sid0 & s0 & l & Hl & Hs).
  cbv zeta in Hs. rewrite Hs. cbn [sv_world]. rewrite finish_db.
  rewrite <- (loaded_as_db _ _ _ _ _ _ _ Hl) in HI.
  revert HI. generalize w1 sid0 s0. clear Hs Hl.
  generalize rq at 2 as rq'. 
  apply (resolve_ind
           (λ h, ∀ rq' w2 sid s, I (users_table (db w2)) →
                   I (users_table (db (out_world (h rq' w2 sid s)))))).
  - eapply Forall_impl; [exact Honly|]. simpl.
    intros r [Hk| ->] rq' w2 sid s HI; [by rewrite Hk|by apply Hreg].
  - intros rq' w2 sid s HI. exact HI.
Qed.

Lemma run_users_invariant (I : Sql.table → Prop) a rqs w :
  register_only a →
  (∀ rq w sid s, I (users_table (db w)) →
     I (users_table (db (out_world (Auth.register rq w sid s))))) →
  I (users_table (db w)) →
  I (users_table (db (run a rqs w))).
Proof.
  intros Honly Hreg. revert w.
  induction rqs as [|rq rqs IH]; intros w HI; [done|].
  change (run a (rq :: rqs) w) with (run a rqs (sv_world (serve a rq w))).
  by apply IH, serve_users_invariant.
Qed.

Lemma users_inv_new : users_inv (Sql.create_table users_schema).
Proof. split; try done; apply NoDup_nil_2. Qed.

(** In every state that server-production.js or the development server
    reaches from a new database, no two users have the same username, no two
    have the same email, and the ids of the users are 1, 2, 3, ... in the
    order of their registration. *)
Theorem users_unique_and_numbered rqs :
  let unique_numbered (t : Sql.table) :=
    NoDup (column_of "username" t) ∧ NoDup (column_of "email" t) ∧
    column_of "id" t = Sql.VInt <$> seqZ 1 (Z.of_nat (length (Sql.tbl_rows t))) in
  unique_numbered (users_table (db (run Production.server rqs Production.start))) ∧
  unique_numbered (users_table (db (run Dev.server rqs Dev.start))).
Proof.
  intros unique_numbered.
  assert (Hp : users_inv (users_table (db (run Production.server rqs Production.start)))).
  { apply run_users_invariant;
      [apply production_register_only|apply users_inv_register|apply users_inv_new]. }
  assert (Hd : users_inv (users_table (db (run Dev.server rqs Dev.start)))).
  { apply run_users_invariant;
      [apply dev_register_only|apply users_inv_register|apply users_inv_new]. }
  split; [destruct Hp|destruct Hd]; done.
Qed.

End UsersInvariant.

(** ** Registration: a new account *)

Section RegisterAccepted.
Context `{Bcrypt}.

Lemma not_taken_no_collision c v t r :
  Sql.cell c r = Sql.VText v →
  Sql.select_first c (Sql.VText v) t = None →
  existsb (Sql.agree_on [c] r) (Sql.tbl_rows t) = false.
Proof.
  intros Hcell Hnone. destruct (existsb _ _) eqn:Hex; [|done].
  apply existsb_exists in Hex as (r' & Hin & Hagree).
  unfold Sql.agree_on in Hagree. simpl in Hagree. rewrite Hcell in Hagree.
  unfold Sql.select_first in Hnone.
  apply (find_none _ _ Hnone) in Hin. by rewrite Hin in Hagree.
Qed.

Lemma register_fresh rq w sid s u e p rows seq :
  Body.username (rq_body rq) = Some u →
  Body.email (rq_body rq) = Some e →
  Body.password (rq_body rq) = Some p →
  u ≠ EmptyString → e ≠ EmptyString → (6 ≤ Js.length p)%nat →
  users_table (db w) = Sql.Table users_schema rows seq →
  ¬ username_taken u (users_table (db w)) →
  ¬ email_taken e (users_table (db w)) →
  Auth.register rq w sid s =
    answer
      (set_db (set_users
                 (Sql.Table users_schema
                    (rows ++ [user_row (seq + 1) u e (hash p) (rq_now rq)])
                    (seq + 1))
                 (db w)) w)
      sid (Session.Make (Some (seq + 1)) (Some u))
      (registered (seq + 1) u e).
Proof.
  intros Hu He Hp Hune Hene Hlen Et Hfu Hfe. unfold Auth.register.
  assert (Hpne : p ≠ EmptyString) by (intros ->; simpl in Hlen; lia).
  rewrite Hu, He, Hp, !truthy_some by done. simpl.
  assert ((Z.of_nat (Js.length p) <? 6) = false) as -> by lia.
  rewrite Et in Hfu, Hfe |- *. rewrite users_insert. cbv zeta.
  rewrite (not_taken_no_collision "username" u (Sql.Table users_schema rows seq));
    [|done|].
  2: { destruct (Sql.select_first _ _ _) eqn:E; [|done]. exfalso. apply Hfu. by eexists. }
  rewrite (not_taken_no_collision "email" e (Sql.Table users_schema rows seq));
    [|done|].
  2: { destruct (Sql.select_first _ _ _) eqn:E; [|done]. exfalso. apply Hfe. by eexists. }
  reflexivity.
Qed.

(** The end of a request whose handler wrote its session: the session is
    stored under its identifier. *)
Lemma finish_stores a now sid s0 s' loaded w r :
  loaded = true ∨ s' ≠ s0 →
  sessions (finish a now sid s0 loaded (answer w sid s' r)).1 !! sid =
    Some (Session.Stored s' (now + Session.maxAge)).
Proof.
  intros Hwhy. unfold finish, answer.
  cbn [out_world out_session out_sid out_clear_cookie].
  rewrite (bool_decide_eq_true_2 (sid = sid)) by done.
  assert (loaded && true || saveUninitialized a
          || (bool_decide (sid ≠ sid) || bool_decide (s' ≠ s0)) = true) as ->.
  { destruct Hwhy as [-> | Hne]; [done|].
    rewrite (bool_decide_eq_true_2 (s' ≠ s0)) by done.
    by rewrite !orb_true_r. }
  simpl. apply lookup_insert_eq.
Qed.

(** On server-production.js, in every state reached from a new database, a
    Register request with a non-empty username and email that are not yet
    taken and a password of length six or more ([password.length], in UTF-16
    code units) is answered 200 with the
    new user's id (the number of users so far plus one), username and email;
    exactly one row is appended to the users table; and the session of the
    request is bound to the new user: CurrentUser on it, within 24 hours,
    answers with that id and username. *)
Theorem register_creates_account history u e p cookie now now' :
  let w := run Production.server history Production.start in
  let id := Z.of_nat (length (Sql.tbl_rows (users_table (db w)))) + 1 in
  u ≠ EmptyString → e ≠ EmptyString → (6 ≤ Js.length p)%nat →
  ¬ username_taken u (users_table (db w)) →
  ¬ email_taken e (users_table (db w)) →
  now' < now + Session.maxAge →
  let r := serve Production.server (Register (Some u) (Some e) (Some p) cookie now) w in
  sv_status r = 200 ∧
  sv_payload r = Json (JObj [("message", JStr "Registration successful!");
                             ("user", JObj [("id", JNum id); ("username", JStr u);
                                            ("email", JStr e)])]) ∧
  Sql.tbl_rows (users_table (db (sv_world r))) =
    Sql.tbl_rows (users_table (db w)) ++ [user_row id u e (hash p) now] ∧
  let r' := serve Production.server (CurrentUser (Some (sv_sid_in r)) now') (sv_world r) in
  sv_status r' = 200 ∧ sv_payload r' = me_response id u.
Proof.
  intros w id Hu He Hp Hfu Hfe Hnow r.
  assert (Hinv : users_inv (users_table (db w))).
  { apply run_users_invariant;
      [apply production_register_only|apply users_inv_register|apply users_inv_new]. }
  destruct (users_table (db w)) as [sch rows seq] eqn:Et.
  destruct Hinv as [Hsch Hseq _ _ _]. simpl in Hsch, Hseq. subst sch.
  simpl in id.
  assert (Hid : seq + 1 = id) by (unfold id; lia).
  destruct (serve_spec Production.server
              (Register (Some u) (Some e) (Some p) cookie now) w)
    as (w1 & sid0 & s0 & l & Hl & Hs).
  cbv zeta in Hs. fold r in Hs.
  rewrite production_resolve_register in Hs.
  pose proof (loaded_as_db _ _ _ _ _ _ _ Hl) as Hdb.
  rewrite (register_fresh _ w1 sid0 s0 u e p rows seq) in Hs
    by (rewrite ?Hdb, ?Et; done).
  rewrite Hid in Hs. cbn [rq_now Register] in Hs.
  assert (Hstored : sessions (sv_world r) !! sid0 =
            Some (Session.Stored (Session.Make (Some id) (Some u))
                                 (now + Session.maxAge))).
  { rewrite Hs. cbn [sv_world]. apply finish_stores.
    destruct Hl; [by left|by right]. }
  split_and!.
  - by rewrite Hs.
  - by rewrite Hs.
  - rewrite Hs. cbn [sv_world]. rewrite finish_db. by simpl.
  - intros r'. subst r'.
    assert (sv_sid_in r = sid0) as -> by (by rewrite Hs).
    rewrite (serve_live Production.server (CurrentUser (Some sid0) now') _ sid0 _
               eq_refl Hstored) by done.
    rewrite production_resolve_me. simpl. unfold Auth.me. simpl.
    assert ((id =? 0) = false) as -> by lia. done.
Qed.

End RegisterAccepted.

Lemma register_creates_account_witness :
  let w := run (@Production.server sample_bcrypt) [register_alice] Production.start in
  let r := serve (@Production.server sample_bcrypt)
             (Register (Some "bob") (Some "b@example.com") (Some "secret2") None 5) w in
  sv_status r = 200 ∧
  sv_payload r = Json (JObj [("message", JStr "Registration successful!");
                             ("user", JObj [("id", JNum 2); ("username", JStr "bob");
                                            ("email", JStr "b@example.com")])]) ∧
  Sql.tbl_rows (users_table (db (sv_world r))) =
    Sql.tbl_rows (users_table (db w))
    ++ [user_row 2 "bob" "b@example.com" "$2a$10$secret2" 5] ∧
  let r' := serve (@Production.server sample_bcrypt)
              (CurrentUser (Some (sv_sid_in r)) 100) (sv_world r) in
  sv_status r' = 200 ∧ sv_payload r' = me_response 2 "bob".
Proof.
  apply (@register_creates_account sample_bcrypt [register_alice]
           "bob" "b@example.com" "secret2" None 5 100).
  - discriminate.
  - discriminate.
  - simpl. lia.
  - intros [r Hr]. vm_compute in Hr. discriminate Hr.
  - intros [r Hr]. vm_compute in Hr. discriminate Hr.
  - reflexivity.
Defined.

(** ** Registration: a taken email; accounts stay *)

Section Accounts.
Context `{Bcrypt}.

Lemma email_taken_collides e t id u h now :
  email_taken e t →
  existsb (Sql.agree_on ["email"] (user_row id u e h now)) (Sql.tbl_rows t) = true.
Proof.
  intros [r Hr]. unfold Sql.select_first in Hr.
  apply find_some in Hr as [Hin Hr].
  apply existsb_exists. exists r. split; [exact Hin|].
  simpl. by rewrite Hr.
Qed.

Lemma register_taken_email rq w sid s u e p :
  Sql.tbl_schema (users_table (db w)) = users_schema →
  email_taken e (users_table (db w)) →
  Body.username (rq_body rq) = Some u →
  Body.email (rq_body rq) = Some e →
  Body.password (rq_body rq) = Some p →
  u ≠ EmptyString → e ≠ EmptyString → (6 ≤ Js.length p)%nat →
  Auth.register rq w sid s =
    answer w sid s (Reply 400 (error_json "Username or email already exists")).
Proof.
  intros Hs Htaken Hu He Hp Hune Hene Hlen. unfold Auth.register.
  assert (Hpne : p ≠ EmptyString) by (intros ->; simpl in Hlen; lia).
  rewrite Hu, He, Hp, !truthy_some by done. simpl.
  assert ((Z.of_nat (Js.length p) <? 6) = false) as -> by lia.
  destruct (users_table (db w)) as [sch rows seq] eqn:Et.
  simpl in Hs. subst sch. rewrite users_insert. cbv zeta.
  destruct (existsb _ rows); [reflexivity|].
  pose proof (email_taken_collides e _ (seq + 1) u (hash p) (rq_now rq) Htaken)
    as Hc.
  simpl in Hc. rewrite Hc. reflexivity.
Qed.

(** On server-production.js, in every state reached from a new database, a
    Register request whose email is already in the users table, with any
    non-empty username and a password of length six or more
    ([password.length], in UTF-16 code units), is answered
    400 with the same error as for a taken username, "Username or email
    already exists", and the database is left as it was. *)
Theorem register_taken_email_conflict history u e p cookie now :
  let w := run Production.server history Production.start in
  email_taken e (users_table (db w)) →
  u ≠ EmptyString → e ≠ EmptyString →
  (6 ≤ Js.length p)%nat →
  let r := serve Production.server (Register (Some u) (Some e) (Some p) cookie now) w in
  sv_status r = 400 ∧
  sv_payload r = error_json "Username or email already exists" ∧
  db (sv_world r) = db w.
Proof.
  intros w Htaken Hu He Hp r. subst r.
  pose proof (production_reachable_users_ok history) as (Hsch & _). fold w in Hsch.
  destruct (serve_spec Production.server
              (Register (Some u) (Some e) (Some p) cookie now) w)
    as (w1 & sid0 & s0 & l & Hl & Hs).
  cbv zeta in Hs. rewrite Hs. cbn [sv_status sv_payload sv_world].
  rewrite finish_db, production_resolve_register.
  pose proof (loaded_as_db _ _ _ _ _ _ _ Hl) as Hdb.
  rewrite (register_taken_email _ w1 sid0 s0 u e p) by (rewrite ?Hdb; done).
  done.
Qed.

End Accounts.

Lemma register_taken_email_conflict_witness :
  let w := run (@Production.server sample_bcrypt) [register_alice] Production.start in
  let r := serve (@Production.server sample_bcrypt)
             (Register (Some "alicia") (Some "a@example.com") (Some "secret2") None 5) w in
  sv_status r = 400 ∧
  sv_payload r = error_json "Username or email already exists" ∧
  db (sv_world r) = db w.
Proof.
  apply (@register_taken_email_conflict sample_bcrypt [register_alice]
           "alicia" "a@example.com" "secret2" None 5).
  - by eexists.
  - discriminate.
  - discriminate.
  - simpl. lia.
Defined.

Section AccountsStay.
Context `{Bcrypt}.

Lemma find_app_none {A} (f : A → bool) (l l' : list A) :
  find f l = None → find f (l ++ l') = find f l'.
Proof.
  induction l as [|x l IH]; [done|]. simpl.
  destruct (f x); [done|]. exact IH.
Qed.

Lemma find_none_intro {A} (f : A → bool) (l : list A) :
  (∀ x, x ∈ l → f x = false) → find f l = None.
Proof.
  induction l as [|x l IH]; [done|]. intros Hall. simpl.
  rewrite (Hall x) by apply list_elem_of_here.
  apply IH. intros y Hy. apply Hall. by apply list_elem_of_further.
Qed.

(** The table has grown from the rows [rows0]. *)
Definition grown_from (rows0 : list Sql.row) (t : Sql.table) : Prop :=
  Sql.tbl_schema t = users_schema ∧ ∃ extra, Sql.tbl_rows t = rows0 ++ extra.

Lemma grown_from_register rows0 rq w sid s :
  grown_from rows0 (users_table (db w)) →
  grown_from rows0 (users_table (db (out_world (Auth.register rq w sid s)))).
Proof.
  intros [Hs (extra & Hrows)].
  destruct (register_spec rq w sid s Hs)
    as [st msg _|u e p rows seq _ _ _ _ _ _ Et _ _]; [by split; eauto|].
  simpl. split; [done|]. rewrite Et in Hrows. simpl in Hrows. subst rows.
  exists (extra ++ [user_row (seq + 1) u e (hash p) (rq_now rq)]).
  by rewrite app_assoc.
Qed.

Lemma login_accepted rq w sid s u p user :
  Body.username (rq_body rq) = Some u →
  Body.password (rq_body rq) = Some p →
  u ≠ EmptyString → p ≠ EmptyString →
  Sql.select_first "username" (Sql.VText u) (users_table (db w)) = Some user →
  compare p (Js.str (Auth.row_text "password_hash" user)) = true →
  Auth.login rq w sid s = answer w sid (identity user) (Auth.login_ok user).
Proof.
  intros Hu Hp Hune Hpne Huser Hcmp. unfold Auth.login.
  rewrite Hu, Hp, !truthy_some by done. simpl.
  by rewrite Huser, Hcmp.
Qed.

(** On server-production.js, with a bcrypt whose [compare] accepts the
    password a hash was made from: once a Register request has been answered
    200, a Login with the same username and password is answered 200 with
    the same id, username and email, whatever requests the server has served
    in between and whatever session the login comes from. *)
Theorem registered_user_can_log_in
    history u e p cookie now rqs cookie' now' :
  (∀ x, compare x (hash x) = true) →
  let w := run Production.server history Production.start in
  let r := serve Production.server (Register (Some u) (Some e) (Some p) cookie now) w in
  sv_status r = 200 →
  ∃ id,
    sv_payload r = Json (JObj [("message", JStr "Registration successful!");
                               ("user", JObj [("id", JNum id); ("username", JStr u);
                                              ("email", JStr e)])]) ∧
    let r' := serve Production.server (Login (Some u) (Some p) cookie' now')
                (run Production.server rqs (sv_world r)) in
    sv_status r' = 200 ∧ sv_payload r' = login_response id u (JStr e).
Proof.
  intros Hlaw w r Hstatus.
  assert (Hinv : users_inv (users_table (db w))).
  { apply run_users_invariant;
      [apply production_register_only|apply users_inv_register|apply users_inv_new]. }
  destruct (serve_spec Production.server
              (Register (Some u) (Some e) (Some p) cookie now) w)
    as (w1 & sid0 & s0 & l & Hl & Hs).
  cbv zeta in Hs. fold r in Hs. rewrite production_resolve_register in Hs.
  pose proof (loaded_as_db _ _ _ _ _ _ _ Hl) as Hdb.
  assert (Hsch : Sql.tbl_schema (users_table (db w1)) = users_schema)
    by (rewrite Hdb; apply Hinv).
  destruct (register_spec (Register (Some u) (Some e) (Some p) cookie now)
              w1 sid0 s0 Hsch)
    as [st msg Hst|u0 e0 p0 rows seq Hu He Hp Hune Hene Hlen Et Hfu Hfe].
  { rewrite Hs in Hstatus. simpl in Hstatus. done. }
  simpl in Hu, He, Hp. injection Hu as <-. injection He as <-. injection Hp as <-.
  cbn [rq_now Register] in Hs.
  exists (seq + 1). split; [by rewrite Hs|].
  (* the row stays in the table *)
  set (row := user_row (seq + 1) u e (hash p) now) in *.
  assert (Hgrown : grown_from (rows ++ [row])
            (users_table (db (run Production.server rqs (sv_world r))))).
  { apply run_users_invariant;
      [apply production_register_only|apply grown_from_register|].
    rewrite Hs. cbn [sv_world]. rewrite finish_db. simpl.
    split; [done|]. exists []. by rewrite app_nil_r. }
  destruct Hgrown as [Hsch' (extra & Hrows)].
  assert (Hfind : Sql.select_first "username" (Sql.VText u)
            (users_table (db (run Production.server rqs (sv_world r)))) = Some row).
  { unfold Sql.select_first. rewrite Hrows, <- app_assoc.
    rewrite find_app_none.
    - simpl. by rewrite bool_decide_eq_true_2.
    - apply find_none_intro. intros x Hx.
      apply bool_decide_eq_false. by apply Hfu. }
  intros r'. subst r'.
  destruct (serve_spec Production.server (Login (Some u) (Some p) cookie' now')
              (run Production.server rqs (sv_world r)))
    as (w2 & sid2 & s2 & l2 & Hl2 & Hs2).
  cbv zeta in Hs2. rewrite Hs2, production_resolve_login.
  pose proof (loaded_as_db _ _ _ _ _ _ _ Hl2) as Hdb2.
  assert (Hpne : p ≠ EmptyString) by (intros ->; simpl in Hlen; lia).
  rewrite (login_accepted _ w2 sid2 s2 u p row);
    [done|done|done|done|done|by rewrite Hdb2|apply Hlaw].
Qed.

End AccountsStay.

Lemma registered_user_can_log_in_witness :
  ∃ id,
    sv_payload (serve (@Production.server sample_bcrypt)
                  (Register (Some "bob") (Some "b@example.com") (Some "secret2") None 5)
                  (run (@Production.server sample_bcrypt) [register_alice] Production.start))
    = Json (JObj [("message", JStr "Registration successful!");
                  ("user", JObj [("id", JNum id); ("username", JStr "bob");
                                 ("email", JStr "b@example.com")])]) ∧
    let r' := serve (@Production.server sample_bcrypt)
                (Login (Some "bob") (Some "secret2") None 50)
                (run (@Production.server sample_bcrypt)
                   [Logout (Some 1%nat) 10;
                    Register (Some "carol") (Some "c@example.com") (Some "secret3") None 20]
                   (sv_world (serve (@Production.server sample_bcrypt)
                      (Register (Some "bob") (Some "b@example.com") (Some "secret2") None 5)
                      (run (@Production.server sample_bcrypt) [register_alice]
                         Production.start)))) in
    sv_status r' = 200 ∧ sv_payload r' = login_response id "bob" (JStr "b@example.com").
Proof.
  apply (@registered_user_can_log_in sample_bcrypt [register_alice]
           "bob" "b@example.com" "secret2" None 5
           [Logout (Some 1%nat) 10;
            Register (Some "carol") (Some "c@example.com") (Some "secret3") None 20]
           None 50).
  - intros x. simpl. apply String.eqb_refl.
  - vm_compute. reflexivity.
Defined.

(** ** The identity of a session after a login (development server) *)

Section IdentityAfterLogin.
Context `{Bcrypt}.

(** A POST request to [path]. *)
Definition posts (path : string) (rq : request) : bool :=
  bool_decide (rq_method rq = POST) && path_matches (Path path) (rq_path rq).

(** The requests of a session that take the identity [name] from it: a
    Logout, a Register that is answered 200, and a Login that is answered
    200 for another username.  [r] is the answer to the request. *)
Definition ends_identity (name : string) (rq : request) (r : served) : bool :=
  posts "/api/auth/logout" rq
  || (posts "/api/auth/register" rq && (sv_status r =? 200))
  || (posts "/api/auth/login" rq && (sv_status r =? 200)
      && negb (bool_decide (Body.username (rq_body rq) = Some name))).

(** The requests [rqs] that the server answers from the state [w], as far
    as the session [sid] goes: each request of the session comes before the
    session expires ([maxAge] after its last request, [last] at first) and
    does not end the identity [name].  The result is the time of the last
    request of the session. *)
Fixpoint follow (name : string) (sid : nat) (last : Z) (rqs : list request)
    (w : world) : option Z :=
  match rqs with
  | [] => Some last
  | rq :: rqs' =>
      let r := serve Dev.server rq w in
      if bool_decide (rq_cookie rq = Some sid) then
        if (rq_now rq <? last + Session.maxAge) && negb (ends_identity name rq r)
        then follow name sid (rq_now rq) rqs' (sv_world r)
        else None
      else follow name sid last rqs' (sv_world r)
  end.

Lemma changes_identity_posts rq :
  changes_identity rq =
    posts "/api/auth/register" rq || posts "/api/auth/login" rq
    || posts "/api/auth/logout" rq.
Proof.
  unfold changes_identity, posts.
  by destruct (bool_decide _).
Qed.

Lemma dev_resolve_register_post rq :
  posts "/api/auth/register" rq = true → resolve Dev.server rq = Auth.register.
Proof.
  unfold posts. intros Hp. apply andb_true_iff in Hp as [Hm Hpath].
  apply bool_decide_eq_true in Hm.
  unfold resolve, Dev.server, Dev.routes, route_matches.
  cbn [routes find r_method r_pattern r_handler].
  by rewrite Hm, bool_decide_eq_true_2, Hpath by done.
Qed.

Lemma dev_resolve_login_post rq :
  posts "/api/auth/register" rq = false →
  posts "/api/auth/login" rq = true →
  resolve Dev.server rq = Auth.login.
Proof.
  unfold posts. intros Hr Hp. apply andb_true_iff in Hp as [Hm Hpath].
  apply bool_decide_eq_true in Hm. rewrite Hm in Hr.
  rewrite bool_decide_eq_true_2, andb_true_l in Hr by done.
  unfold resolve, Dev.server, Dev.routes, route_matches.
  cbn [routes find r_method r_pattern r_handler].
  by rewrite Hm, bool_decide_eq_true_2, Hr, Hpath by done.
Qed.

(** A request of a live session whose handler leaves the session with the
    data [s']: the store holds [s'] and the expiry restarts. *)
Lemma dev_serve_session rq w sid st s' :
  rq_cookie rq = Some sid →
  sessions w !! sid = Some st →
  rq_now rq < Session.expires st →
  out_session (resolve Dev.server rq rq w sid (Session.data st)) = Some s' →
  sessions (sv_world (serve Dev.server rq w)) !! sid =
    Some (Session.Stored s' (rq_now rq + Session.maxAge)).
Proof.
  intros Hc Hst Hlive Hs.
  rewrite (serve_live Dev.server rq w sid st) by done. simpl.
  destruct (dev_resolve_session_local rq rq w sid (Session.data st))
    as (Ho & _ & _).
  unfold finish. rewrite Hs, Ho.
  rewrite (bool_decide_eq_true_2 (sid = sid)) by done. simpl.
  apply lookup_insert_eq.
Qed.

Lemma dev_serve_status rq w sid st :
  rq_cookie rq = Some sid →
  sessions w !! sid = Some st →
  rq_now rq < Session.expires st →
  ∀ code pl,
    out_reply (resolve Dev.server rq rq w sid (Session.data st)) = Reply code pl →
    sv_status (serve Dev.server rq w) = code.
Proof.
  intros Hc Hst Hlive code pl Hr.
  rewrite (serve_live Dev.server rq w sid st) by done. simpl.
  by rewrite Hr.
Qed.

(** The first row of a username in a table with the schema of the servers. *)
Definition first_user (name : string) (user : Sql.row) (t : Sql.table) : Prop :=
  Sql.tbl_schema t = users_schema ∧
  Sql.select_first "username" (Sql.VText name) t = Some user.

Lemma find_app_some {A} (f : A → bool) (l l' : list A) x :
  find f l = Some x → find f (l ++ l') = Some x.
Proof.
  induction l as [|y l IH]; [done|]. simpl.
  destruct (f y); [done|]. exact IH.
Qed.

Lemma first_user_register name user rq w sid s :
  first_user name user (users_table (db w)) →
  first_user name user (users_table (db (out_world (Auth.register rq w sid s)))).
Proof.
  intros [Hs Hsel].
  destruct (register_spec rq w sid s Hs)
    as [st msg _|u e p rows seq _ _ _ _ _ _ Et _ _]; [by split|].
  simpl. split; [done|].
  rewrite Et in Hsel. unfold Sql.select_first in *. simpl in *.
  by apply find_app_some.
Qed.

(** A request of the session that does not end the identity leaves the
    data of the session as it is and restarts its expiry. *)
Lemma dev_serve_keeps_identity name user rq w sid last :
  first_user name user (users_table (db w)) →
  sessions w !! sid = Some (Session.Stored (identity user) (last + Session.maxAge)) →
  rq_cookie rq = Some sid →
  rq_now rq < last + Session.maxAge →
  ends_identity name rq (serve Dev.server rq w) = false →
  sessions (sv_world (serve Dev.server rq w)) !! sid =
    Some (Session.Stored (identity user) (rq_now rq + Session.maxAge)).
Proof.
  intros [Hsch Hsel] Hst Hc Hlive Hends.
  destruct (changes_identity rq) eqn:Hch.
  2: { by rewrite (dev_serve_same rq w sid _ Hc Hst Hlive Hch). }
  apply (dev_serve_session rq w sid _ _ Hc Hst Hlive). simpl.
  pose proof (dev_serve_status rq w sid _ Hc Hst Hlive) as Hstatus.
  simpl in Hstatus.
  rewrite changes_identity_posts in Hch.
  unfold ends_identity in Hends.
  apply orb_false_iff in Hends as [Hends Hlogin].
  apply orb_false_iff in Hends as [Hlogout Hregister].
  rewrite Hlogout, orb_false_r in Hch.
  destruct (posts "/api/auth/register" rq) eqn:Hreg.
  - (* a Register that is refused *)
    rewrite dev_resolve_register_post in * by done.
    simpl in Hregister. apply Z.eqb_neq in Hregister.
    destruct (register_spec rq w sid (identity user) Hsch)
      as [code msg _|u e p rows seq _ _ _ _ _ _ _ _ _]; [done|].
    exfalso. apply Hregister. by eapply Hstatus.
  - (* a Login *)
    simpl in Hch. rewrite Hch in Hlogin.
    rewrite (dev_resolve_login_post rq Hreg Hch) in *.
    destruct (out_reply (Auth.login rq w sid (identity user)))
      as [code pl|exn] eqn:Hr.
    2: { revert Hr. unfold Auth.login.
         repeat (case_match; simpl; try done). }
    destruct (decide (code = 200)) as [->|Hcode].
    + (* accepted, for the same username *)
      rewrite (Hstatus _ _ eq_refl) in Hlogin. simpl in Hlogin.
      apply negb_false_iff, bool_decide_eq_true in Hlogin.
      destruct (login_success _ _ _ _ _ _ Hr eq_refl) as (user' & Hsel' & ->).
      rewrite Hlogin in Hsel'. simpl in Hsel'.
      rewrite Hsel in Hsel'. by injection Hsel' as <-.
    + (* refused *)
      revert Hr. unfold Auth.login.
      repeat (case_match; simpl; try done).
      intros Hr. injection Hr as <- _. done.
Qed.

(** The invariant of [follow]. *)
Lemma dev_run_follow name user sid rqs w last last' :
  issued w →
  first_user name user (users_table (db w)) →
  sessions w !! sid = Some (Session.Stored (identity user) (last + Session.maxAge)) →
  follow name sid last rqs w = Some last' →
  sessions (run Dev.server rqs w) !! sid =
    Some (Session.Stored (identity user) (last' + Session.maxAge)).
Proof.
  revert w last.
  induction rqs as [|rq rqs IH]; intros w last Hissued Hfirst Hst Hf.
  { simpl in Hf. injection Hf as <-. done. }
  change (run Dev.server (rq :: rqs) w)
    with (run Dev.server rqs (sv_world (serve Dev.server rq w))).
  assert (Hfirst' : first_user name user
                      (users_table (db (sv_world (serve Dev.server rq w))))).
  { apply (serve_users_invariant (first_user name user));
      [apply dev_register_only| |done].
    intros. by apply first_user_register. }
  simpl in Hf. case_bool_decide as Hc.
  - destruct (_ && _) eqn:Hok; [|done].
    apply andb_true_iff in Hok as [Hlt Hends].
    apply Z.ltb_lt in Hlt. apply negb_true_iff in Hends.
    apply (IH _ (rq_now rq)); [by apply dev_serve_issued|done| |done].
    by apply (dev_serve_keeps_identity name user rq w sid last).
  - apply (IH _ last); [by apply dev_serve_issued|done| |done].
    rewrite dev_serve_other; eauto.
Qed.

(** C9, as amended. On the development server, after a successful Login,
    CurrentUser on the session of that login is answered with the username
    (and id) of the login response, whatever requests other clients send,
    as long as every request of the session itself arrives before the
    session expires (24 hours after its previous request) and is neither a
    Logout, nor a Register that is answered 200, nor a Login that is
    answered 200 for another username.  A Login or a Register of the
    session that the server refuses, and a further Login as the same user,
    leave the answer of CurrentUser as it is. *)
Theorem current_user_stable_after_login
    history u p cookie t0 sid rqs last now :
  let w := run Dev.server history Dev.start in
  let r := serve Dev.server (Login u p cookie t0) w in
  sv_status r = 200 →
  sv_sid_out r = Some sid →
  follow (Js.str u) sid t0 rqs (sv_world r) = Some last →
  now < last + Session.maxAge →
  ∃ id email,
    sv_payload r = login_response id (Js.str u) email ∧
    let r' := serve Dev.server (CurrentUser (Some sid) now)
                (run Dev.server rqs (sv_world r)) in
    sv_status r' = 200 ∧ sv_payload r' = me_response id (Js.str u).
Proof.
  intros w r Hstatus Hsid Hfollow Hnow.
  destruct (dev_reachable history) as [Hok Hissued]. fold w in Hok, Hissued.
  pose proof (dev_serve_issued (Login u p cookie t0) w Hissued) as Hissued'.
  pose proof (dev_serve_keeps_users_ok (Login u p cookie t0) w Hok) as Hok'.
  fold r in Hissued', Hok'.
  destruct (serve_spec Dev.server (Login u p cookie t0) w)
    as (w1 & sid0 & s0 & l & Hl & Hs).
  simpl in Hs. fold r in Hs.
  change (resolve Dev.server (Login u p cookie t0)) with Auth.login in Hs.
  pose proof (loaded_as_db _ _ _ _ _ _ _ Hl) as Hdb.
  destruct (out_reply (Auth.login (Login u p cookie t0) w1 sid0 s0))
    as [st pl|exn] eqn:Hr.
  2: { rewrite Hs in Hstatus. simpl in Hstatus. done. }
  assert (Hst : st = 200) by (rewrite Hs in Hstatus; exact Hstatus).
  destruct (login_success _ _ _ _ _ _ Hr Hst) as (user & Hsel & Hlogin).
  rewrite Hlogin in Hs, Hr. simpl in Hs, Hsel.
  (* the row of the user *)
  assert (Huser : user_ok user).
  { destruct Hok as (_ & _ & Hrows). rewrite <- Hdb in Hrows.
    unfold Sql.select_first in Hsel. apply find_some in Hsel as [Hin _].
    rewrite Forall_forall in Hrows. by apply Hrows, list_elem_of_In. }
  assert (Hname : Sql.cell "username" user = Sql.VText (Js.str u)).
  { unfold Sql.select_first in Hsel. apply find_some in Hsel as [_ Hc].
    by apply bool_decide_eq_true in Hc. }
  destruct Huser as [_ (id & Hid & Hpos)].
  assert (Hident : identity user = Session.Make (Some id) (Some (Js.str u))).
  { unfold identity, Auth.row_id, Auth.row_text. by rewrite Hid, Hname. }
  exists id, (Sql.value_json (Sql.cell "email" user)).
  split.
  { rewrite Hs. simpl. injection Hr as _ <-.
    unfold Auth.login_ok, login_response. by rewrite Hid, Hname. }
  (* the session of the login *)
  assert (sid = sid0) as ->.
  { rewrite Hs in Hsid. simpl in Hsid. by injection Hsid. }
  assert (Hstored : sessions (sv_world r) !! sid0 =
            Some (Session.Stored (identity user) (t0 + Session.maxAge))).
  { rewrite Hs. simpl. unfold finish, answer. simpl.
    rewrite orb_true_r. simpl. apply lookup_insert_eq. }
  assert (Hfirst : first_user (Js.str u) user (users_table (db (sv_world r)))).
  { split; [by destruct Hok'|].
    rewrite Hs. cbn [sv_world]. by destruct (_ || _ || _). }
  pose proof (dev_run_follow (Js.str u) user sid0 rqs (sv_world r) t0 last
                Hissued' Hfirst Hstored Hfollow) as Hlast.
  intros r'. subst r'.
  rewrite (serve_live Dev.server (CurrentUser (Some sid0) now) _ sid0 _ eq_refl Hlast)
    by done.
  rewrite dev_resolve_me. simpl. rewrite Hident.
  unfold Auth.me. simpl.
  assert ((id =? 0) = false) as -> by lia. done.
Qed.

End IdentityAfterLogin.

(** "alice" logs in on the development server and gets the session 1; then
    she asks who she is, another client registers, she saves progress and
    asks for a module, she tries to register a name that is taken and to log
    in as "carol" with a wrong password, and she logs in again as herself. *)
Definition after_login : list request :=
  [CurrentUser (Some 1%nat) 20;
   Register (Some "carol") (Some "c@example.com") (Some "secret3") None 30;
   SaveProgress (Js.Num 1) (Js.Bool true) (Js.Num 100) (Js.Num 30) (Some 1%nat) 40;
   GetModule "1" (Some 1%nat) 50;
   Register (Some "carol") (Some "x@example.com") (Some "secret4") (Some 1%nat) 60;
   Login (Some "carol") (Some "wrong") (Some 1%nat) 70;
   Login (Some "alice") (Some "secret1") (Some 1%nat) 80].

Lemma current_user_stable_after_login_witness :
  ∃ id email,
    sv_payload (serve (@Dev.server sample_bcrypt)
                  (Login (Some "alice") (Some "secret1") None 10)
                  (run (@Dev.server sample_bcrypt) [register_alice] Dev.start))
    = login_response id "alice" email ∧
    let r' := serve (@Dev.server sample_bcrypt) (CurrentUser (Some 1%nat) 90)
                (run (@Dev.server sample_bcrypt) after_login
                   (sv_world (serve (@Dev.server sample_bcrypt)
                      (Login (Some "alice") (Some "secret1") None 10)
                      (run (@Dev.server sample_bcrypt) [register_alice] Dev.start)))) in
    sv_status r' = 200 ∧ sv_payload r' = me_response id "alice".
Proof.
  apply (@current_user_stable_after_login sample_bcrypt [register_alice]
           (Some "alice") (Some "secret1") None 10 1%nat after_login 80 90);
    [vm_compute; reflexivity | vm_compute; reflexivity
    | vm_compute; reflexivity | reflexivity].
Defined.


(** ** Requests that no route of its own answers *)

Section Fallbacks.
Context `{Bcrypt}.

(** On server-production.js every GET request under [/api/] other than
    [/api/health] and [/api/auth/me] is answered 200 with the front-end
    page, the requests for modules and progress included (the file has no
    such routes); the database is left as it was. *)
Theorem production_get_serves_front_end rq w :
  Js.starts_with "/api/" (rq_path rq) = true →
  rq_method rq = GET →
  path_matches (Path "/api/health") (rq_path rq) = false →
  path_matches (Path "/api/auth/me") (rq_path rq) = false →
  sv_status (serve Production.server rq w) = 200 ∧
  sv_payload (serve Production.server rq w) = SendFile "../frontend/index.html" ∧
  db (sv_world (serve Production.server rq w)) = db w.
Proof.
  intros _ Hm Hh Hme.
  assert (Hres : resolve Production.server rq = Auth.spa).
  { unfold resolve, Production.server, Production.routes, route_matches.
    cbn [routes find r_method r_pattern r_handler].
    rewrite Hm, Hh, Hme. reflexivity. }
  destruct (serve_spec Production.server rq w) as (w1 & sid0 & s0 & l & Hl & Hs).
  cbv zeta in Hs. rewrite Hs, Hres. cbn [sv_status sv_payload sv_world].
  rewrite finish_db. simpl. eauto using loaded_as_db.
Qed.

End Fallbacks.

Lemma production_get_serves_front_end_witness :
  sv_status (serve (@Production.server sample_bcrypt) (GetProgress None 0) Production.start) = 200 ∧
  sv_payload (serve (@Production.server sample_bcrypt) (GetProgress None 0) Production.start) =
    SendFile "../frontend/index.html" ∧
  db (sv_world (serve (@Production.server sample_bcrypt) (GetProgress None 0) Production.start)) =
    db Production.start.
Proof.
  apply (@production_get_serves_front_end sample_bcrypt (GetProgress None 0)
           Production.start); reflexivity.
Defined.

(** ** What the responses never carry *)

Section NoPasswordInResponses.
Context `{Bcrypt}.








End NoPasswordInResponses.

(** ** SaveProgress on the Railway table: a missing module, other rows *)

Section ProgressRows.
Context `{Bcrypt}.

Lemma railway_insert_null now rows seq u c sc ts :
  Sql.insert Sql.Replace now (Sql.Table Railway.user_progress_schema rows seq)
             (progress_given u Sql.VNull c sc ts)
  = inl (Sql.NotNullFailed "user_progress" "module_id").
Proof. reflexivity. Qed.

(** On a [user_progress] table as the Railway server creates it, a
    SaveProgress of an authenticated user whose body has no [moduleId] (or
    has [null]) is answered 500 "Database error": the NOT NULL constraint of
    [module_id] rejects the row, and the database is left as it was. *)
Theorem save_progress_without_module w cookie now m c sc ts :
  Sql.tbl_schema (user_progress_table (db w)) = Railway.user_progress_schema →
  authenticated w cookie now = true →
  Sql.bind m = Sql.VNull →
  let r := serve Dev.server (SaveProgress m c sc ts cookie now) w in
  sv_status r = 500 ∧ sv_payload r = error_json "Database error" ∧
  db (sv_world r) = db w.
Proof.
  intros Hs Hauth Hm.
  destruct (serve_authenticated Dev.server (SaveProgress m c sc ts cookie now) w Hauth)
    as (sid & st & Hc & Hst & Hu & Hserve).
  cbv zeta in Hserve. intros r. subst r.
  rewrite Hserve, dev_resolve_save_progress. clear Hserve.
  unfold Dev.save_progress. rewrite Hu.
  cbn [negb rq_body SaveProgress Body.moduleId Body.completed Body.score
       Body.timeSpent rq_now].
  destruct (user_progress_table (db w)) as [sch rows seq] eqn:Et.
  simpl in Hs. subst sch. rewrite Hm.
  fold (progress_given (default 0 (Session.userId (Session.data st))) Sql.VNull
          (Sql.bind c) (Sql.bind sc) (Sql.bind ts)).
  rewrite railway_insert_null, finish_untouched. done.
Qed.


End ProgressRows.

(** A database file created by the Railway server, served by the
    development server's handlers: "alice" has registered (session 0). *)
Definition railway_file_alice : world :=
  run (@Dev.server sample_bcrypt) [register_alice] Railway.start.

Lemma save_progress_without_module_witness :
  let r := serve (@Dev.server sample_bcrypt)
             (SaveProgress Js.Undefined (Js.Bool true) (Js.Num 100) (Js.Num 30)
                (Some 0%nat) 10)
             railway_file_alice in
  sv_status r = 500 ∧ sv_payload r = error_json "Database error" ∧
  db (sv_world r) = db railway_file_alice.
Proof.
  apply (@save_progress_without_module sample_bcrypt railway_file_alice
           (Some 0%nat) 10 Js.Undefined (Js.Bool true) (Js.Num 100) (Js.Num 30));
    [reflexivity | vm_compute; reflexivity | reflexivity].
Defined.



(** "alice" has registered with the handlers of the Railway document
    (session 0). *)
Definition railway_alice : world :=
  run (@Railway.server sample_bcrypt) [register_alice] Railway.start.

Lemma railway_alice_issued : issued railway_alice.
Proof.
  intros c Hc.
  destruct (decide (c = 0%nat)) as [->|Hne]; [vm_compute; lia|].
  exfalso. destruct Hc as [st Hc].
  assert (Hs : sessions railway_alice =
               <[0%nat := alice_session]> ∅) by (vm_compute; reflexivity).
  rewrite Hs, lookup_insert_ne, lookup_empty in Hc by done. done.
Qed.

Lemma railway_login_regenerates_witness :
  let r := serve (@Railway.server sample_bcrypt)
             (Login (Some "alice") (Some "secret1") (Some 0%nat) 10) railway_alice in
  ∃ sid, sv_sid_out r = Some sid ∧ sid ≠ sv_sid_in r ∧
         sv_cookie r = CookieSet sid ∧
         sessions (sv_world r) !! sv_sid_in r = None.
Proof.
  apply (@railway_login_regenerates sample_bcrypt railway_alice
           (Some "alice") (Some "secret1") (Some 0%nat) 10).
  - exact railway_alice_issued.
  - vm_compute. reflexivity.
Defined.

Lemma railway_logout_clears_cookie_witness :
  let r := serve (@Railway.server sample_bcrypt) (Logout (Some 0%nat) 5)
             railway_alice in
  sv_status r = 200 ∧
  sessions (sv_world r) !! 0%nat = None ∧
  sv_cookie r = CookieClear.
Proof.
  apply (@railway_logout_clears_cookie sample_bcrypt railway_alice
           0%nat alice_session 5);
    [vm_compute; reflexivity | reflexivity].
Defined.

(** * Configuration code *)

(** ** The CORS origin check of server-production.js *)

Module Cors.

(** The environment variables the file reads; [None] is an unset variable. *)
Record env := Env {
  RAILWAY_PUBLIC_DOMAIN : option string;
  RAILWAY_STATIC_URL : option string;
  PORT : option string
}.

(** [a || b] on strings that may be undefined. *)
Definition or_else (a b : option string) : option string :=
  if Js.truthy a then a else b.

Definition railwayUrl (e : env) : option string :=
  or_else (RAILWAY_PUBLIC_DOMAIN e) (RAILWAY_STATIC_URL e).

Definition frontendUrl (e : env) : string :=
  if Js.truthy (railwayUrl e) then "https://" +:+ Js.str (railwayUrl e)
  else "http://localhost:" +:+ Js.str (or_else (PORT e) (Some "3000")).

Definition allowedOrigins (e : env) : list string :=
  [frontendUrl e; "http://localhost:3000";
   "https://homehub-training-platform-production.up.railway.app"].

(** [Allow] is [callback(null, true)], [Reject] is
    [callback(new Error('Not allowed by CORS'))]. *)
Inductive verdict := Allow | Reject.

(** The [origin] function of the [cors] options; the argument is the
    [Origin] header of the request. *)
Definition origin (e : env) (o : option string) : verdict :=
  if negb (Js.truthy o) then Allow
  else if existsb (String.eqb (Js.str o)) (allowedOrigins e)
          || Js.includes "railway.app" (Js.str o)
  then Allow
  else Reject.

End Cors.

(** ** The reconnect strategy of the Railway server's Redis client *)

Module Redis.

(** The result of [reconnectStrategy]: an [Error] (the client stops), or the
    delay before the next attempt, in milliseconds. *)
Inductive reconnect := GiveUp | RetryAfter (ms : Z).

Definition reconnectStrategy (retries : Z) : reconnect :=
  if 10 <? retries then GiveUp
  else RetryAfter (Z.min (retries * 100) 3000).

End Redis.

Section Configuration.

Lemma starts_with_app n b : Js.starts_with n (n +:+ b) = true.
Proof.
  induction n as [|a n IH]; [done|]. simpl.
  by rewrite Ascii.eqb_refl, IH.
Qed.

Lemma includes_app a n b : Js.includes n (a +:+ n +:+ b) = true.
Proof.
  induction a as [|c a IH]; simpl.
  - destruct (n +:+ b) eqn:E; simpl; rewrite <- ?E;
      by rewrite starts_with_app.
  - rewrite IH. apply orb_true_r.
Qed.

(** The origin check of server-production.js allows every origin whose text
    contains [railway.app], wherever it stands in it (in a host name of
    another domain or in a path alike), whatever the environment. *)
Theorem cors_allows_any_origin_naming_railway e before after :
  Cors.origin e (Some (before +:+ "railway.app" +:+ after)) = Cors.Allow.
Proof.
  unfold Cors.origin.
  assert (Hne : before +:+ "railway.app" +:+ after ≠ EmptyString).
  { destruct before; discriminate. }
  rewrite truthy_some by done. cbn [negb Js.str default from_option id].
  by rewrite includes_app, orb_true_r.
Qed.

(** The Redis client gives up after the tenth retry; before that the delay
    is 100 ms per retry made, so never more than one second: the cap of
    3000 ms in the source never applies. *)
Theorem redis_reconnect_delay retries :
  0 ≤ retries →
  (retries ≤ 10 ∧
   Redis.reconnectStrategy retries = Redis.RetryAfter (retries * 100) ∧
   retries * 100 ≤ 1000) ∨
  (10 < retries ∧ Redis.reconnectStrategy retries = Redis.GiveUp).
Proof.
  intros Hpos. unfold Redis.reconnectStrategy.
  destruct (10 <? retries) eqn:E.
  - right. split; [lia|done].
  - left. split_and!; [lia| |lia]. f_equal. lia.
Qed.

End Configuration.

Lemma redis_reconnect_delay_witness :
  (3 ≤ 10 ∧ Redis.reconnectStrategy 3 = Redis.RetryAfter (3 * 100) ∧ 3 * 100 ≤ 1000) ∨
  (10 < 3 ∧ Redis.reconnectStrategy 3 = Redis.GiveUp).
Proof. apply (redis_reconnect_delay 3). lia. Defined.

(** * The browser client (the unnamed client file)

    The page is modelled by the properties the script writes: the inline
    [display] of five elements, the [active-form] class of the two forms,
    the status line, the input fields, and the variable [currentUser].
    Every function runs up to its next [await]; the requests that wait for
    an answer and the timers that wait to fire are part of the state, and
    answers and timers may come in any order.  The document itself is not
    among the sources: whether the elements of the learning platform exist
    is an input of the step that needs them ([dom_ok]).  The second
    declaration of [showUserInfo] (at the end of the file) is the one in
    force.  [userProgress] and the module list are not part of the page
    model. *)

Module Client.

(** The inline [style.display] of an element; [Default] is no inline value. *)
Inductive display := Default | Hidden | Block | Flex.

(** The outcome of a [fetch]: it rejects, or it gives a response with its
    [ok] flag and its body as JSON ([None]: [response.json()] rejects). *)
Inductive fetched :=
| NetworkError
| Response (ok : bool) (body : option json).

(** A value assigned to [textContent] or spliced into a template: a JSON
    value or [undefined]. *)
Definition text := option json.
Definition lit (s : string) : text := Some (JStr s).

(** The five elements that [showUserInfo] and [showAuthForms] write. *)
Record views := Views {
  userInfo : display;
  loginBtn : display;
  registerBtn : display;
  authForms : display;
  mainContent : display
}.

(** The [active-form] class of [loginForm] and [registerForm]. *)
Record forms := Forms {
  loginForm : bool;
  registerForm : bool
}.

(** [statusMessage]: its text, its classes and its inline [display]. *)
Record status := Status {
  statusText : text;
  statusClass : list string;
  statusDisplay : display
}.

Record inputs := Inputs {
  login_username : string;
  login_password : string;
  register_username : string;
  register_email : string;
  register_password : string;
  register_confirm : string
}.

(** A request that waits for its answer, with the function to resume. *)
Inductive pending :=
| AuthCheck                               (* checkAuthStatus *)
| LoginSent (username password : string)  (* handleLogin in loginUser *)
| RegisterSent (username email password : string)
| LogoutSent
| ModulesSent.                            (* loadModules *)

Inductive timer :=
| HideStatus    (* showStatus: after 5 s *)
| ComingSoon.   (* startTraining: after 1 s *)

Record page := Page {
  currentUser : option json;     (* [None] is [null] or [undefined] *)
  view : views;
  form : forms;
  usernameDisplay : option text; (* [Some v]: "Welcome, v!"; [None]: as loaded *)
  stat : status;
  input : inputs;
  waiting : list pending;
  timers : list timer
}.

Definition set_currentUser (u : option json) (p : page) : page :=
  Page u (view p) (form p) (usernameDisplay p) (stat p) (input p) (waiting p) (timers p).
Definition set_view (v : views) (p : page) : page :=
  Page (currentUser p) v (form p) (usernameDisplay p) (stat p) (input p) (waiting p) (timers p).
Definition set_form (f : forms) (p : page) : page :=
  Page (currentUser p) (view p) f (usernameDisplay p) (stat p) (input p) (waiting p) (timers p).
Definition set_usernameDisplay (t : option text) (p : page) : page :=
  Page (currentUser p) (view p) (form p) t (stat p) (input p) (waiting p) (timers p).
Definition set_stat (s : status) (p : page) : page :=
  Page (currentUser p) (view p) (form p) (usernameDisplay p) s (input p) (waiting p) (timers p).
Definition set_input (i : inputs) (p : page) : page :=
  Page (currentUser p) (view p) (form p) (usernameDisplay p) (stat p) i (waiting p) (timers p).
Definition set_waiting (w : list pending) (p : page) : page :=
  Page (currentUser p) (view p) (form p) (usernameDisplay p) (stat p) (input p) w (timers p).
Definition set_timers (t : list timer) (p : page) : page :=
  Page (currentUser p) (view p) (form p) (usernameDisplay p) (stat p) (input p) (waiting p) t.

Inductive kind := info | success | error.

(** [showStatus(message, type)]: the text and the classes are replaced, a
    timer is started; the inline [display] is not written. *)
Definition showStatus (message : text) (type : kind) (p : page) : page :=
  set_timers (timers p ++ [HideStatus])
    (set_stat
       (Status message
          ("status-message" ::
             match type with
             | success => ["status-success"]
             | error => ["status-error"]
             | info => []
             end)
          (statusDisplay (stat p)))
       p).

(** [showForm(formType)]. *)
Definition showForm (formType : string) (p : page) : page :=
  if String.eqb formType "login" then set_form (Forms true false) p
  else set_form (Forms false true) p.

(** [showAuthForms()]. *)
Definition showAuthForms (p : page) : page :=
  showForm "login" (set_view (Views Hidden Block Block Block Hidden) p).

(** [loadModules()] up to its [fetch]. *)
Definition loadModules (p : page) : page :=
  set_waiting (waiting p ++ [ModulesSent]) p.

(** [initializeLearningPlatform()]: [loadModules], then [setupPracticeArea],
    which throws when the elements of the practice area are missing, then
    [loadUserProgress], which writes [userProgress] and the two counters
    only, none of them part of [page].  The boolean tells whether it
    threw. *)
Definition initializeLearningPlatform (dom_ok : bool) (p : page) : page * bool :=
  (loadModules p, negb dom_ok).

(** [showUserInfo()]; the boolean tells whether it threw.  The file
    declares the function twice; the second declaration, which ends with
    [initializeLearningPlatform()], is the one in force.  Reading
    [currentUser.username] throws when [currentUser] is null or undefined,
    before anything is written. *)
Definition showUserInfo (dom_ok : bool) (p : page) : page * bool :=
  match currentUser p with
  | None => (p, true)
  | Some u =>
      initializeLearningPlatform dom_ok
        (set_view (Views Flex Hidden Hidden Hidden Block)
           (set_usernameDisplay (Some (member "username" u)) p))
  end.

(** [data.user], for a body that is not [null]. *)
Definition user_of (data : json) : option json :=
  match member "user" data with
  | Some JNull | None => None
  | Some u => Some u
  end.

(** [checkAuthStatus()] up to its [fetch]. *)
Definition checkAuthStatus (p : page) : page :=
  let p := showStatus (lit "Checking authentication...") info p in
  set_waiting (waiting p ++ [AuthCheck]) p.

(** [checkAuthStatus()] from the answer on. *)
Definition checkAuthStatus_resume (r : fetched) (dom_ok : bool) (p : page) : page :=
  match r with
  | Response true (Some JNull) | Response true None | NetworkError =>
      showAuthForms p
  | Response true (Some data) =>
      let '(p, threw) := showUserInfo dom_ok (set_currentUser (user_of data) p) in
      if threw then showAuthForms p
      else showStatus (lit "Welcome back!") success p
  | Response false _ => showAuthForms p
  end.

(** The result of [loginUser] and [registerUser]. *)
Inductive result :=
| Success
| Failure (error : text).

Definition network_failure : result :=
  Failure (lit "Network error - cannot connect to server").

(** [loginUser] and [registerUser] from the answer on (the two functions
    differ in the request only). *)
Definition authenticate_resume (r : fetched) (dom_ok : bool) (p : page)
  : page * result :=
  match r with
  | NetworkError | Response _ None | Response _ (Some JNull) =>
      (p, network_failure)
  | Response true (Some data) =>
      let '(p, threw) := showUserInfo dom_ok (set_currentUser (user_of data) p) in
      (p, if threw then network_failure else Success)
  | Response false (Some data) => (p, Failure (member "error" data))
  end.

(** [handleLogin()] up to the [fetch] of [loginUser]. *)
Definition handleLogin (p : page) : page :=
  let username := Js.trim (login_username (input p)) in
  let password := login_password (input p) in
  if String.eqb username EmptyString || String.eqb password EmptyString then
    showStatus (lit "Please enter both username and password") error p
  else
    let p := showStatus (lit "Signing in...") info p in
    set_waiting (waiting p ++ [LoginSent username password]) p.

(** [handleLogin()] from the answer on. *)
Definition handleLogin_resume (r : fetched) (dom_ok : bool) (p : page) : page :=
  let '(p, res) := authenticate_resume r dom_ok p in
  match res with
  | Success =>
      let i := input p in
      showStatus (lit "Login successful!") success
        (set_input (Inputs EmptyString EmptyString (register_username i)
                      (register_email i) (register_password i)
                      (register_confirm i)) p)
  | Failure e => showStatus e error p
  end.

(** [handleRegister()] up to the [fetch] of [registerUser]. *)
Definition handleRegister (p : page) : page :=
  let username := Js.trim (register_username (input p)) in
  let email := Js.trim (register_email (input p)) in
  let password := register_password (input p) in
  let confirm := register_confirm (input p) in
  if String.eqb username EmptyString || String.eqb email EmptyString
     || String.eqb password EmptyString || String.eqb confirm EmptyString then
    showStatus (lit "Please fill in all fields") error p
  else if negb (String.eqb password confirm) then
    showStatus (lit "Passwords do not match") error p
  else if Nat.ltb (Js.length password) 6 then
    showStatus (lit "Password must be at least 6 characters") error p
  else
    let p := showStatus (lit "Creating account...") info p in
    set_waiting (waiting p ++ [RegisterSent username email password]) p.

(** [handleRegister()] from the answer on. *)
Definition handleRegister_resume (r : fetched) (dom_ok : bool) (p : page) : page :=
  let '(p, res) := authenticate_resume r dom_ok p in
  match res with
  | Success =>
      let i := input p in
      showStatus (lit "Account created successfully!") success
        (set_input (Inputs (login_username i) (login_password i)
                      EmptyString EmptyString EmptyString EmptyString) p)
  | Failure e => showStatus e error p
  end.

(** [handleLogout()] up to its [fetch]. *)
Definition handleLogout (p : page) : page :=
  let p := showStatus (lit "Logging out...") info p in
  set_waiting (waiting p ++ [LogoutSent]) p.

(** [handleLogout()] from the answer on: the [finally] block, whatever the
    answer. *)
Definition handleLogout_resume (r : fetched) (p : page) : page :=
  showStatus (lit "Logged out successfully") success
    (showAuthForms (set_currentUser None p)).

Definition is_null (j : json) : bool :=
  match j with
  | JNull => true
  | _ => false
  end.

(** [loadModules()] from the answer on; [displayModules] throws when the
    module list is missing from the document, when [data.modules] is no
    array, or when an element of it is [null]. *)
Definition loadModules_resume (r : fetched) (dom_ok : bool) (p : page) : page :=
  match r with
  | Response true (Some data) =>
      match member "modules" data with
      | Some (JArr items) =>
          if dom_ok && forallb (λ m, negb (is_null m)) items then p
          else showStatus (lit "Network error loading modules") error p
      | _ => showStatus (lit "Network error loading modules") error p
      end
  | Response false (Some _) => showStatus (lit "Failed to load modules") error p
  | _ => showStatus (lit "Network error loading modules") error p
  end.

(** [startTraining()]. *)
Definition startTraining (p : page) : page :=
  let p := showStatus (lit "Loading training interface...") info p in
  set_timers (timers p ++ [ComingSoon]) p.

(** What can happen to the page: the events that the authentication script
    listens to, the answers to its requests and to the request of the module
    list, and its timers.  The handlers of the learning area (module items,
    exercises, quiz, terminal and editor) are not part of the model. *)
Inductive button :=
| LoginBtn | RegisterBtn | ShowRegister | ShowLogin
| DoLogin | DoRegister | LogoutBtn | StartTrainingBtn.

Inductive field :=
| LoginUsername | LoginPassword
| RegisterUsername | RegisterEmail | RegisterPassword | RegisterConfirm.

Inductive event :=
| DOMContentLoaded
| Click (b : button)
| Enter (f : field)                    (* the Enter key in a field *)
| Type_ (f : field) (value : string)   (* the user edits a field *)
| Answer (i : nat) (r : fetched) (dom_ok : bool)  (* the i-th waiting request *)
| Fire (i : nat).                      (* the i-th waiting timer *)

Definition type_in (f : field) (v : string) (i : inputs) : inputs :=
  match f with
  | LoginUsername =>
      Inputs v (login_password i) (register_username i) (register_email i)
             (register_password i) (register_confirm i)
  | LoginPassword =>
      Inputs (login_username i) v (register_username i) (register_email i)
             (register_password i) (register_confirm i)
  | RegisterUsername =>
      Inputs (login_username i) (login_password i) v (register_email i)
             (register_password i) (register_confirm i)
  | RegisterEmail =>
      Inputs (login_username i) (login_password i) (register_username i) v
             (register_password i) (register_confirm i)
  | RegisterPassword =>
      Inputs (login_username i) (login_password i) (register_username i)
             (register_email i) v (register_confirm i)
  | RegisterConfirm =>
      Inputs (login_username i) (login_password i) (register_username i)
             (register_email i) (register_password i) v
  end.

Definition resume (w : pending) (r : fetched) (dom_ok : bool) (p : page) : page :=
  match w with
  | AuthCheck => checkAuthStatus_resume r dom_ok p
  | LoginSent _ _ => handleLogin_resume r dom_ok p
  | RegisterSent _ _ _ => handleRegister_resume r dom_ok p
  | LogoutSent => handleLogout_resume r p
  | ModulesSent => loadModules_resume r dom_ok p
  end.

Definition fire (t : timer) (p : page) : page :=
  match t with
  | HideStatus =>
      set_stat (Status (statusText (stat p)) (statusClass (stat p)) Hidden) p
  | ComingSoon => showStatus (lit "Training interface coming soon!") success p
  end.

Definition step (e : event) (p : page) : page :=
  match e with
  | DOMContentLoaded => checkAuthStatus p
  | Click LoginBtn | Click ShowLogin => showForm "login" p
  | Click RegisterBtn | Click ShowRegister => showForm "register" p
  | Click DoLogin | Enter LoginPassword => handleLogin p
  | Click DoRegister | Enter RegisterConfirm => handleRegister p
  | Click LogoutBtn => handleLogout p
  | Click StartTrainingBtn => startTraining p
  | Enter _ => p
  | Type_ f v => set_input (type_in f v (input p)) p
  | Answer i r dom_ok =>
      match waiting p !! i with
      | Some w => resume w r dom_ok (set_waiting (delete i (waiting p)) p)
      | None => p
      end
  | Fire i =>
      match timers p !! i with
      | Some t => fire t (set_timers (delete i (timers p)) p)
      | None => p
      end
  end.

Definition steps (es : list event) (p : page) : page :=
  foldl (λ p e, step e p) p es.

(** What the script sees of a response of the server. *)
Definition seen (r : served) : fetched :=
  Response ((200 <=? sv_status r) && (sv_status r <? 300))
           match sv_payload r with
           | Json j => Some j
           | _ => None
           end.

End Client.

(** ** The two views of the page *)

Section ClientViews.
Import Client.

Definition signed_in_view : views := Views Flex Hidden Hidden Hidden Block.
Definition signed_out_view : views := Views Hidden Block Block Block Hidden.

(** The page shows the main content with the user's bar, or the
    authentication forms with the two buttons; nothing in between. *)
Definition settled (p : page) : Prop :=
  view p = signed_in_view ∨ view p = signed_out_view.

Lemma showUserInfo_view dom_ok p :
  view (showUserInfo dom_ok p).1 = view p ∨
  view (showUserInfo dom_ok p).1 = signed_in_view.
Proof. unfold showUserInfo. destruct (currentUser p); [by right|by left]. Qed.

Lemma authenticate_resume_view r dom_ok p :
  view (authenticate_resume r dom_ok p).1 = view p ∨
  view (authenticate_resume r dom_ok p).1 = signed_in_view.
Proof.
  unfold authenticate_resume.
  destruct r as [|[] [[]|]]; try (by left).
  all: match goal with
       | |- context [showUserInfo ?d ?q] =>
           destruct (showUserInfo_view d q) as [Hv|Hv];
           destruct (showUserInfo d q) as [p' threw]; simpl in *;
           rewrite Hv; by auto
       end.
Qed.

Lemma resume_settled w r dom_ok p :
  settled p ∨ w = AuthCheck ∨ w = LogoutSent → settled (resume w r dom_ok p).
Proof.
  intros Hp. destruct w; simpl.
  - (* checkAuthStatus *)
    unfold checkAuthStatus_resume.
    destruct r as [|[] [[]|]]; try (by right).
    all: match goal with
         | |- context [showUserInfo ?d ?q] =>
             destruct (showUserInfo d q) as [p' []] eqn:E;
             [by right|];
             pose proof (showUserInfo_view d q) as Hv; rewrite E in Hv;
             unfold showUserInfo in E; simpl in E;
             destruct (user_of _); [|by inversion E];
             inversion E; subst; by left
         end.
  - (* handleLogin *)
    destruct Hp as [Hp|[|]]; [|done..].
    unfold handleLogin_resume.
    pose proof (authenticate_resume_view r dom_ok p) as Hv.
    destruct (authenticate_resume r dom_ok p) as [p' []]; simpl in *;
      unfold settled in *; simpl; destruct Hv as [-> | ->]; auto.
  - (* handleRegister *)
    destruct Hp as [Hp|[|]]; [|done..].
    unfold handleRegister_resume.
    pose proof (authenticate_resume_view r dom_ok p) as Hv.
    destruct (authenticate_resume r dom_ok p) as [p' []]; simpl in *;
      unfold settled in *; simpl; destruct Hv as [-> | ->]; auto.
  - by right.
  - destruct Hp as [Hp|[|]]; [|done..].
    unfold loadModules_resume. repeat (case_match; try done).
Qed.

Lemma step_settled e p : settled p → settled (step e p).
Proof.
  intros Hp. destruct e as [|b|f|f v|i r dom_ok|i]; simpl.
  - done.
  - destruct b; simpl; try done.
    + unfold handleLogin. by repeat case_match.
    + unfold handleRegister. by repeat case_match.
  - destruct f; simpl; try done.
    + unfold handleLogin. by repeat case_match.
    + unfold handleRegister. by repeat case_match.
  - done.
  - destruct (waiting p !! i); [|done]. apply resume_settled. by left.
  - destruct (timers p !! i) as [[]|]; done.
Qed.

(** From the answer to the first authentication check on, whatever it is
    and whatever events of the authentication script follow (clicks, typing,
    answers and timers in any order), the page is in one of its two views: signed in (user bar and
    main content shown; forms and the login and register buttons hidden) or
    signed out (the reverse). *)
Theorem page_has_two_views p r dom_ok es :
  waiting p = [] →
  settled (steps (DOMContentLoaded :: Answer 0 r dom_ok :: es) p).
Proof.
  intros Hw. unfold steps. simpl. rewrite Hw. simpl.
  assert (Hq : settled (checkAuthStatus_resume r dom_ok
                          (set_waiting [] (checkAuthStatus p)))).
  { apply (resume_settled AuthCheck). auto. }
  revert Hq. generalize (checkAuthStatus_resume r dom_ok
                           (set_waiting [] (checkAuthStatus p))).
  clear Hw.
  induction es as [|e es IH]; intros q Hq; [exact Hq|].
  simpl. apply IH. by apply step_settled.
Qed.

End ClientViews.

(** ** The status line *)

Section ClientStatus.
Import Client.

Definition status_hidden (p : page) : Prop := statusDisplay (stat p) = Hidden.

Lemma showUserInfo_status dom_ok p :
  statusDisplay (stat (showUserInfo dom_ok p).1) = statusDisplay (stat p).
Proof. unfold showUserInfo. by destruct (currentUser p). Qed.

Lemma authenticate_resume_status r dom_ok p :
  statusDisplay (stat (authenticate_resume r dom_ok p).1)
  = statusDisplay (stat p).
Proof.
  unfold authenticate_resume.
  destruct r as [|[] [[]|]]; try done.
  all: match goal with
       | |- context [showUserInfo ?d ?q] =>
           pose proof (showUserInfo_status d q) as Hs;
           destruct (showUserInfo d q) as [p' threw]; exact Hs
       end.
Qed.

Lemma resume_status w r dom_ok p :
  statusDisplay (stat (resume w r dom_ok p)) = statusDisplay (stat p).
Proof.
  destruct w; simpl.
  - unfold checkAuthStatus_resume.
    destruct r as [|[] [[]|]]; try done.
    all: match goal with
         | |- context [showUserInfo ?d ?q] =>
             pose proof (showUserInfo_status d q) as Hs;
             destruct (showUserInfo d q) as [p' []]; exact Hs
         end.
  - unfold handleLogin_resume.
    pose proof (authenticate_resume_status r dom_ok p) as Hs.
    destruct (authenticate_resume r dom_ok p) as [p' []]; exact Hs.
  - unfold handleRegister_resume.
    pose proof (authenticate_resume_status r dom_ok p) as Hs.
    destruct (authenticate_resume r dom_ok p) as [p' []]; exact Hs.
  - done.
  - unfold loadModules_resume. by repeat case_match.
Qed.

Lemma step_status e p :
  statusDisplay (stat (step e p)) = statusDisplay (stat p) ∨
  status_hidden (step e p).
Proof.
  destruct e as [|b|f|f v|i r dom_ok|i]; simpl.
  - by left.
  - left. destruct b; simpl; try done.
    + unfold handleLogin. by repeat case_match.
    + unfold handleRegister. by repeat case_match.
  - left. destruct f; simpl; try done.
    + unfold handleLogin. by repeat case_match.
    + unfold handleRegister. by repeat case_match.
  - by left.
  - left. destruct (waiting p !! i); [|done]. by rewrite resume_status.
  - destruct (timers p !! i) as [[]|]; [by right|by left..].
Qed.

Lemma status_stays_hidden p es : status_hidden p → status_hidden (steps es p).
Proof.
  unfold steps. revert p.
  induction es as [|e es IH]; intros p Hp; [exact Hp|].
  simpl. apply IH.
  destruct (step_status e p) as [Hs|Hs]; [|exact Hs].
  unfold status_hidden. by rewrite Hs.
Qed.

(** A page with nothing written yet, nothing typed and nothing waiting. *)
Definition blank : page :=
  Page None (Views Default Default Default Default Default)
       (Forms false false) None (Status None [] Default)
       (Inputs EmptyString EmptyString EmptyString EmptyString EmptyString
               EmptyString)
       [] [].

(** [showStatus] replaces the text and the classes of the status line and
    never writes its [display]; the timer it starts sets [display] to
    [none].  So from the moment the timer of any message fires, the status
    line is hidden and stays hidden whatever events of the authentication
    script follow: the messages of every later login, registration, logout
    or failure are written into an element that is not shown. *)
Theorem status_line_never_shown_again p i es :
  timers p !! i = Some HideStatus →
  status_hidden (steps (Fire i :: es) p).
Proof.
  intros Hi. change (steps (Fire i :: es) p) with (steps es (step (Fire i) p)).
  apply status_stays_hidden. unfold status_hidden. simpl. by rewrite Hi.
Qed.

Lemma status_line_never_shown_again_witness :
  status_hidden
    (steps [Fire 0; Type_ LoginUsername "alice"; Type_ LoginPassword "secret";
            Click DoLogin]
       (step DOMContentLoaded blank)).
Proof.
  apply (status_line_never_shown_again (step DOMContentLoaded blank) 0).
  reflexivity.
Defined.

End ClientStatus.

Lemma page_has_two_views_witness :
  settled
    (Client.steps
       [Client.DOMContentLoaded;
        Client.Answer 0 (Client.Response false None) false;
        Client.Type_ Client.LoginUsername "alice";
        Client.Click Client.DoLogin;
        Client.Click Client.LogoutBtn;
        Client.Answer 0 Client.NetworkError true;
        Client.Fire 0]
       blank).
Proof.
  apply (page_has_two_views blank (Client.Response false None) false
           [Client.Type_ Client.LoginUsername "alice";
            Client.Click Client.DoLogin;
            Client.Click Client.LogoutBtn;
            Client.Answer 0 Client.NetworkError true;
            Client.Fire 0]).
  reflexivity.
Defined.

(** ** The page against server-production.js *)

Section ClientServer.
Context `{Bcrypt}.
Import Client.

(** The answer to the request that was sent last. *)
Lemma answer_last w r dom_ok p :
  step (Answer (length (waiting p)) r dom_ok) (set_waiting (waiting p ++ [w]) p)
  = resume w r dom_ok p.
Proof.
  unfold step. cbn [waiting set_waiting].
  rewrite list_lookup_middle by done. f_equal.
  assert (Hdel : delete (length (waiting p)) (waiting p ++ [w]) = waiting p).
  { induction (waiting p) as [|x l IH]; [done|]. simpl. by rewrite IH. }
  rewrite Hdel. by destruct p.
Qed.

Definition status_error (m : string) (p : page) : status :=
  Status (lit m) ["status-message"; "status-error"] (statusDisplay (stat p)).

(** The three answers of the login handler to a request with a username
    and a password. *)
Lemma login_reply rq w sid s u pw :
  Body.username (rq_body rq) = Some u →
  Body.password (rq_body rq) = Some pw →
  u ≠ EmptyString → pw ≠ EmptyString →
  out_reply (Auth.login rq w sid s) = invalid_credentials ∨
  ∃ user, Sql.cell "username" user = Sql.VText u ∧
          out_reply (Auth.login rq w sid s) = Auth.login_ok user.
Proof.
  intros Hu Hp Hune Hpne. unfold Auth.login.
  rewrite Hu, Hp, !truthy_some by done. simpl.
  destruct (Sql.select_first _ _ _) as [user|] eqn:Hsel; [|by left].
  destruct (compare _ _); simpl; [|by left].
  right. exists user. split; [|done].
  unfold Sql.select_first in Hsel. apply find_some in Hsel as [_ Hc].
  by apply bool_decide_eq_true_1 in Hc.
Qed.

(** The page from the click on the login button to the answer of
    server-production.js, for any state of the server and any cookie.  The
    request carries the trimmed username and the password as typed.  The
    server answers 401 or 200, nothing else.  On 401 the status line reads
    "Invalid username or password" as an error and the page is otherwise as
    it was.  On 200 the page goes to the signed-in view and greets the user
    by the name sent; the status line reads "Login successful!" and the
    login fields are emptied when the practice area is in the document, and
    it reads "Network error - cannot connect to server" as an error, with
    the fields kept, when it is not. *)
Theorem login_round_trip p w cookie now dom_ok :
  let u := Js.trim (login_username (input p)) in
  let pw := login_password (input p) in
  u ≠ EmptyString → pw ≠ EmptyString →
  let p1 := step (Click DoLogin) p in
  let r := serve Production.server (Login (Some u) (Some pw) cookie now) w in
  let p2 := step (Answer (length (waiting p)) (seen r) dom_ok) p1 in
  waiting p1 = waiting p ++ [LoginSent u pw] ∧
  ((sv_status r = 401 ∧
    stat p2 = status_error "Invalid username or password" p ∧
    view p2 = view p ∧ currentUser p2 = currentUser p ∧
    usernameDisplay p2 = usernameDisplay p ∧ input p2 = input p ∧
    waiting p2 = waiting p)
   ∨
   (sv_status r = 200 ∧
    view p2 = signed_in_view ∧
    usernameDisplay p2 = Some (lit u) ∧
    (∃ user, currentUser p2 = Some user ∧ member "username" user = lit u) ∧
    waiting p2 = waiting p ++ [ModulesSent] ∧
    if dom_ok
    then statusText (stat p2) = lit "Login successful!" ∧
         statusClass (stat p2) = ["status-message"; "status-success"] ∧
         login_username (input p2) = EmptyString ∧
         login_password (input p2) = EmptyString
    else stat p2 = status_error "Network error - cannot connect to server" p ∧
         input p2 = input p)).
Proof.
  intros u pw Hu Hpw p1 r p2.
  assert (Hp1 : p1 = set_waiting
                       (waiting (showStatus (lit "Signing in...") info p)
                        ++ [LoginSent u pw])
                       (showStatus (lit "Signing in...") info p)).
  { subst p1. unfold step, handleLogin. fold u pw.
    apply String.eqb_neq in Hu, Hpw. by rewrite Hu, Hpw. }
  split; [by rewrite Hp1|].
  assert (Hp2 : p2 = handleLogin_resume (seen r) dom_ok
                       (showStatus (lit "Signing in...") info p)).
  { subst p2. rewrite Hp1.
    exact (answer_last (LoginSent u pw) (seen r) dom_ok
             (showStatus (lit "Signing in...") info p)). }
  clear Hp1. subst p1.
  destruct (serve_spec Production.server (Login (Some u) (Some pw) cookie now) w)
    as (w1 & sid0 & s0 & loaded & _ & Hs).
  rewrite production_resolve_login in Hs. cbv zeta in Hs.
  fold r in Hs.
  destruct (login_reply (Login (Some u) (Some pw) cookie now) w1 sid0 s0 u pw)
    as [Hr|(user & Hname & Hr)]; try done.
  - left. rewrite Hr in Hs. rewrite Hp2, Hs. by destruct p.
  - right. rewrite Hr in Hs. rewrite Hp2, Hs.
    unfold handleLogin_resume, authenticate_resume, seen, Auth.login_ok.
    cbn -[showStatus showUserInfo]. rewrite Hname. cbn.
    destruct dom_ok; cbn; split_and!; eauto.
Qed.

(** A visitor who has typed a name (with a no-break space before it and a
    space after it) and a password into the login form, after the page has
    loaded and the check of the session has been refused. *)
Definition alice_typed : page :=
  steps [DOMContentLoaded; Answer 0 (Response false (Some JNull)) true;
         Type_ LoginUsername (Js.utf8 160 +:+ "alice ");
         Type_ LoginPassword "secret1"]
        blank.

(** The answers of the register handler to a request that passes its two
    checks, on a table with the schema of the servers. *)
Lemma register_reply rq w sid s u e pw :
  Body.username (rq_body rq) = Some u →
  Body.email (rq_body rq) = Some e →
  Body.password (rq_body rq) = Some pw →
  u ≠ EmptyString → e ≠ EmptyString → (6 ≤ Js.length pw)%nat →
  Sql.tbl_schema (users_table (db w)) = users_schema →
  out_reply (Auth.register rq w sid s)
    = Reply 400 (error_json "Username or email already exists") ∨
  ∃ id, out_reply (Auth.register rq w sid s) = registered id u e.
Proof.
  intros Hu He Hp Hune Hene Hlen Hs. unfold Auth.register.
  assert (Hpne : pw ≠ EmptyString).
  { intros Hpw. rewrite Hpw in Hlen. simpl in Hlen. lia. }
  rewrite Hu, He, Hp, !truthy_some by done.
  cbn [negb orb]. change (Js.str (Some pw)) with pw.
  change (Js.str (Some u)) with u. change (Js.str (Some e)) with e.
  assert (Hl : (Z.of_nat (Js.length pw) <? 6) = false) by lia.
  rewrite Hl.
  destruct (users_table (db w)) as [sch rows seq] eqn:Et.
  simpl in Hs. subst sch. rewrite users_insert. cbv zeta.
  destruct (existsb _ rows); [by left|].
  destruct (existsb _ rows); [by left|].
  right. by exists (seq + 1).
Qed.

(** The page from the click on the register button to the answer of
    server-production.js, in any state the server can reach and with any
    cookie, when the form passes the checks of the page (nothing empty, the
    two passwords equal and of length six or more, in UTF-16 code units).
    The request carries the
    trimmed username and email and the password as typed.  The server
    never answers with one of its own validation errors: it answers 400
    "Username or email already exists", which the status line shows as an
    error on a page that is otherwise as it was, or 200, and the page goes
    to the signed-in view and greets the user by the name sent.  On 200 the
    status line reads "Account created successfully!" and the fields of the
    form are emptied when the practice area is in the document; when it is
    not, it reads "Network error - cannot connect to server" as an error
    and the fields are kept, although the account exists. *)
Theorem register_round_trip p history cookie now dom_ok :
  let u := Js.trim (register_username (input p)) in
  let e := Js.trim (register_email (input p)) in
  let pw := register_password (input p) in
  u ≠ EmptyString → e ≠ EmptyString →
  register_confirm (input p) = pw → (6 ≤ Js.length pw)%nat →
  let p1 := step (Click DoRegister) p in
  let w := run Production.server history Production.start in
  let r := serve Production.server
             (Register (Some u) (Some e) (Some pw) cookie now) w in
  let p2 := step (Answer (length (waiting p)) (seen r) dom_ok) p1 in
  waiting p1 = waiting p ++ [RegisterSent u e pw] ∧
  ((sv_status r = 400 ∧
    db (sv_world r) = db w ∧
    stat p2 = status_error "Username or email already exists" p ∧
    view p2 = view p ∧ currentUser p2 = currentUser p ∧
    usernameDisplay p2 = usernameDisplay p ∧ input p2 = input p ∧
    waiting p2 = waiting p)
   ∨
   (sv_status r = 200 ∧
    view p2 = signed_in_view ∧
    usernameDisplay p2 = Some (lit u) ∧
    (∃ user, currentUser p2 = Some user ∧ member "username" user = lit u) ∧
    waiting p2 = waiting p ++ [ModulesSent] ∧
    if dom_ok
    then statusText (stat p2) = lit "Account created successfully!" ∧
         statusClass (stat p2) = ["status-message"; "status-success"] ∧
         register_username (input p2) = EmptyString ∧
         register_email (input p2) = EmptyString ∧
         register_password (input p2) = EmptyString ∧
         register_confirm (input p2) = EmptyString
    else stat p2 = status_error "Network error - cannot connect to server" p ∧
         input p2 = input p)).
Proof.
  intros u e pw Hu He Hc Hlen p1 w r p2.
  assert (Hpw : pw ≠ EmptyString).
  { intros Hpw. rewrite Hpw in Hlen. simpl in Hlen. lia. }
  assert (Hp1 : p1 = set_waiting
                       (waiting (showStatus (lit "Creating account...") info p)
                        ++ [RegisterSent u e pw])
                       (showStatus (lit "Creating account...") info p)).
  { subst p1. unfold step, handleRegister. rewrite Hc. fold u e pw.
    apply String.eqb_neq in Hu, He. rewrite Hu, He.
    pose proof Hpw as Hpw'. apply String.eqb_neq in Hpw'. rewrite Hpw'.
    rewrite String.eqb_refl. cbn [orb negb].
    assert (Hl : Nat.ltb (Js.length pw) 6 = false)
      by (apply Nat.ltb_ge; lia).
    by rewrite Hl. }
  split; [by rewrite Hp1|].
  assert (Hp2 : p2 = handleRegister_resume (seen r) dom_ok
                       (showStatus (lit "Creating account...") info p)).
  { subst p2. rewrite Hp1.
    exact (answer_last (RegisterSent u e pw) (seen r) dom_ok
             (showStatus (lit "Creating account...") info p)). }
  clear Hp1. subst p1.
  destruct (serve_spec Production.server
              (Register (Some u) (Some e) (Some pw) cookie now) w)
    as (w1 & sid0 & s0 & loaded & Hload & Hs).
  rewrite production_resolve_register in Hs. cbv zeta in Hs.
  fold r in Hs.
  assert (Hsch : Sql.tbl_schema (users_table (db w1)) = users_schema).
  { rewrite (loaded_as_db _ _ _ _ _ _ _ Hload).
    apply (production_reachable_users_ok history). }
  assert (Hdb : out_reply
                  (Auth.register (Register (Some u) (Some e) (Some pw) cookie now)
                     w1 sid0 s0)
                = Reply 400 (error_json "Username or email already exists") →
                db (sv_world r) = db w).
  { intros Hr. rewrite Hs. cbn [sv_world]. rewrite finish_db.
    rewrite <- (loaded_as_db _ _ _ _ _ _ _ Hload).
    destruct (register_spec (Register (Some u) (Some e) (Some pw) cookie now)
                w1 sid0 s0 Hsch) as [st msg Hst|]; [done|].
    simpl in Hr. discriminate Hr. }
  destruct (register_reply (Register (Some u) (Some e) (Some pw) cookie now)
              w1 sid0 s0 u e pw)
    as [Hr|(id & Hr)]; try done.
  - left. specialize (Hdb Hr).
    split_and!; [by rewrite Hs, Hr|exact Hdb|..];
      rewrite Hp2, Hs, Hr; by destruct p.
  - right. clear Hdb. rewrite Hr in Hs. rewrite Hp2, Hs.
    unfold handleRegister_resume, authenticate_resume, seen, registered.
    cbn. destruct dom_ok; cbn; split_and!; eauto.
Qed.

(** The page from its load to the answer of server-production.js to the
    check of the session, for any state of the server and any cookie.  When
    the cookie names a live session with a user and the practice area is in
    the document, the page goes to the signed-in view, greets the user by
    the name of the session and reads "Welcome back!".  In every other case
    it shows the authentication forms with the login form in front, under
    the message "Checking authentication...": also for a signed-in user
    when the practice area is missing from the document. *)
Theorem page_load_follows_session p w cookie now dom_ok :
  let r := serve Production.server (CurrentUser cookie now) w in
  let p2 := steps [DOMContentLoaded;
                   Answer (length (waiting p)) (seen r) dom_ok] p in
  if authenticated w cookie now && dom_ok then
    view p2 = signed_in_view ∧
    statusText (stat p2) = lit "Welcome back!" ∧
    statusClass (stat p2) = ["status-message"; "status-success"] ∧
    ∃ st, cookie ≫= (λ c, sessions w !! c) = Some st ∧
          usernameDisplay p2
            = Some (JStr <$> Session.username (Session.data st))
  else
    view p2 = signed_out_view ∧
    form p2 = Forms true false ∧
    statusText (stat p2) = lit "Checking authentication..." ∧
    statusClass (stat p2) = ["status-message"].
Proof.
  intros r p2.
  assert (Hp2 : p2 = checkAuthStatus_resume (seen r) dom_ok
                       (showStatus (lit "Checking authentication...") info p)).
  { subst p2.
    exact (answer_last AuthCheck (seen r) dom_ok
             (showStatus (lit "Checking authentication...") info p)). }
  destruct (serve_spec Production.server (CurrentUser cookie now) w)
    as (w1 & sid0 & s0 & loaded & Hload & Hs).
  rewrite production_resolve_me in Hs. cbv zeta in Hs. fold r in Hs.
  simpl in Hload.
  destruct (authenticated w cookie now) eqn:Hauth.
  - destruct (loaded_as_authenticated _ _ _ _ _ _ _ Hauth Hload)
      as (-> & -> & -> & Hu & st & Hst & <-).
    unfold Auth.me in Hs. rewrite Hu in Hs.
    destruct (Session.userId (Session.data st)) as [n|] eqn:Hn; [|done].
    rewrite Hp2, Hs. simpl. rewrite Hst.
    destruct dom_ok; simpl; [|done].
    split_and!; try done. exists st. split; [done|].
    by destruct (Session.username (Session.data st)).
  - pose proof (loaded_as_unauthenticated _ _ _ _ _ _ _ Hauth Hload) as Hu.
    unfold Auth.me in Hs. rewrite Hu in Hs.
    rewrite Hp2, Hs. done.
Qed.

(** server-production.js has no route for the module list, so its
    catch-all route answers the request of [loadModules] with the HTML of
    the front end.  The page then reports "Network error loading modules"
    as an error, in every state of the server and for every visitor; its
    views are left as they are. *)
Theorem production_modules_never_load p i w cookie now dom_ok :
  waiting p !! i = Some ModulesSent →
  let r := serve Production.server (ListModules cookie now) w in
  let p2 := step (Answer i (seen r) dom_ok) p in
  sv_payload r = SendFile "../frontend/index.html" ∧
  statusText (stat p2) = lit "Network error loading modules" ∧
  statusClass (stat p2) = ["status-message"; "status-error"] ∧
  view p2 = view p ∧ currentUser p2 = currentUser p ∧
  waiting p2 = delete i (waiting p).
Proof.
  intros Hi r p2.
  assert (Hres : resolve Production.server (ListModules cookie now) = Auth.spa)
    by reflexivity.
  destruct (serve_spec Production.server (ListModules cookie now) w)
    as (w1 & sid0 & s0 & loaded & _ & Hs).
  cbv zeta in Hs. rewrite Hres in Hs. fold r in Hs.
  subst p2. unfold step. rewrite Hi, Hs. done.
Qed.

(** Logging out from the page does not depend on the server: whatever the
    answer to the request is (a success, an error status, a request that
    fails), the
    page forgets the user, shows the authentication forms with the login
    form in front and reads "Logged out successfully". *)
Theorem logout_signs_the_page_out p r dom_ok :
  let p2 := steps [Click LogoutBtn;
                   Answer (length (waiting p)) r dom_ok] p in
  currentUser p2 = None ∧
  view p2 = signed_out_view ∧
  form p2 = Forms true false ∧
  statusText (stat p2) = lit "Logged out successfully" ∧
  statusClass (stat p2) = ["status-message"; "status-success"] ∧
  waiting p2 = waiting p.
Proof.
  intros p2.
  assert (Hp2 : p2 = handleLogout_resume r
                       (showStatus (lit "Logging out...") info p)).
  { subst p2.
    exact (answer_last LogoutSent r dom_ok
             (showStatus (lit "Logging out...") info p)). }
  rewrite Hp2. done.
Qed.

End ClientServer.

Lemma login_round_trip_witness :
  let u := Js.trim (Client.login_username (Client.input alice_typed)) in
  let pw := Client.login_password (Client.input alice_typed) in
  let r := serve (@Production.server sample_bcrypt)
             (Login (Some u) (Some pw) None 50) production_alice in
  let p2 := Client.steps [Client.Click Client.DoLogin;
                          Client.Answer 0 (Client.seen r) false] alice_typed in
  u = "alice" ∧ pw = "secret1" ∧
  Client.waiting (Client.step (Client.Click Client.DoLogin) alice_typed)
    = [Client.LoginSent "alice" "secret1"] ∧
  sv_status r = 200 ∧
  Client.view p2 = signed_in_view ∧
  Client.statusText (Client.stat p2)
    = Client.lit "Network error - cannot connect to server".
Proof.
  destruct (@login_round_trip sample_bcrypt alice_typed production_alice
              None 50 false)
    as [Hsent [(Hst & _)|(Hst & Hview & _ & _ & _ & Hstat & _)]];
    [discriminate|discriminate|vm_compute in Hst; discriminate Hst|].
  split_and!; [reflexivity|reflexivity|exact Hsent|exact Hst|exact Hview|].
  exact (f_equal Client.statusText Hstat).
Defined.

(** A visitor who has filled in the registration form. *)
Definition bob_typed : Client.page :=
  Client.steps
    [Client.DOMContentLoaded;
     Client.Answer 0 (Client.Response false (Some JNull)) true;
     Client.Click Client.RegisterBtn;
     Client.Type_ Client.RegisterUsername "bob ";
     Client.Type_ Client.RegisterEmail " b@example.com";
     Client.Type_ Client.RegisterPassword "sécret";
     Client.Type_ Client.RegisterConfirm "sécret"]
    blank.

Lemma register_round_trip_witness :
  let r := serve (@Production.server sample_bcrypt)
             (Register (Some "bob") (Some "b@example.com") (Some "sécret")
                None 50) production_alice in
  let p2 := Client.steps [Client.Click Client.DoRegister;
                          Client.Answer 0 (Client.seen r) true] bob_typed in
  Client.waiting (Client.step (Client.Click Client.DoRegister) bob_typed)
    = [Client.RegisterSent "bob" "b@example.com" "sécret"] ∧
  sv_status r = 200 ∧
  Client.view p2 = signed_in_view ∧
  Client.usernameDisplay p2 = Some (Client.lit "bob") ∧
  Client.statusText (Client.stat p2)
    = Client.lit "Account created successfully!".
Proof.
  destruct (@register_round_trip sample_bcrypt bob_typed [register_alice]
              None 50 true)
    as [Hsent [(Hst & _)|(Hst & Hview & Hname & _ & _ & Hstat & _)]];
    [discriminate|discriminate|reflexivity|simpl; lia
    |vm_compute in Hst; discriminate Hst|].
  split_and!;
    [exact Hsent|exact Hst|exact Hview|exact Hname|exact Hstat].
Defined.

(** The page of a visitor who has just logged in on server-production.js. *)
Definition alice_signed_in : Client.page :=
  Client.steps
    [Client.Click Client.DoLogin;
     Client.Answer 0
       (Client.seen (serve (@Production.server sample_bcrypt)
                       (Login (Some "alice") (Some "secret1") None 50)
                       production_alice))
       true]
    alice_typed.

Lemma production_modules_never_load_witness :
  Client.waiting alice_signed_in !! 0%nat = Some Client.ModulesSent ∧
  Client.statusText
    (Client.stat
       (Client.step
          (Client.Answer 0
             (Client.seen (serve (@Production.server sample_bcrypt)
                             (ListModules None 60) production_alice))
             true)
          alice_signed_in))
  = Client.lit "Network error loading modules".
Proof.
  split; [reflexivity|].
  destruct (@production_modules_never_load sample_bcrypt alice_signed_in 0
              production_alice None 60 true) as (_ & Hstat & _);
    [reflexivity|exact Hstat].
Defined.

(** ** The module list of the development server *)

Section DevModuleList.
Context `{Bcrypt}.
Import Client.

(** On the development server the module list is always empty.  The
    request is answered by the first of the two [GET /api/modules] routes,
    which reads the [modules] table, and no route writes that table; the
    catalog of the second route is never sent.  So, whatever requests came
    before, the answer is 200 with an empty list, and the page that
    receives it shows no module and reports nothing. *)
Theorem dev_module_list_stays_empty history cookie now p i :
  waiting p !! i = Some ModulesSent →
  let w := run Dev.server history Dev.start in
  let r := serve Dev.server (ListModules cookie now) w in
  sv_status r = 200 ∧
  sv_payload r = Json (JObj [("modules", JArr [])]) ∧
  step (Answer i (seen r) true) p = set_waiting (delete i (waiting p)) p.
Proof.
  intros Hi w r.
  assert (Hres : resolve Dev.server (ListModules cookie now) = Dev.list_modules_db)
    by reflexivity.
  destruct (serve_spec Dev.server (ListModules cookie now) w)
    as (w1 & sid0 & s0 & loaded & Hload & Hs).
  cbv zeta in Hs. rewrite Hres in Hs. fold r in Hs.
  assert (Hrows : Sql.select_order_by "order_index" (modules_table (db w1)) = []).
  { rewrite (loaded_as_db _ _ _ _ _ _ _ Hload). unfold w.
    by rewrite dev_run_keeps_modules. }
  unfold Dev.list_modules_db in Hs. rewrite Hrows in Hs.
  rewrite Hs. split_and!; [reflexivity|reflexivity|].
  unfold step. by rewrite Hi.
Qed.

End DevModuleList.

Lemma dev_module_list_stays_empty_witness :
  let r := serve (@Dev.server sample_bcrypt) (ListModules None 60) dev_alice in
  Client.waiting alice_signed_in !! 0%nat = Some Client.ModulesSent ∧
  sv_payload r = Json (JObj [("modules", JArr [])]) ∧
  Client.step (Client.Answer 0 (Client.seen r) true) alice_signed_in
  = Client.set_waiting [] alice_signed_in.
Proof.
  split; [reflexivity|].
  destruct (@dev_module_list_stays_empty sample_bcrypt [register_alice]
              None 60 alice_signed_in 0) as (_ & Hpay & Hpage);
    [reflexivity|].
  split; [exact Hpay|exact Hpage].
Defined.
